(** * AI Learning Copilot: request client and task/session state manager

    A shallow embedding of [frontend/codecore.js/script.js] (the subjects
    page and the task page) and of the [APIClient] class, followed by the
    properties of the specification that were checked against them.

    Conventions of the embedding.
    - A JavaScript string is a [string]; every [ascii] stands for the UTF-16
      code unit of the same number (code units below 256).
    - A JSON payload is a [value]; the payload numbers are kept abstract
      behind the [JSNumber] interface.
    - Arithmetic on JavaScript numbers that the page itself performs (the
      score) is IEEE 754 binary64, through [SpecFloat].
    - A function that can throw returns a [completion]; a function that also
      reads or writes the page state runs in the state-and-exception monad
      [M].  Everything the state does not determine (the backend, the clock,
      the answer to a [confirm] dialog) is an explicit [environment]. *)

From Stdlib Require Import String Ascii List ZArith Lia Bool SpecFloat DecimalString.
From Stdlib Require Import DecimalNat.
Import ListNotations.
Open Scope string_scope.
Set Warnings "-register-all".

(* ================================================================== *)
(** * Strings *)

Module JSString.

(** The code units below 256 that [String.prototype.trim] strips: the
    WhiteSpace and LineTerminator productions (TAB, LF, VT, FF, CR, SP,
    NBSP). *)
Definition isWhiteSpace (c : ascii) : bool :=
  let n := nat_of_ascii c in
  (((9 <=? n) && (n <=? 13)) || (n =? 32) || (n =? 160))%nat.

Fixpoint trimStart (s : string) : string :=
  match s with
  | EmptyString => EmptyString
  | String c r => if isWhiteSpace c then trimStart r else s
  end.

Fixpoint trimEnd (s : string) : string :=
  match s with
  | EmptyString => EmptyString
  | String c r =>
      match trimEnd r with
      | EmptyString => if isWhiteSpace c then EmptyString else String c EmptyString
      | r' => String c r'
      end
  end.

Definition trim (s : string) : string := trimEnd (trimStart s).

(** [String.prototype.toLowerCase] on code units below 256: A-Z and the
    Latin-1 capitals (all of U+00C0..U+00DE but the multiplication sign). *)
Definition lowerUnit (c : ascii) : ascii :=
  let n := nat_of_ascii c in
  if (((65 <=? n) && (n <=? 90)) || ((192 <=? n) && (n <=? 222) && negb (n =? 215)))%nat
  then ascii_of_nat (n + 32)
  else c.

Fixpoint toLowerCase (s : string) : string :=
  match s with
  | EmptyString => EmptyString
  | String c r => String (lowerUnit c) (toLowerCase r)
  end.

(** [s.includes(sub)] *)
Fixpoint includes (s sub : string) : bool :=
  match s with
  | EmptyString => prefix sub s
  | String _ r => prefix sub s || includes r sub
  end.

(** [s.substring(0, n)] *)
Definition substring0 (n : nat) (s : string) : string := substring 0 n s.

(** A string is truthy when it is not empty. *)
Definition nonEmpty (s : string) : bool :=
  match s with EmptyString => false | String _ _ => true end.

(** Decimal rendering of array indices and integer counts. *)
Definition ofNat (n : nat) : string := NilZero.string_of_uint (Nat.to_uint n).
Definition ofZ (z : Z) : string := NilZero.string_of_int (Z.to_int z).

End JSString.
Import JSString.

(* ================================================================== *)
(** * Completions *)

(** What a [throw] carries.  The page only ever reads [error.message]. *)
Inductive exn : Type :=
| Error (message : string)
| TypeError (message : string).

Definition messageOf (e : exn) : string :=
  match e with Error m | TypeError m => m end.

Inductive completion (A : Type) : Type :=
| Normal (a : A)
| Throw (e : exn).
Arguments Normal {A} a.
Arguments Throw {A} e.

Definition bindC {A B} (c : completion A) (k : A -> completion B) : completion B :=
  match c with
  | Normal a => k a
  | Throw e => Throw e
  end.

Declare Scope completion_scope.
Delimit Scope completion_scope with comp.
Notation "'let*' x ':=' c 'in' k" := (bindC c (fun x => k))
  (at level 61, x name, c at next level, right associativity) : completion_scope.

Fixpoint mapC {A B} (f : A -> completion B) (l : list A) : completion (list B) :=
  match l with
  | [] => Normal []
  | x :: r => bindC (f x) (fun y => bindC (mapC f r) (fun ys => Normal (y :: ys)))
  end.

(* ================================================================== *)
(** * JSON values *)

(** The two things the code asks of a payload number: is it falsy (zero or
    NaN), and what does [String(n)] print. *)
Class JSNumber (num : Type) : Type := {
  numberIsFalsy : num -> bool;
  numberToString : num -> string
}.

(** Integers are one model of the payload numbers. *)
#[export] Instance JSNumber_Z : JSNumber Z := {
  numberIsFalsy := Z.eqb 0;
  numberToString := JSString.ofZ
}.

(** A payload as [JSON.parse] returns it, and [undefined] for what is not
    there.  [VObj] lists the own properties of an object; a key is read at
    its first occurrence. *)
Inductive value (num : Type) : Type :=
| VUndefined
| VNull
| VBool (b : bool)
| VNum (n : num)
| VStr (s : string)
| VArr (elems : list (value num))
| VObj (props : list (string * value num)).
Arguments VUndefined {num}.
Arguments VNull {num}.
Arguments VBool {num} b.
Arguments VNum {num} n.
Arguments VStr {num} s.
Arguments VArr {num} elems.
Arguments VObj {num} props.

Inductive jstype : Type := TUndefined | TObject | TBoolean | TNumber | TString.

Definition jstype_eqb (a b : jstype) : bool :=
  match a, b with
  | TUndefined, TUndefined | TObject, TObject | TBoolean, TBoolean
  | TNumber, TNumber | TString, TString => true
  | _, _ => false
  end.

Section Values.
Context {num : Type} `{JSNumber num}.

Definition typeof (v : value num) : jstype :=
  match v with
  | VUndefined => TUndefined
  | VNull => TObject
  | VBool _ => TBoolean
  | VNum _ => TNumber
  | VStr _ => TString
  | VArr _ | VObj _ => TObject
  end.

(** ToBoolean *)
Definition truthy (v : value num) : bool :=
  match v with
  | VUndefined | VNull => false
  | VBool b => b
  | VNum n => negb (numberIsFalsy n)
  | VStr s => nonEmpty s
  | VArr _ | VObj _ => true
  end.

Fixpoint lookup (k : string) (props : list (string * value num)) : option (value num) :=
  match props with
  | [] => None
  | (k', v) :: r => if String.eqb k k' then Some v else lookup k r
  end.

(** The property read [v.k], for the data fields the code reads
    ([question], [text], [title], [topics], [topic], [questions], [data],
    [is_correct], [feedback], [detail], [message]): none of them is
    inherited from a prototype, so only an object's own properties answer,
    and reading from [null] or [undefined] throws. *)
Definition get (v : value num) (k : string) : completion (value num) :=
  match v with
  | VUndefined => Throw (TypeError ("Cannot read properties of undefined (reading '" ++ k ++ "')"))
  | VNull => Throw (TypeError ("Cannot read properties of null (reading '" ++ k ++ "')"))
  | VObj props => Normal (match lookup k props with Some x => x | None => VUndefined end)
  | _ => Normal VUndefined
  end.

(** [String(v)] and the conversion of a template literal.  A plain object
    prints through [Object.prototype.toString] unless an own [toString]
    property shadows it; a JSON value is never callable, so then the
    conversion finds no primitive and throws.  An array joins the
    conversions of its elements, with [null] and [undefined] printed
    empty. *)
Fixpoint toStr (v : value num) : completion string :=
  match v with
  | VUndefined => Normal "undefined"
  | VNull => Normal "null"
  | VBool true => Normal "true"
  | VBool false => Normal "false"
  | VNum n => Normal (numberToString n)
  | VStr s => Normal s
  | VArr elems =>
      (fix join (l : list (value num)) : completion string :=
         match l with
         | [] => Normal ""
         | x :: r =>
             bindC (match x with
                    | VUndefined | VNull => Normal ""
                    | _ => toStr x
                    end)
               (fun s =>
                  match r with
                  | [] => Normal s
                  | _ :: _ => bindC (join r) (fun t => Normal (s ++ "," ++ t))
                  end)
         end) elems
  | VObj props =>
      match lookup "toString" props with
      | Some _ => Throw (TypeError "Cannot convert object to primitive value")
      | None => Normal "[object Object]"
      end
  end.

(** [a || b] where [b] is only evaluated when [a] is falsy. *)
Definition orElse (a : value num) (b : completion (value num)) : completion (value num) :=
  if truthy a then Normal a else b.

(** [x.trim()] for an argument that the caller meant to be a string. *)
Definition callTrim (v : value num) : completion string :=
  match v with
  | VStr s => Normal (trim s)
  | VUndefined | VNull => Throw (TypeError "Cannot read properties of undefined (reading 'trim')")
  | _ => Throw (TypeError "trim is not a function")
  end.

(** The canonical question shape [{ question: text }]. *)
Definition canonical (text : value num) : value num := VObj [("question", text)].

(* -------------------------------------------------------------- *)
(** ** The three places that read a question *)

Local Open Scope completion_scope.

(** [generateQuestionsForTopic], the callback of [response.questions.map]:
    [{ question: typeof q === 'string' ? q : q.question || q.text || String(q) }] *)
Definition ingestQuestion (q : value num) : completion (value num) :=
  let* text :=
    (if jstype_eqb (typeof q) TString then Normal q
     else
       let* a := get q "question" in
       orElse a (let* b := get q "text" in
                 orElse b (let* s := toStr q in Normal (VStr s)))) in
  Normal (canonical text).

(** [renderTaskQuestions], the callback of [questions.map]. *)
Definition normalizeQuestion (q : value num) : completion (value num) :=
  if jstype_eqb (typeof q) TString then
    Normal (canonical q)
  else if truthy q && jstype_eqb (typeof q) TObject then
    let* a := get q "question" in
    if truthy a then Normal q
    else
      (* Try to extract text from any object *)
      let* text :=
        (let* b := get q "text" in
         orElse b (let* c := get q "title" in
                   orElse c (let* s := toStr q in Normal (VStr s)))) in
      Normal (canonical text)
  else
    let* s := toStr q in Normal (canonical (VStr s)).

(** [submitTaskAnswer], from [let questionText = ''] to the final trim. *)
Definition extractQuestionText (questionObj : value num) : completion string :=
  let* questionText :=
    (if jstype_eqb (typeof questionObj) TString then Normal questionObj
     else if truthy questionObj && jstype_eqb (typeof questionObj) TObject then
       (* Try multiple properties that might contain the question *)
       let* a := get questionObj "question" in
       let* t :=
         orElse a (let* b := get questionObj "text" in
                   orElse b (let* c := get questionObj "title" in
                             orElse c (Normal (VStr "")))) in
       (* If still empty, try toString *)
       if negb (truthy t) then
         let* s := toStr questionObj in Normal (VStr (substring0 500 s))
       else Normal t
     else if truthy questionObj then
       let* s := toStr questionObj in Normal (VStr s)
     else Normal (VStr "")) in
  (* Final trim *)
  let* s := toStr questionText in
  Normal (trim s).

End Values.

(* ================================================================== *)
(** * The state-and-exception monad *)

(** A computation over a state [S]: it ends normally or by a throw, and in
    both cases leaves a state behind (what was written before a throw stays
    written). *)
Definition M (S A : Type) : Type := S -> completion A * S.

Definition ret {S A} (a : A) : M S A := fun s => (Normal a, s).

Definition bind {S A B} (m : M S A) (k : A -> M S B) : M S B :=
  fun s =>
    match m s with
    | (Normal a, s') => k a s'
    | (Throw e, s') => (Throw e, s')
    end.

Definition throw {S A} (e : exn) : M S A := fun s => (Throw e, s).

(** [try { body } catch (error) { handler }] *)
Definition tryCatch {S A} (body : M S A) (handler : exn -> M S A) : M S A :=
  fun s =>
    match body s with
    | (Normal a, s') => (Normal a, s')
    | (Throw e, s') => handler e s'
    end.

Definition gets {S A} (f : S -> A) : M S A := fun s => (Normal (f s), s).
Definition modify {S} (f : S -> S) : M S unit := fun s => (Normal tt, f s).

(** A pure step that may throw. *)
Definition lift {S A} (c : completion A) : M S A := fun s => (c, s).

(** Run a computation on the second component of a paired state. *)
Definition onWorld {L S A} (m : M S A) : M (L * S) A :=
  fun ls => let '(r, s') := m (snd ls) in (r, (fst ls, s')).

Declare Scope monad_scope.
Delimit Scope monad_scope with monad.
Notation "x <- m ;; k" := (bind m (fun x => k))
  (at level 61, m at next level, right associativity) : monad_scope.
Notation "m ;; k" := (bind m (fun _ => k))
  (at level 61, right associativity) : monad_scope.

(** The final state and the completion of a run. *)
Definition stateAfter {S A} (m : M S A) (s : S) : S := snd (m s).
Definition outcome {S A} (m : M S A) (s : S) : completion A := fst (m s).

(* ================================================================== *)
(** * IEEE 754 binary64, for the numbers the page computes *)

Module Number.

Definition prec : Z := 53.
Definition emax : Z := 1024.

Definition ofZ (z : Z) : spec_float := binary_normalize prec emax z 0 false.
Definition ofNat (n : nat) : spec_float := ofZ (Z.of_nat n).

Definition div : spec_float -> spec_float -> spec_float := SFdiv prec emax.
Definition mul : spec_float -> spec_float -> spec_float := SFmul prec emax.

(** [Math.round]: floor (x + 1/2), computed exactly; NaN, the infinities,
    the zeros and the integers are returned as they are, and a result of
    zero keeps the sign of the argument. *)
Definition round (x : spec_float) : spec_float :=
  match x with
  | S754_finite s m e =>
      if (0 <=? e)%Z then x
      else
        let v := if s then Z.neg m else Z.pos m in
        let r := ((2 * v + 2 ^ (- e)) / 2 ^ (1 - e))%Z in
        if (r =? 0)%Z then S754_zero s else ofZ r
  | _ => x
  end.

(** What [JSON.stringify] then [JSON.parse] make of a number: NaN and the
    infinities come back as [null], minus zero as zero. *)
Definition throughJSON (x : spec_float) : option spec_float :=
  match x with
  | S754_nan | S754_infinity _ => None
  | S754_zero _ => Some (S754_zero false)
  | S754_finite _ _ _ => Some x
  end.

(** Rounding to the nearest integer, ties upwards, of the exact quotient
    [a / b]: the mathematical reading of [round(a / b)]. *)
Definition roundHalfUp (a b : Z) : Z := ((2 * a + b) / (2 * b))%Z.

End Number.

(* ================================================================== *)
(** * Data model, page state and environment *)

Section Model.
Context {num : Type} `{JSNumber num}.

Local Abbreviation value := (value num).

(** ** Persisted and in-memory data *)

Record Topic : Type := {
  topic_id : string;             (* `topic-${idx}` *)
  topic_name : value;            (* topic.topic, as the backend sent it *)
  topic_questions : value        (* topic.questions || [] *)
}.

Record Subject : Type := {
  subject_id : Z;                (* Date.now() *)
  subject_name : string;
  subject_topics : list Topic;
  subject_isAI : bool;
  subject_createdAt : string
}.

Record TaskData : Type := {
  td_subjectId : Z;
  td_topicId : string;
  td_subject : string;
  td_topic : value;
  td_questions : value;
  td_needsGeneration : bool;
  td_apiGenerated : bool
}.

Record TaskHistoryEntry : Type := {
  h_subject : string;
  h_topic : value;
  h_totalQuestions : nat;
  h_correctAnswers : nat;
  h_score : option spec_float;   (* the score as JSON keeps it *)
  h_date : string;
  h_timestamp : Z
}.

(** [localStorage].  The browser keeps JSON text under each key; the model
    keeps what [JSON.parse] reads back, [None] for a key that is not set. *)
Record localStorage : Type := {
  ls_subjects : option (list Subject);
  ls_currentTaskData : option TaskData;
  ls_taskHistory : option (list TaskHistoryEntry);
  ls_currentQuizTopic : option string;
  ls_needsQuizGeneration : option string
}.

(** The globals that the task page hangs on [window]. *)
Record window : Type := {
  currentTaskQuestions : option (list value);
  taskAnswers : option (list (option string));
  taskScores : option (list (option Z));
  location : option string       (* set by an assignment to location.href *)
}.

(** ** What the page shows *)

(** The pieces that are written into [questionsContainer.innerHTML]. *)
Inductive fragment : Type :=
| GeneratingQuestions (topic : string)
| FailureBanner (message : string)     (* "AI Generation Failed", error.message *)
| BackToSubjects                       (* "No questions available. Please go back and try again." *)
| NoQuestionsAvailable                 (* the empty state of renderTaskQuestions *)
| QuestionsGrid (cards : list string). (* one card per question text, and "Submit All Answers" *)

Inductive answerStatus : Type :=
| Checking
| Correct (feedback : string)
| Incorrect (feedback : string)
| CouldNotVerify (message : string).

Inductive notice : Type :=
| WarnEnterSubjectName                 (* showError('Please enter a subject name') *)
| InfoSubjectExists                    (* showError('This subject already exists!') *)
| QuotaExceeded
| ConnectionError
| ApiKeyError
| AIConnectionFailed (message : string)
| GeneratedTopics (topics questions : string)
| GeneratedQuestions (count : nat) (topic : string)
| AlertEnterAnswer                     (* alert('Please enter an answer first!') *)
| AlertQuestionNotFound                (* alert('Error: Question not found!') *)
| AlertNoTaskData                      (* alert('No task data found!') *)
| AlertTaskComplete (correct total : nat) (score : spec_float).

(** A subject card as [renderSubjects] draws it. *)
Record subjectCard : Type := {
  card_id : Z;
  card_name : string;
  card_topicCount : nat;
  card_topics : list string            (* the first three topic names *)
}.

Record dom : Type := {
  subjectInput : string;               (* #subjectInput.value *)
  loading : bool;                      (* is the loading indicator shown *)
  subjectsContainer : list subjectCard;
  taskEmptyState : bool;               (* is #taskEmptyState shown *)
  questionsContainer : list fragment;
  resultStatus : list (nat * answerStatus);  (* writes to #result-status-i, oldest first *)
  notices : list notice                (* showError, showSuccess and alert, oldest first *)
}.

(** ** The request client's side of the world *)

Record request : Type := {
  req_baseUrl : string;
  req_endpoint : string;
  req_query : list (string * string);  (* the URLSearchParams, before encoding *)
  req_method : string;
  req_body : option value
}.

(** What [await fetch(...)] can come to: a rejection (no response at all,
    or the abort that the timeout triggers), or a response, whose [json()]
    may itself throw. *)
Inductive fetchOutcome : Type :=
| Rejected (e : exn)
| Response (ok : bool) (status : Z) (statusText : string) (json : completion value).

Record environment : Type := {
  fetch : request -> fetchOutcome;
  dateNow : Z;                         (* Date.now() *)
  dateISO : string;                    (* new Date().toISOString() *)
  confirm : bool                       (* the answer to window.confirm *)
}.

Record world : Type := {
  subjects : list Subject;             (* AppState.subjects *)
  storage : localStorage;
  win : window;
  page : dom;
  network : list request               (* the requests handed to fetch, oldest first *)
}.

(** ** Field updates *)

Definition withSubjects (l : list Subject) (w : world) : world :=
  {| subjects := l; storage := storage w; win := win w; page := page w; network := network w |}.
Definition withStorage (f : localStorage -> localStorage) (w : world) : world :=
  {| subjects := subjects w; storage := f (storage w); win := win w; page := page w; network := network w |}.
Definition withWindow (f : window -> window) (w : world) : world :=
  {| subjects := subjects w; storage := storage w; win := f (win w); page := page w; network := network w |}.
Definition withPage (f : dom -> dom) (w : world) : world :=
  {| subjects := subjects w; storage := storage w; win := win w; page := f (page w); network := network w |}.
Definition withNetwork (l : list request) (w : world) : world :=
  {| subjects := subjects w; storage := storage w; win := win w; page := page w; network := l |}.

Definition setSubjectsItem (v : list Subject) (s : localStorage) : localStorage :=
  {| ls_subjects := Some v; ls_currentTaskData := ls_currentTaskData s;
     ls_taskHistory := ls_taskHistory s; ls_currentQuizTopic := ls_currentQuizTopic s;
     ls_needsQuizGeneration := ls_needsQuizGeneration s |}.
Definition setCurrentTaskData (v : TaskData) (s : localStorage) : localStorage :=
  {| ls_subjects := ls_subjects s; ls_currentTaskData := Some v;
     ls_taskHistory := ls_taskHistory s; ls_currentQuizTopic := ls_currentQuizTopic s;
     ls_needsQuizGeneration := ls_needsQuizGeneration s |}.
Definition setTaskHistory (v : list TaskHistoryEntry) (s : localStorage) : localStorage :=
  {| ls_subjects := ls_subjects s; ls_currentTaskData := ls_currentTaskData s;
     ls_taskHistory := Some v; ls_currentQuizTopic := ls_currentQuizTopic s;
     ls_needsQuizGeneration := ls_needsQuizGeneration s |}.
Definition setQuizHandOff (topicName : string) (s : localStorage) : localStorage :=
  {| ls_subjects := ls_subjects s; ls_currentTaskData := ls_currentTaskData s;
     ls_taskHistory := ls_taskHistory s; ls_currentQuizTopic := Some topicName;
     ls_needsQuizGeneration := Some "true" |}.

Definition setTaskGlobals (qs : list value) (w : window) : window :=
  {| currentTaskQuestions := Some qs;
     taskAnswers := Some (repeat None (length qs));
     taskScores := Some (repeat None (length qs));
     location := location w |}.
Definition setTaskAnswers (a : list (option string)) (w : window) : window :=
  {| currentTaskQuestions := currentTaskQuestions w; taskAnswers := Some a;
     taskScores := taskScores w; location := location w |}.
Definition setTaskScores (a : list (option Z)) (w : window) : window :=
  {| currentTaskQuestions := currentTaskQuestions w; taskAnswers := taskAnswers w;
     taskScores := Some a; location := location w |}.
Definition setLocation (href : string) (w : window) : window :=
  {| currentTaskQuestions := currentTaskQuestions w; taskAnswers := taskAnswers w;
     taskScores := taskScores w; location := Some href |}.

Definition setSubjectInput (v : string) (d : dom) : dom :=
  {| subjectInput := v; loading := loading d; subjectsContainer := subjectsContainer d;
     taskEmptyState := taskEmptyState d; questionsContainer := questionsContainer d;
     resultStatus := resultStatus d; notices := notices d |}.
Definition setLoading (b : bool) (d : dom) : dom :=
  {| subjectInput := subjectInput d; loading := b; subjectsContainer := subjectsContainer d;
     taskEmptyState := taskEmptyState d; questionsContainer := questionsContainer d;
     resultStatus := resultStatus d; notices := notices d |}.
Definition setSubjectsContainer (c : list subjectCard) (d : dom) : dom :=
  {| subjectInput := subjectInput d; loading := loading d; subjectsContainer := c;
     taskEmptyState := taskEmptyState d; questionsContainer := questionsContainer d;
     resultStatus := resultStatus d; notices := notices d |}.
Definition setTaskEmptyState (b : bool) (d : dom) : dom :=
  {| subjectInput := subjectInput d; loading := loading d; subjectsContainer := subjectsContainer d;
     taskEmptyState := b; questionsContainer := questionsContainer d;
     resultStatus := resultStatus d; notices := notices d |}.
Definition setQuestionsContainer (c : list fragment) (d : dom) : dom :=
  {| subjectInput := subjectInput d; loading := loading d; subjectsContainer := subjectsContainer d;
     taskEmptyState := taskEmptyState d; questionsContainer := c;
     resultStatus := resultStatus d; notices := notices d |}.
Definition addResultStatus (i : nat) (st : answerStatus) (d : dom) : dom :=
  {| subjectInput := subjectInput d; loading := loading d; subjectsContainer := subjectsContainer d;
     taskEmptyState := taskEmptyState d; questionsContainer := questionsContainer d;
     resultStatus := resultStatus d ++ [(i, st)]; notices := notices d |}.
Definition addNotice (n : notice) (d : dom) : dom :=
  {| subjectInput := subjectInput d; loading := loading d; subjectsContainer := subjectsContainer d;
     taskEmptyState := taskEmptyState d; questionsContainer := questionsContainer d;
     resultStatus := resultStatus d; notices := notices d ++ [n] |}.

(** ** Small page helpers of both scripts *)

Local Open Scope monad_scope.

Definition showLoading : M world unit := modify (withPage (setLoading true)).
Definition hideLoading : M world unit := modify (withPage (setLoading false)).
Definition notify (n : notice) : M world unit := modify (withPage (addNotice n)).
Definition setInnerHTML (c : list fragment) : M world unit :=
  modify (withPage (setQuestionsContainer c)).
Definition appendInnerHTML (c : list fragment) : M world unit :=
  modify (withPage (fun d => setQuestionsContainer (questionsContainer d ++ c) d)).
Definition navigate (href : string) : M world unit :=
  modify (withWindow (setLocation href)).

(** [saveState]: [localStorage.setItem('subjects', JSON.stringify(AppState.subjects))] *)
Definition saveState : M world unit :=
  modify (fun w => withStorage (setSubjectsItem (subjects w)) w).

(* ================================================================ *)
(** * APIClient *)

Definition defaultBaseUrl : string := "http://localhost:8000/api".

(** The message of the [Error] thrown on a response that is not ok:
    [errorData.detail?.message || errorData.message || `HTTP ${status}: ${statusText}`] *)
Definition errorMessage (errorData : value) (status : Z) (statusText : string)
  : completion string :=
  (let* detail := get errorData "detail" in
   let* m1 := (match detail with
               | VUndefined | VNull => Normal VUndefined
               | _ => get detail "message"
               end) in
   let* m := orElse m1
               (let* m2 := get errorData "message" in
                orElse m2 (Normal (VStr ("HTTP " ++ JSString.ofZ status ++ ": " ++ statusText)))) in
   toStr m)%comp.

(** [_request(endpoint, method, body)].  The request is handed to [fetch]
    (and so recorded in [network]); the [catch] of the source only logs
    and rethrows. *)
Definition _request (env : environment) (req : request) : M world value :=
  modify (fun w => withNetwork (network w ++ [req]) w) ;;
  match fetch env req with
  | Rejected e => throw e
  | Response ok status statusText json =>
      if negb ok then
        let errorData := match json with Normal v => v | Throw _ => VObj [] end in
        msg <- lift (errorMessage errorData status statusText) ;;
        throw (Error msg)
      else lift json
  end.

(** [!x || x.trim().length === 0] *)
Definition isBlank (x : value) : completion bool :=
  if negb (truthy x) then Normal true
  else (let* t := callTrim x in Normal (Nat.eqb (String.length t) 0))%comp.

Definition generateContent (env : environment) (baseUrl : string) (subject : value)
  : M world value :=
  blank <- lift (isBlank subject) ;;
  if (blank : bool) then throw (Error "Subject cannot be empty")
  else
    s <- lift (callTrim subject) ;;
    _request env {| req_baseUrl := baseUrl; req_endpoint := "/generate"; req_query := [];
                    req_method := "POST"; req_body := Some (VObj [("subject", VStr s)]) |}.

Definition generateQuestions (env : environment) (baseUrl : string)
           (subject topic : value) (count : Z) : M world value :=
  if negb (truthy subject) || negb (truthy topic) then
    throw (Error "Subject and topic are required")
  else if (count <? 1)%Z || (count >? 20)%Z then
    throw (Error "Count must be between 1 and 20")
  else
    s <- lift (callTrim subject) ;;
    t <- lift (callTrim topic) ;;
    response <- _request env
      {| req_baseUrl := baseUrl; req_endpoint := "/generate-questions";
         req_query := [("subject", s); ("topic", t); ("count", JSString.ofZ count)];
         req_method := "POST"; req_body := None |} ;;
    (* return response.data || response *)
    data <- lift (get response "data") ;;
    ret (if truthy data then data else response).

Definition verifyAnswer (env : environment) (baseUrl : string) (question answer : value)
  : M world value :=
  qBlank <- lift (isBlank question) ;;
  if (qBlank : bool) then throw (Error "Question cannot be empty")
  else
    aBlank <- lift (isBlank answer) ;;
    if (aBlank : bool) then throw (Error "Answer cannot be empty")
    else
      q <- lift (callTrim question) ;;
      a <- lift (callTrim answer) ;;
      _request env {| req_baseUrl := baseUrl; req_endpoint := "/verify-answer";
                      req_query := [("question", q); ("answer", a)];
                      req_method := "POST"; req_body := None |}.

(* ================================================================ *)
(** * The subjects page *)

Fixpoint mapiC {A B} (f : A -> nat -> completion B) (i : nat) (l : list A)
  : completion (list B) :=
  match l with
  | [] => Normal []
  | x :: r => bindC (f x i) (fun y => bindC (mapiC f (S i) r) (fun ys => Normal (y :: ys)))
  end.

(** [xs.map(f)] on a payload value: only an array has [map]. *)
Definition arrayOf (what : string) (v : value) : completion (list value) :=
  match v with
  | VArr l => Normal l
  | VUndefined | VNull =>
      Throw (TypeError ("Cannot read properties of undefined (reading 'map')"))
  | _ => Throw (TypeError (what ++ ".map is not a function"))
  end.

(** The callback of [response.topics.map] in [generateSubject]. *)
Definition topicOfPayload (topic : value) (idx : nat) : completion Topic :=
  (let* name := get topic "topic" in
   let* qs := get topic "questions" in
   Normal {| topic_id := "topic-" ++ JSString.ofNat idx;
             topic_name := name;
             topic_questions := if truthy qs then qs else VArr [] |})%comp.

(** One card of [renderSubjects]; the template prints the subject name and
    the names of its first three topics. *)
Definition cardOf (s : Subject) : completion subjectCard :=
  (let* names := mapC (fun t => toStr (topic_name t)) (firstn 3 (subject_topics s)) in
   Normal {| card_id := subject_id s; card_name := subject_name s;
             card_topicCount := length (subject_topics s); card_topics := names |})%comp.

(** [renderSubjects].  The markup is built before it is assigned, so a
    throw while building leaves the container as it was. *)
Definition renderSubjects : M world unit :=
  l <- gets subjects ;;
  cards <- lift (mapC cardOf l) ;;
  modify (withPage (setSubjectsContainer cards)).

(** The branches of the [catch] in [generateSubject], chosen on the text of
    [error.message]. *)
Definition generationFailure (message : string) : notice :=
  if includes message "429" || includes message "quota" || includes message "exceeded"
  then QuotaExceeded
  else if includes message "fetch" || includes message "connection"
          || includes message "NetworkError"
  then ConnectionError
  else if includes message "API key" || includes message "401" || includes message "403"
  then ApiKeyError
  else AIConnectionFailed message.

Definition sameNameIgnoringCase (subjectName : string) (s : Subject) : bool :=
  String.eqb (toLowerCase (subject_name s)) (toLowerCase subjectName).

(** [generateSubject].  The one [await] is the call of [generateContent];
    the rest of the function runs on the world that the call leaves.  This
    is the run that no other handler interrupts at the [await]; the two
    halves of a run are [generateSubjectUntilAwait] and
    [generateSubjectAfterAwait] below. *)
Definition generateSubject (env : environment) : M world unit :=
  input <- gets (fun w => subjectInput (page w)) ;;
  let subjectName := trim input in
  if negb (nonEmpty subjectName) then
    notify WarnEnterSubjectName
  else
    (* Check if subject already exists *)
    existingSubject <- gets (fun w => find (sameNameIgnoringCase subjectName) (subjects w)) ;;
    match existingSubject with
    | Some _ => notify InfoSubjectExists
    | None =>
        tryCatch
          (showLoading ;;
           response <- generateContent env defaultBaseUrl (VStr subjectName) ;;
           topicsField <- lift (get response "topics") ;;
           payload <- lift (arrayOf "response.topics" topicsField) ;;
           topics <- lift (mapiC topicOfPayload 0 payload) ;;
           let newSubject := {| subject_id := dateNow env; subject_name := subjectName;
                                subject_topics := topics; subject_isAI := true;
                                subject_createdAt := dateISO env |} in
           (* Add to state *)
           modify (fun w => withSubjects (newSubject :: subjects w) w) ;;
           saveState ;;
           modify (withPage (setSubjectInput "")) ;;
           hideLoading ;;
           renderSubjects ;;
           totalTopics <- lift (bindC (get response "total_topics") toStr) ;;
           totalQuestions <- lift (bindC (get response "total_questions") toStr) ;;
           notify (GeneratedTopics totalTopics totalQuestions))
          (fun error =>
             hideLoading ;;
             notify (generationFailure (messageOf error)))
    end.

(** [deleteSubject(subjectId)] *)
Definition deleteSubject (env : environment) (subjectId : Z) : M world unit :=
  if confirm env then
    modify (fun w =>
              withSubjects (filter (fun s => negb (Z.eqb (subject_id s) subjectId))
                                   (subjects w)) w) ;;
    saveState ;;
    renderSubjects
  else ret tt.

(** [viewTopicQuestions(subjectId, topicId)] *)
Definition viewTopicQuestions (subjectId : Z) (topicId : string) : M world unit :=
  found <- gets (fun w => find (fun s => Z.eqb (subject_id s) subjectId) (subjects w)) ;;
  match found with
  | None => ret tt
  | Some subject =>
      match find (fun t => String.eqb (topic_id t) topicId) (subject_topics subject) with
      | None => ret tt
      | Some topic =>
          modify (withStorage (setCurrentTaskData
            {| td_subjectId := subjectId; td_topicId := topicId;
               td_subject := subject_name subject; td_topic := topic_name topic;
               td_questions := topic_questions topic;  (* existing questions as fallback *)
               td_needsGeneration := true; td_apiGenerated := false |})) ;;
          navigate "task.html"
      end
  end.

(** [startQuizForTopic(topicName)] *)
Definition startQuizForTopic (topicName : string) : M world unit :=
  modify (withStorage (setQuizHandOff topicName)) ;;
  navigate "../codecore.html/quize.html".
(* ================================================================ *)
(** * The task page *)

(** [renderTaskQuestions(questions)].  The globals are stored before the
    markup is built; the markup prints each [q.question] in a template.
    [questions.length] is read off arrays and strings; an object that
    carries a [length] property of its own is not told apart from one that
    does not. *)
Definition renderTaskQuestions (questions : value) : M world unit :=
  if negb (truthy questions) then setInnerHTML [NoQuestionsAvailable]
  else
    match questions with
    | VArr [] => setInnerHTML [NoQuestionsAvailable]
    | VArr qs =>
        normalizedQuestions <- lift (mapC normalizeQuestion qs) ;;
        modify (withWindow (setTaskGlobals normalizedQuestions)) ;;
        cards <- lift (mapC (fun q => bindC (get q "question") toStr) normalizedQuestions) ;;
        setInnerHTML [QuestionsGrid cards]
    | _ => throw (TypeError "questions.map is not a function")
    end.

(** [Array.isArray(v)] *)
Definition isArray (v : value) : bool :=
  match v with VArr _ => true | _ => false end.

(** [v && v.length > 0], with [length] read as in [renderTaskQuestions]:
    off arrays and strings.  A [length] property of an object's own is not
    read: an object counts as having no elements. *)
Definition hasElements (v : value) : bool :=
  match v with
  | VArr (_ :: _) => true
  | VStr (String _ _) => true
  | _ => false
  end.

(** The extraction of the questions from the response, in the [try] of
    [generateQuestionsForTopic]. *)
Definition questionsOfResponse (response : value) : completion (list value) :=
  if truthy response then
    (let* qs := get response "questions" in
     if truthy qs && isArray qs then
       let* l := arrayOf "response.questions" qs in mapC ingestQuestion l
     else if isArray response then
       let* l := arrayOf "response" response in mapC ingestQuestion l
     else Throw (Error "Invalid response format from API"))%comp
  else Throw (Error "Invalid response format from API").

Fixpoint updateFirst {A} (p : A -> bool) (f : A -> A) (l : list A) : list A :=
  match l with
  | [] => []
  | x :: r => if p x then f x :: r else x :: updateFirst p f r
  end.

Definition setTopicQuestions (questions : value) (t : Topic) : Topic :=
  {| topic_id := topic_id t; topic_name := topic_name t; topic_questions := questions |}.

Definition setSubjectTopics (f : list Topic -> list Topic) (s : Subject) : Subject :=
  {| subject_id := subject_id s; subject_name := subject_name s;
     subject_topics := f (subject_topics s); subject_isAI := subject_isAI s;
     subject_createdAt := subject_createdAt s |}.

(** [topic.questions = questions; saveState()] on the first subject and
    topic with the ids of the task, when both are found. *)
Definition storeTopicQuestions (subjectId : Z) (topicId : string) (questions : value)
  : M world unit :=
  let isSubject := fun s => Z.eqb (subject_id s) subjectId in
  let isTopic := fun t => String.eqb (topic_id t) topicId in
  found <- gets (fun w => find isSubject (subjects w)) ;;
  match found with
  | None => ret tt
  | Some subject =>
      match find isTopic (subject_topics subject) with
      | None => ret tt
      | Some _ =>
          modify (fun w =>
            withSubjects
              (updateFirst isSubject
                 (setSubjectTopics (updateFirst isTopic (setTopicQuestions questions)))
                 (subjects w)) w) ;;
          saveState
      end
  end.

Definition generated (questions : value) (taskData : TaskData) : TaskData :=
  {| td_subjectId := td_subjectId taskData; td_topicId := td_topicId taskData;
     td_subject := td_subject taskData; td_topic := td_topic taskData;
     td_questions := questions; td_needsGeneration := false; td_apiGenerated := true |}.

(** The [try] block of [generateQuestionsForTopic].  It runs over the
    [taskData] object of the caller, which it updates in place, and the
    world. *)
Definition generateQuestionsTry (env : environment) : M (TaskData * world) unit :=
  taskData <- gets fst ;;
  topicText <- lift (toStr (td_topic taskData)) ;;
  onWorld showLoading ;;
  onWorld (setInnerHTML [GeneratingQuestions topicText]) ;;
  (* Call API to generate questions *)
  response <- onWorld (generateQuestions env defaultBaseUrl
                         (VStr (td_subject taskData)) (td_topic taskData) 5) ;;
  onWorld hideLoading ;;
  questions <- lift (questionsOfResponse response) ;;
  (* Update localStorage with generated questions *)
  modify (fun tw => (generated (VArr questions) (fst tw), snd tw)) ;;
  taskData' <- gets fst ;;
  onWorld (modify (withStorage (setCurrentTaskData taskData'))) ;;
  (* Update the subject's topic questions in AppState *)
  onWorld (storeTopicQuestions (td_subjectId taskData') (td_topicId taskData')
                               (VArr questions)) ;;
  onWorld (renderTaskQuestions (VArr questions)) ;;
  onWorld (notify (GeneratedQuestions (length questions) topicText)).

(** The [catch] block of [generateQuestionsForTopic]. *)
Definition generateQuestionsCatch (error : exn) (taskData : TaskData) : M world unit :=
  hideLoading ;;
  (* Show error and fallback to existing questions *)
  setInnerHTML [FailureBanner (messageOf error)] ;;
  (* Render fallback questions *)
  if hasElements (td_questions taskData) then
    renderTaskQuestions (td_questions taskData)
  else
    appendInnerHTML [BackToSubjects].

(** [generateQuestionsForTopic(taskData)] *)
Definition generateQuestionsForTopic (env : environment) (taskData : TaskData)
  : M world unit :=
  fun w =>
    match generateQuestionsTry env (taskData, w) with
    | (Normal _, (_, w')) => (Normal tt, w')
    | (Throw error, (taskData', w')) => generateQuestionsCatch error taskData' w'
    end.

(** [loadTaskPage] *)
Definition loadTaskPage (env : environment) : M world unit :=
  stored <- gets (fun w => ls_currentTaskData (storage w)) ;;
  match stored with
  | None => modify (withPage (setTaskEmptyState true))
  | Some taskData =>
      modify (withPage (setTaskEmptyState false)) ;;
      if td_needsGeneration taskData then generateQuestionsForTopic env taskData
      else renderTaskQuestions (td_questions taskData)
  end.

(** [a[i] = x]: past the end the array grows, and the slots in between
    are holes, which [filter] skips just as it drops [null]. *)
Fixpoint setAt {A} (i : nat) (x : A) (l : list (option A)) : list (option A) :=
  match i, l with
  | O, [] => [Some x]
  | O, _ :: r => Some x :: r
  | S i', [] => None :: setAt i' x []
  | S i', y :: r => y :: setAt i' x r
  end.

(** The global that is read or written must be there. *)
Definition defined {A} (name : string) (o : option A) : completion A :=
  match o with
  | Some a => Normal a
  | None => Throw (TypeError ("Cannot read properties of undefined (" ++ name ++ ")"))
  end.

(** The verdict read off the response of [verifyAnswer]. *)
Definition verdictOf (response : value) : completion (bool * value) :=
  let isTrue := fun v : value => match v with VBool true => true | _ => false end in
  let default := VStr "Answer checked by AI" in
  if truthy response then
    (let* data := get response "data" in
     if truthy data then
       let* c := get data "is_correct" in
       let* f := get data "feedback" in
       Normal (isTrue c, if truthy f then f else default)
     else
       let* c := get response "is_correct" in
       match c with
       | VUndefined => Normal (false, default)
       | _ =>
           let* f := get response "feedback" in
           Normal (isTrue c, if truthy f then f else default)
       end)%comp
  else Normal (false, default).

(** [submitTaskAnswer(questionIndex)]; [typed] is the text in the answer
    box of that question, which is taken to be on the page. *)
Definition submitTaskAnswer (env : environment) (questionIndex : nat) (typed : string)
  : M world unit :=
  let answerText := trim typed in
  if negb (nonEmpty answerText) then notify AlertEnterAnswer
  else
    stored <- gets (fun w => currentTaskQuestions (win w)) ;;
    qs <- lift (defined "currentTaskQuestions" stored) ;;
    questionText <- lift (extractQuestionText (nth questionIndex qs VUndefined)) ;;
    if Nat.eqb (String.length questionText) 0 then notify AlertQuestionNotFound
    else
      tryCatch
        (modify (withPage (addResultStatus questionIndex Checking)) ;;
         (* Call API to verify answer *)
         response <- verifyAnswer env "http://127.0.0.1:8000/api"
                       (VStr questionText) (VStr answerText) ;;
         (* Store answer *)
         answers <- gets (fun w => taskAnswers (win w)) ;;
         answers <- lift (defined "taskAnswers" answers) ;;
         modify (withWindow (setTaskAnswers (setAt questionIndex answerText answers))) ;;
         verdict <- lift (verdictOf response) ;;
         let '(isCorrect, feedback) := verdict in
         let score := if (isCorrect : bool) then 1%Z else 0%Z in
         scores <- gets (fun w => taskScores (win w)) ;;
         scores <- lift (defined "taskScores" scores) ;;
         modify (withWindow (setTaskScores (setAt questionIndex score scores))) ;;
         (* Display result *)
         text <- lift (toStr feedback) ;;
         modify (withPage (addResultStatus questionIndex
                             (if isCorrect then Correct text else Incorrect text))))
        (fun error =>
           modify (withPage (addResultStatus questionIndex
                               (CouldNotVerify (messageOf error)))))
    .

(** [Math.round((correctAnswers / totalQuestions) * 100)] *)
Definition computeScore (correctAnswers totalQuestions : nat) : spec_float :=
  Number.round
    (Number.mul (Number.div (Number.ofNat correctAnswers) (Number.ofNat totalQuestions))
                (Number.ofNat 100)).

Definition isAnswered (a : option string) : bool :=
  match a with Some _ => true | None => false end.

Definition isOne (s : option Z) : bool :=
  match s with Some 1%Z => true | _ => false end.

(** [submitAllTaskAnswers] *)
Definition submitAllTaskAnswers (env : environment) : M world unit :=
  stored <- gets (fun w => ls_currentTaskData (storage w)) ;;
  match stored with
  | None => notify AlertNoTaskData
  | Some taskData =>
      qs <- gets (fun w => currentTaskQuestions (win w)) ;;
      qs <- lift (defined "currentTaskQuestions" qs) ;;
      let totalQuestions := length qs in
      answers <- gets (fun w => taskAnswers (win w)) ;;
      answers <- lift (defined "taskAnswers" answers) ;;
      let answeredQuestions := length (filter isAnswered answers) in
      if Nat.ltb answeredQuestions totalQuestions && negb (confirm env) then ret tt
      else
        (* Calculate score *)
        scores <- gets (fun w => taskScores (win w)) ;;
        scores <- lift (defined "taskScores" scores) ;;
        let correctAnswers := length (filter isOne scores) in
        let score := computeScore correctAnswers totalQuestions in
        (* Save to task history in localStorage *)
        taskHistory <- gets (fun w => match ls_taskHistory (storage w) with
                                      | Some h => h
                                      | None => []
                                      end) ;;
        modify (withStorage (setTaskHistory
          (taskHistory ++
           [{| h_subject := td_subject taskData; h_topic := td_topic taskData;
               h_totalQuestions := totalQuestions; h_correctAnswers := correctAnswers;
               h_score := Number.throughJSON score;
               h_date := dateISO env; h_timestamp := dateNow env |}]))) ;;
        (* Show results *)
        notify (AlertTaskComplete correctAnswers totalQuestions score) ;;
        navigate "progress.html"
  end.

End Model.

Arguments Topic : clear implicits.
Arguments Subject : clear implicits.
Arguments TaskData : clear implicits.
Arguments TaskHistoryEntry : clear implicits.
Arguments localStorage : clear implicits.
Arguments window : clear implicits.
Arguments dom : clear implicits.
Arguments request : clear implicits.
Arguments fetchOutcome : clear implicits.
Arguments environment : clear implicits.
Arguments world : clear implicits.

(* ================================================================== *)
(** * Vocabulary of the specification *)

Section Vocabulary.
Context {num : Type} `{JSNumber num}.

(** An argument that is a string, or was not passed at all. *)
Definition argument (o : option string) : value num :=
  match o with
  | Some s => VStr s
  | None => VUndefined
  end.

(** "Empty after trimming (or absent)". *)
Definition emptyAfterTrim (o : option string) : Prop :=
  match o with
  | Some s => trim s = ""
  | None => True
  end.

(** The request that [verifyAnswer] builds. *)
Definition verifyRequest (baseUrl q a : string) : request num :=
  {| req_baseUrl := baseUrl; req_endpoint := "/verify-answer";
     req_query := [("question", trim q); ("answer", trim a)];
     req_method := "POST"; req_body := None |}.

(** The request that [generateQuestions] builds. *)
Definition questionsRequest (baseUrl s t : string) (count : Z) : request num :=
  {| req_baseUrl := baseUrl; req_endpoint := "/generate-questions";
     req_query := [("subject", trim s); ("topic", trim t); ("count", JSString.ofZ count)];
     req_method := "POST"; req_body := None |}.

(** What the backend answers to a request, as [_request] hands it on. *)
Definition responseOf (env : environment num) (req : request num) : completion (value num) :=
  match fetch env req with
  | Rejected e => Throw e
  | Response ok status statusText json =>
      if negb ok then
        bindC (errorMessage (match json with Normal v => v | Throw _ => VObj [] end)
                            status statusText)
              (fun msg => Throw (Error msg))
      else json
  end.

(** No two subjects of the collection share a name, case ignored. *)
Definition uniqueNames (l : list (Subject num)) : Prop :=
  NoDup (map (fun s => toLowerCase (subject_name s)) l).

(** The subject that [generateSubject] builds from the topics it decoded. *)
Definition newSubject (env : environment num) (name : string) (topics : list (Topic num))
  : Subject num :=
  {| subject_id := dateNow env; subject_name := name; subject_topics := topics;
     subject_isAI := true; subject_createdAt := dateISO env |}.

(** The task history as [submitAllTaskAnswers] reads it. *)
Definition historyOf (w : world num) : list (TaskHistoryEntry num) :=
  match ls_taskHistory (storage w) with
  | Some h => h
  | None => []
  end.

(** The entry that a submission appends. *)
Definition entryOf (env : environment num) (taskData : TaskData num)
           (correctAnswers totalQuestions : nat) : TaskHistoryEntry num :=
  {| h_subject := td_subject taskData; h_topic := td_topic taskData;
     h_totalQuestions := totalQuestions; h_correctAnswers := correctAnswers;
     h_score := Number.throughJSON (computeScore correctAnswers totalQuestions);
     h_date := dateISO env; h_timestamp := dateNow env |}.

(** Structural equality of two binary64 values. *)
Definition sameFloat (x y : spec_float) : bool :=
  match x, y with
  | S754_zero a, S754_zero b => Bool.eqb a b
  | S754_infinity a, S754_infinity b => Bool.eqb a b
  | S754_nan, S754_nan => true
  | S754_finite s m e, S754_finite s' m' e' => Bool.eqb s s' && Pos.eqb m m' && Z.eqb e e'
  | _, _ => false
  end.

(** The score that exact arithmetic gives: [100 * correct / total], rounded
    to the nearest integer, ties upwards. *)
Definition exactScore (correctAnswers totalQuestions : nat) : Z :=
  Number.roundHalfUp (100 * Z.of_nat correctAnswers) (Z.of_nat totalQuestions).

Definition scoreIsExact (correctAnswers totalQuestions : nat) : bool :=
  sameFloat (computeScore correctAnswers totalQuestions)
            (Number.ofZ (exactScore correctAnswers totalQuestions)).

(** The text that a normalized question carries. *)
Definition questionOf (n : value num) : value num :=
  match n with
  | VObj props => match lookup "question" props with Some v => v | None => VUndefined end
  | _ => VUndefined
  end.

End Vocabulary.

(* ================================================================== *)
(** * The rest of the client and of the page *)

Section RestOfTheCode.
Context {num : Type} `{JSNumber num}.

Local Open Scope monad_scope.

(** [generateQuiz(topic, count = 40)]; the response is returned as it is. *)
Definition generateQuiz (env : environment num) (baseUrl : string)
           (topic : value num) (count : Z) : M (world num) (value num) :=
  if negb (truthy topic) then
    throw (Error "Topic is required")
  else if (count <? 1)%Z || (count >? 50)%Z then
    throw (Error "Count must be between 1 and 50")
  else
    t <- lift (callTrim topic) ;;
    _request env
      {| req_baseUrl := baseUrl; req_endpoint := "/generate-quiz";
         req_query := [("topic", t); ("count", JSString.ofZ count)];
         req_method := "POST"; req_body := None |}.

(** [answerDoubt(question, context = '')]: the default stands in for an
    argument that is [undefined], and for no other. *)
Definition answerDoubt (env : environment num) (baseUrl : string)
           (question context : value num) : M (world num) (value num) :=
  let context := match context with VUndefined => VStr "" | _ => context end in
  blank <- lift (isBlank question) ;;
  if (blank : bool) then throw (Error "Question cannot be empty")
  else
    q <- lift (callTrim question) ;;
    c <- lift (callTrim context) ;;
    response <- _request env
      {| req_baseUrl := baseUrl; req_endpoint := "/answer-doubt";
         req_query := [("question", q); ("context", c)];
         req_method := "POST"; req_body := None |} ;;
    (* return response.data || response *)
    data <- lift (get response "data") ;;
    ret (if truthy data then data else response).





(** The initializer of [AppState.subjects]:
    [JSON.parse(localStorage.getItem('subjects')) || []] *)
Definition storedSubjects (s : localStorage num) : list (Subject num) :=
  match ls_subjects s with
  | Some l => l
  | None => []
  end.

(** [handleEnterKey(event)], on [event.key]. *)
Definition handleEnterKey (env : environment num) (key : string) : M (world num) unit :=
  if String.eqb key "Enter" then generateSubject env else ret tt.

(** ** [generateSubject] around its [await]

    [generateSubject] is an async function with one [await], on the call
    of [apiClient.generateContent].  Everything before it runs at once when
    the handler is called: the checks, the loading indicator and the
    synchronous part of the call, which hands the request to [fetch].  The
    rest runs when the backend has answered, and other handlers may have
    run in between. *)

(** A run suspended at the [await]: the name it checked, and what the call
    comes to when the run is resumed. *)
Record pendingSubject : Type := {
  pending_name : string;
  pending_call : completion (value num)
}.

(** [generateSubject] up to its [await]: nothing is pending when a check
    has refused the input. *)
Definition generateSubjectUntilAwait (env : environment num)
  : M (world num) (option pendingSubject) :=
  input <- gets (fun w => subjectInput (page w)) ;;
  let subjectName := trim input in
  if negb (nonEmpty subjectName) then
    notify WarnEnterSubjectName ;; ret None
  else
    existingSubject <- gets (fun w => find (sameNameIgnoringCase subjectName) (subjects w)) ;;
    match existingSubject with
    | Some _ => notify InfoSubjectExists ;; ret None
    | None =>
        showLoading ;;
        fun w =>
          let '(call, w') := generateContent env defaultBaseUrl (VStr subjectName) w in
          (Normal (Some {| pending_name := subjectName; pending_call := call |}), w')
    end.

(** [generateSubject] from its [await] on: the rest of the [try] block on
    the answer of the backend, and the [catch].  The name is the one that
    was checked before the [await]; the collection is the one of now. *)
Definition generateSubjectAfterAwait (env : environment num) (run : pendingSubject)
  : M (world num) unit :=
  let subjectName := pending_name run in
  tryCatch
    (response <- lift (pending_call run) ;;
     topicsField <- lift (get response "topics") ;;
     payload <- lift (arrayOf "response.topics" topicsField) ;;
     topics <- lift (mapiC topicOfPayload 0 payload) ;;
     let newSubject := {| subject_id := dateNow env; subject_name := subjectName;
                          subject_topics := topics; subject_isAI := true;
                          subject_createdAt := dateISO env |} in
     modify (fun w => withSubjects (newSubject :: subjects w) w) ;;
     saveState ;;
     modify (withPage (setSubjectInput "")) ;;
     hideLoading ;;
     renderSubjects ;;
     totalTopics <- lift (bindC (get response "total_topics") toStr) ;;
     totalQuestions <- lift (bindC (get response "total_questions") toStr) ;;
     notify (GeneratedTopics totalTopics totalQuestions))
    (fun error =>
       hideLoading ;;
       notify (generationFailure (messageOf error))).

(** Resuming a run, if one is pending. *)
Definition resumeSubject (env : environment num) (run : option pendingSubject)
  : M (world num) unit :=
  match run with
  | Some pending => generateSubjectAfterAwait env pending
  | None => ret tt
  end.

(** Two calls of [generateSubject] of which the second is made while the
    first awaits the backend (Enter pressed twice): both run up to their
    [await], then the first is resumed, then the second.  [env] is the
    environment of the first run, [env'] that of the second. *)
Definition generateSubjectTwice (env env' : environment num) : M (world num) unit :=
  first <- generateSubjectUntilAwait env ;;
  second <- generateSubjectUntilAwait env' ;;
  resumeSubject env first ;;
  resumeSubject env' second.

End RestOfTheCode.

Arguments pendingSubject : clear implicits.


(* ================================================================== *)
(** * More vocabulary *)

Section MoreVocabulary.
Context {num : Type} `{JSNumber num}.

(** An operation of the client that does nothing to the world but hand at
    most one request to [fetch], and that completes the same way from every
    world. *)
Definition sendsAtMostOne {A : Type} (m : M (world num) A) : Prop :=
  exists (r : completion A) (reqs : list (request num)),
    length reqs <= 1
    /\ forall w, m w = (r, withNetwork (network w ++ reqs)%list w).

(** The request that [generateContent] builds. *)
Definition contentRequest (baseUrl s : string) : request num :=
  {| req_baseUrl := baseUrl; req_endpoint := "/generate"; req_query := [];
     req_method := "POST"; req_body := Some (VObj [("subject", VStr (trim s))]) |}.

(** The request that [generateQuiz] builds. *)
Definition quizRequest (baseUrl t : string) (count : Z) : request num :=
  {| req_baseUrl := baseUrl; req_endpoint := "/generate-quiz";
     req_query := [("topic", trim t); ("count", JSString.ofZ count)];
     req_method := "POST"; req_body := None |}.

(** The request that [answerDoubt] builds. *)
Definition doubtRequest (baseUrl q c : string) : request num :=
  {| req_baseUrl := baseUrl; req_endpoint := "/answer-doubt";
     req_query := [("question", trim q); ("context", trim c)];
     req_method := "POST"; req_body := None |}.

(** [response.data || response] *)
Definition unwrapData (response : value num) : completion (value num) :=
  bindC (get response "data") (fun data => Normal (if truthy data then data else response)).

(** The collection in memory is the one that a reload of the page would
    read back from the store. *)
Definition persisted (w : world num) : Prop :=
  subjects w = storedSubjects (storage w).

(** The three arrays of the session are all there and of one length, or
    none of them is there. *)
Definition aligned (g : window num) : Prop :=
  match currentTaskQuestions g, taskAnswers g, taskScores g with
  | Some qs, Some answers, Some scores =>
      length answers = length qs /\ length scores = length qs
  | None, None, None => True
  | _, _, _ => False
  end.

(** The base URL of the client that [submitTaskAnswer] makes for itself. *)
Definition verificationBaseUrl : string := "http://127.0.0.1:8000/api".

(** A score slot holds nothing, 0 or 1. *)
Definition isVerdict (s : option Z) : Prop :=
  s = None \/ s = Some 0%Z \/ s = Some 1%Z.

(** Two collections with the same subjects and topics: the same ids and
    names, in the same order; only the questions of a topic may differ. *)
Definition sameShape (l l' : list (Subject num)) : Prop :=
  map subject_id l' = map subject_id l
  /\ map subject_name l' = map subject_name l
  /\ map (fun s => map topic_id (subject_topics s)) l'
     = map (fun s => map topic_id (subject_topics s)) l
  /\ map (fun s => map topic_name (subject_topics s)) l'
     = map (fun s => map topic_name (subject_topics s)) l.

(** Between two worlds the subjects and their stored copy did not move, or
    the subjects were saved. *)
Definition keptOrSaved (w w' : world num) : Prop :=
  (subjects w' = subjects w /\ ls_subjects (storage w') = ls_subjects (storage w))
  \/ ls_subjects (storage w') = Some (subjects w').

(** Between two windows the session did not move, or it was started anew
    on a list of questions. *)
Definition sessionKeptOrReset (g g' : window num) : Prop :=
  g' = g \/ exists ns, g' = setTaskGlobals ns g.

(** The checks on the score of [correct] out of [total]: it is the exact
    rounding or one below it, a whole number from 0 to 100, 100 when all
    are correct and 0 when none is. *)
Definition scoreIsSound (correct total : nat) : bool :=
  let exact := exactScore correct total in
  let score := computeScore correct total in
  (sameFloat score (Number.ofZ exact)
   || (sameFloat score (Number.ofZ (exact - 1)) && (1 <=? exact)%Z))
  && (0 <=? exact)%Z && (exact <=? 100)%Z
  && (if Nat.eqb correct total then sameFloat score (Number.ofZ 100) else true)
  && (if Nat.eqb correct 0 then sameFloat score (Number.ofZ 0) else true).


(** The ids that [generateSubject] gives to the topics of a subject with
    [n] topics: "topic-0", "topic-1", ... *)
Definition numbered (n : nat) : list string :=
  map (fun idx => ("topic-" ++ JSString.ofNat idx)%string) (seq 0 n).

(** A topic of the page made from a topic of the payload: the same name,
    and the questions of the payload, or none when the payload has none. *)
Definition decodes (payload : value num) (t : Topic num) : Prop :=
  get payload "topic" = Normal (topic_name t)
  /\ exists qs, get payload "questions" = Normal qs
                /\ topic_questions t = (if truthy qs then qs else VArr []).


(** The task that [viewTopicQuestions] stores for a topic of a subject. *)
Definition taskOf (s : Subject num) (t : Topic num) : TaskData num :=
  {| td_subjectId := subject_id s; td_topicId := topic_id t;
     td_subject := subject_name s; td_topic := topic_name t;
     td_questions := topic_questions t;
     td_needsGeneration := true; td_apiGenerated := false |}.

(** [errorData.detail?.message], for a body that is not [null]: only an
    object has properties of its own, and only a [detail] that is an
    object can carry a [message]. *)
Definition detailMessage (body : value num) : value num :=
  match body with
  | VObj props =>
      match lookup "detail" props with
      | Some (VObj dprops) =>
          match lookup "message" dprops with
          | Some m => m
          | None => VUndefined
          end
      | _ => VUndefined
      end
  | _ => VUndefined
  end.

(** [errorData.message], for a body that is not [null]. *)
Definition ownMessage (body : value num) : value num :=
  match body with
  | VObj props =>
      match lookup "message" props with
      | Some m => m
      | None => VUndefined
      end
  | _ => VUndefined
  end.

(** A card drawn for a subject: its id, its name, the count of all its
    topics, and the printed names of its first three topics, in order. *)
Definition drawn (s : Subject num) (c : subjectCard) : Prop :=
  card_id c = subject_id s
  /\ card_name c = subject_name s
  /\ card_topicCount c = length (subject_topics s)
  /\ Forall2 (fun t shown => toStr (topic_name t) = Normal shown)
             (firstn 3 (subject_topics s)) (card_topics c).

End MoreVocabulary.

(* ================================================================== *)
(** * Sample states *)

(** Concrete environments and worlds, with integer payload numbers, on
    which the properties below are exercised. *)
Module Samples.

Definition emptyStorage : localStorage Z :=
  {| ls_subjects := None; ls_currentTaskData := None; ls_taskHistory := None;
     ls_currentQuizTopic := None; ls_needsQuizGeneration := None |}.

Definition blankPage : dom :=
  {| subjectInput := ""; loading := false; subjectsContainer := [];
     taskEmptyState := false; questionsContainer := []; resultStatus := [];
     notices := [] |}.

Definition noGlobals : window Z :=
  {| currentTaskQuestions := None; taskAnswers := None; taskScores := None;
     location := None |}.

Definition freshWorld : world Z :=
  {| subjects := []; storage := emptyStorage; win := noGlobals; page := blankPage;
     network := [] |}.

(** A backend that never answers: every [fetch] is aborted at the timeout. *)
Definition timedOut : environment Z :=
  {| fetch := fun _ => Rejected (Error "signal is aborted without reason");
     dateNow := 1700000000000; dateISO := "2023-11-14T22:13:20.000Z";
     confirm := true |}.

(** A backend that answers: one topic of two questions to [/generate],
    three questions in three shapes to [/generate-questions], and "correct"
    to [/verify-answer]. *)
Definition answering : environment Z :=
  {| fetch := fun req =>
       Response true 200 "OK"
         (Normal
            (if String.eqb (req_endpoint req) "/generate" then
               VObj [("subject", VStr "Python");
                     ("topics", VArr [VObj [("topic", VStr "Loops");
                                            ("questions", VArr [VStr "What is a loop?";
                                                                VStr "What is a range?"])]]);
                     ("total_topics", VNum 1%Z); ("total_questions", VNum 2%Z)]
             else if String.eqb (req_endpoint req) "/generate-questions" then
               VObj [("success", VBool true);
                     ("data", VObj [("subject", VStr "Python"); ("topic", VStr "Loops");
                                    ("questions",
                                     VArr [VStr "What does break do?";
                                           VObj [("question", VStr "What does continue do?")];
                                           VObj [("text", VStr "What is an iterator?")]])])]
             else
               VObj [("success", VBool true);
                     ("data", VObj [("is_correct", VBool true);
                                    ("feedback", VStr "Well explained.")])]));
     dateNow := 1700000000000; dateISO := "2023-11-14T22:13:20.000Z";
     confirm := true |}.

(** A backend over its quota: every [fetch] is answered with status 429
    and a body whose [detail] is a string. *)
Definition overQuota : environment Z :=
  {| fetch := fun _ =>
       Response false 429 "Too Many Requests"
                (Normal (VObj [("detail", VStr "Daily limit reached")]));
     dateNow := 1700000000000; dateISO := "2023-11-14T22:13:20.000Z";
     confirm := true |}.

(** The same backend a little later. *)
Definition answeringLater : environment Z :=
  {| fetch := fetch answering;
     dateNow := 1700000000850; dateISO := "2023-11-14T22:13:20.850Z";
     confirm := true |}.

Definition python : Subject Z :=
  {| subject_id := 1; subject_name := "Python";
     subject_topics := [{| topic_id := "topic-0"; topic_name := VStr "Loops";
                           topic_questions := VArr [VStr "What is a loop?"] |}];
     subject_isAI := true; subject_createdAt := "2023-11-14T22:13:20.000Z" |}.

Definition rust : Subject Z :=
  {| subject_id := 2; subject_name := "Rust"; subject_topics := [];
     subject_isAI := true; subject_createdAt := "2023-11-15T08:00:00.000Z" |}.

(** The subjects page with two subjects stored, and a name typed in. *)
Definition subjectsPage (typed : string) : world Z :=
  {| subjects := [python; rust];
     storage := setSubjectsItem [python; rust] emptyStorage;
     win := noGlobals;
     page := setSubjectInput typed blankPage;
     network := [] |}.

(** The task that [viewTopicQuestions] stores for the topic of [python]:
    one cached question, generation needed. *)
Definition loopsTask : TaskData Z :=
  {| td_subjectId := 1; td_topicId := "topic-0"; td_subject := "Python";
     td_topic := VStr "Loops"; td_questions := VArr [VStr "What is a loop?"];
     td_needsGeneration := true; td_apiGenerated := false |}.

(** The task page as it is entered with [loopsTask] stored. *)
Definition taskPageEntered : world Z :=
  {| subjects := [python; rust];
     storage := setCurrentTaskData loopsTask (setSubjectsItem [python; rust] emptyStorage);
     win := noGlobals; page := blankPage; network := [] |}.

(** A session of [total] rendered questions of which the first [answered]
    were submitted and, of those, the first [correct] verified as correct. *)
Definition session (correct answered total : nat) : world Z :=
  {| subjects := [python; rust];
     storage := setCurrentTaskData loopsTask (setSubjectsItem [python; rust] emptyStorage);
     win := {| currentTaskQuestions := Some (repeat (canonical (VStr "What is a loop?")) total);
               taskAnswers := Some (repeat (Some "an answer") answered
                                    ++ repeat None (total - answered))%list;
               taskScores := Some (repeat (Some 1%Z) correct
                                   ++ repeat (Some 0%Z) (answered - correct)
                                   ++ repeat None (total - answered))%list;
               location := None |};
     page := blankPage; network := [] |}.

End Samples.

(* ================================================================== *)
(** * Properties *)

Section RequestClient.
Context {num : Type} `{JSNumber num}.

Lemma nonEmpty_false (s : string) : nonEmpty s = false <-> s = "".
Proof. destruct s; simpl; split; congruence. Qed.

Lemma nonEmpty_false_iff (s : string) : s <> "" <-> nonEmpty s = true.
Proof. destruct s; simpl; split; congruence. Qed.

Lemma length_zero (s : string) : Nat.eqb (String.length s) 0 = true <-> s = "".
Proof. destruct s; simpl; split; congruence. Qed.

(** [isBlank] on a string-or-absent argument decides [emptyAfterTrim]. *)
Lemma isBlank_argument (o : option string) :
  exists b : bool,
    isBlank (argument (num := num) o) = Normal b /\ (b = true <-> emptyAfterTrim o).
Proof.
  destruct o as [s|]; unfold isBlank; simpl.
  - destruct (nonEmpty s) eqn:E; simpl.
    + exists (Nat.eqb (String.length (trim s)) 0). split; [reflexivity|].
      apply length_zero.
    + exists true. split; [reflexivity|].
      apply nonEmpty_false in E. subst s. simpl. tauto.
  - exists true. tauto.
Qed.

(** C5: [verifyAnswer] with a question or an answer that is empty after
    trimming, or absent, throws its validation [Error] and leaves the
    world, the record of the requests handed to [fetch] included, as it
    was; with both non-empty after trimming it hands exactly one request
    to [fetch], the one built from the two trimmed strings. *)
Theorem verifyAnswer_validates_before_network
        (env : environment num) (baseUrl : string) (question answer : option string)
        (w : world num) :
  let run := verifyAnswer env baseUrl (argument question) (argument answer) in
  (emptyAfterTrim question \/ emptyAfterTrim answer ->
   (outcome run w = Throw (Error "Question cannot be empty")
    \/ outcome run w = Throw (Error "Answer cannot be empty"))
   /\ stateAfter run w = w)
  /\
  (~ emptyAfterTrim question -> ~ emptyAfterTrim answer ->
   exists q a, question = Some q /\ answer = Some a
               /\ network (stateAfter run w) = (network w ++ [verifyRequest baseUrl q a])%list).
Proof.
  intros run.
  destruct (isBlank_argument question) as [bq [Eq Hq]].
  destruct (isBlank_argument answer) as [ba [Ea Ha]].
  split.
  - intros Hblank.
    unfold run, outcome, stateAfter, verifyAnswer, bind, lift, throw.
    rewrite Eq. destruct bq; simpl; [tauto|].
    rewrite Ea. destruct ba; simpl; [tauto|].
    exfalso. destruct Hblank as [Hb|Hb]; [apply Hq in Hb | apply Ha in Hb]; discriminate.
  - intros Hnq Hna.
    destruct question as [q|]; [|exfalso; apply Hnq; exact I].
    destruct answer as [a|]; [|exfalso; apply Hna; exact I].
    exists q, a. split; [reflexivity|]. split; [reflexivity|].
    unfold run, outcome, stateAfter, verifyAnswer, bind, lift, throw.
    rewrite Eq. destruct bq; [exfalso; apply Hnq, Hq; reflexivity|].
    rewrite Ea. destruct ba; [exfalso; apply Hna, Ha; reflexivity|].
    simpl. unfold _request, bind, modify, lift, throw. simpl.
    destruct (fetch env _) as [e|ok status statusText json]; simpl; [reflexivity|].
    destruct ok; simpl; [reflexivity|].
    destruct (errorMessage _ _ _); reflexivity.
Qed.

(** C6: [generateQuestions] throws a validation [Error], and leaves the
    world (the record of the requests included) as it was, whenever the
    subject or the topic is missing (falsy) or the count is below 1 or above
    20, so at 0 and at 21; with a non-empty subject and topic and a count
    from 1 to 20, so at 1 and at 20, it hands exactly one request to [fetch],
    built from the trimmed names and the count. *)
Theorem generateQuestions_validates_count_and_names
        (env : environment num) (baseUrl : string) (subject topic : value num)
        (s t : string) (count : Z) (w : world num) :
  (truthy subject = false \/ truthy topic = false \/ (count < 1)%Z \/ (20 < count)%Z ->
   let run := generateQuestions env baseUrl subject topic count in
   (outcome run w = Throw (Error "Subject and topic are required")
    \/ outcome run w = Throw (Error "Count must be between 1 and 20"))
   /\ stateAfter run w = w)
  /\
  (s <> "" -> t <> "" -> (1 <= count <= 20)%Z ->
   let run := generateQuestions env baseUrl (VStr s) (VStr t) count in
   network (stateAfter run w) = (network w ++ [questionsRequest baseUrl s t count])%list).
Proof.
  split.
  - intros Hbad run. unfold run, outcome, stateAfter, generateQuestions, throw.
    destruct (truthy subject); simpl; [|tauto].
    destruct (truthy topic); simpl; [|tauto].
    destruct (Z.ltb_spec count 1); simpl; [tauto|].
    destruct (Z.gtb_spec count 20); simpl; [tauto|].
    exfalso. destruct Hbad as [Hb|[Hb|[Hb|Hb]]]; try discriminate; lia.
  - intros Hs Ht Hc run. unfold run, stateAfter, generateQuestions.
    simpl. apply nonEmpty_false_iff in Hs. apply nonEmpty_false_iff in Ht.
    rewrite Hs, Ht. simpl.
    destruct (Z.ltb_spec count 1); [lia|].
    destruct (Z.gtb_spec count 20); [lia|]. simpl.
    unfold bind, lift, _request, modify, throw, ret. simpl.
    destruct (fetch env _) as [e|ok status statusText json]; simpl; [reflexivity|].
    destruct ok; simpl.
    + destruct json as [response|e]; simpl; [|reflexivity].
      destruct (get response "data"); reflexivity.
    + destruct (errorMessage _ _ _); reflexivity.
Qed.

End RequestClient.

Section SubjectsPage.
Context {num : Type} `{JSNumber num}.

Local Open Scope list_scope.

(** Drawing the cards touches nothing but the page. *)
Lemma renderSubjects_frame (w : world num) :
  subjects (stateAfter renderSubjects w) = subjects w
  /\ storage (stateAfter renderSubjects w) = storage w
  /\ network (stateAfter renderSubjects w) = network w.
Proof.
  unfold stateAfter, renderSubjects, bind, gets, lift, modify. simpl.
  destruct (mapC cardOf (subjects w)); simpl; auto.
Qed.

(** Case analysis on the run of [renderSubjects] that the goal mentions,
    with what it leaves alone. *)
Ltac run_renderSubjects :=
  let Hs := fresh "Hsubjects" in
  let Hst := fresh "Hstorage" in
  match goal with
  | |- context [renderSubjects ?x] =>
      destruct (renderSubjects_frame x) as [Hs [Hst _]];
      unfold stateAfter in Hs, Hst;
      destruct (renderSubjects x) as [[? | ?] ?]; simpl in Hs, Hst |- *;
      rewrite ?Hs, ?Hst
  end.

(** In a list with unique keys, filtering out one key removes one element
    and keeps the others in place. *)
Lemma filter_out_unique_key {A} (key : A -> Z) (l : list A) (x : A) :
  NoDup (map key l) -> In x l ->
  exists before after,
    l = before ++ x :: after
    /\ filter (fun y => negb (Z.eqb (key y) (key x))) l = before ++ after.
Proof.
  induction l as [|y l IH]; intros Hnd Hin; [contradiction|].
  simpl in Hnd. apply NoDup_cons_iff in Hnd. destruct Hnd as [Hfresh Hnd].
  destruct Hin as [->|Hin].
  - exists [], l. split; [reflexivity|]. simpl. rewrite Z.eqb_refl. simpl.
    apply forallb_filter_id. apply forallb_forall. intros z Hz.
    destruct (Z.eqb_spec (key z) (key x)) as [E|]; [|reflexivity].
    exfalso. apply Hfresh. rewrite <- E. now apply in_map.
  - destruct (IH Hnd Hin) as [before [after [-> Hf]]].
    exists (y :: before), after. split; [reflexivity|]. simpl.
    destruct (Z.eqb_spec (key y) (key x)) as [E|]; simpl.
    + exfalso. apply Hfresh. rewrite E. apply in_map. apply in_or_app. right. now left.
    + now rewrite Hf.
Qed.

(** C8: in a collection with unique ids, a confirmed [deleteSubject] of the
    id of an existing subject removes that one subject, leaves every other
    subject as it was and where it was, and has written the shortened
    collection to the [subjects] key of the store by the time it ends,
    however it ends. *)
Theorem deleteSubject_removes_exactly_that_subject
        (env : environment num) (subjectId : Z) (s : Subject num) (w : world num) :
  confirm env = true ->
  NoDup (map subject_id (subjects w)) ->
  In s (subjects w) ->
  subject_id s = subjectId ->
  let w' := stateAfter (deleteSubject env subjectId) w in
  exists before after,
    subjects w = before ++ s :: after
    /\ subjects w' = before ++ after
    /\ ~ In s (subjects w')
    /\ ls_subjects (storage w') = Some (before ++ after).
Proof.
  intros Hconfirm Hnd Hin Hid w'.
  destruct (filter_out_unique_key subject_id (subjects w) s Hnd Hin)
    as [before [after [Hsplit Hfilter]]].
  exists before, after. split; [exact Hsplit|].
  assert (Hw' : subjects w' = before ++ after
                /\ ls_subjects (storage w') = Some (before ++ after)).
  { unfold w', deleteSubject. rewrite Hconfirm.
    unfold stateAfter, bind, modify, saveState. simpl.
    rewrite Hid in Hfilter.
    run_renderSubjects; simpl; rewrite Hfilter; auto. }
  destruct Hw' as [Hsub Hstore].
  split; [exact Hsub|]. split; [|exact Hstore].
  rewrite Hsub. intros Hback.
  rewrite Hsplit in Hnd. rewrite map_app in Hnd. simpl in Hnd.
  apply NoDup_remove_2 in Hnd. apply Hnd.
  rewrite <- map_app. now apply in_map.
Qed.

(** A declined [deleteSubject] changes nothing. *)
Lemma deleteSubject_declined (env : environment num) (subjectId : Z) (w : world num) :
  confirm env = false -> stateAfter (deleteSubject env subjectId) w = w.
Proof. intros Hc. unfold deleteSubject. now rewrite Hc. Qed.

(** [_request] records the request and hands on the answer of the backend. *)
Lemma _request_spec (env : environment num) (req : request num) (w : world num) :
  _request env req w = (responseOf env req, withNetwork (network w ++ [req]) w).
Proof.
  unfold _request, responseOf, bind, modify, throw, lift. simpl.
  destruct (fetch env req) as [e|ok status statusText json]; [reflexivity|].
  destruct ok; simpl; [reflexivity|].
  destruct (errorMessage _ _ _); reflexivity.
Qed.

(** [generateContent] completes the same way from every world, and only
    ever adds to the record of requests. *)
Lemma generateContent_spec (env : environment num) (baseUrl : string) (subject : value num) :
  exists r reqs, forall w : world num,
    generateContent env baseUrl subject w = (r, withNetwork (network w ++ reqs) w).
Proof.
  unfold generateContent, bind, lift, throw.
  destruct (isBlank subject) as [[|]|e].
  - exists (Throw (Error "Subject cannot be empty")), []. intros w.
    rewrite app_nil_r. now destruct w.
  - destruct (callTrim subject) as [t|e].
    + eexists _, [_]. intros w. apply _request_spec.
    + exists (Throw e), []. intros w. rewrite app_nil_r. now destruct w.
  - exists (Throw e), []. intros w. rewrite app_nil_r. now destruct w.
Qed.

(** The two ways [generateSubject] can end: with the collection and the
    store as they were, or, after a response of the backend that decoded
    into topics, with one new subject at the head of the collection and the
    collection saved. *)
Lemma generateSubject_cases (env : environment num) (w : world num) :
  let subjectName := trim (subjectInput (page w)) in
  let w' := stateAfter (generateSubject env) w in
  (subjects w' = subjects w /\ storage w' = storage w)
  \/ (nonEmpty subjectName = true
      /\ find (sameNameIgnoringCase subjectName) (subjects w) = None
      /\ exists response topics,
           outcome (generateContent env defaultBaseUrl (VStr subjectName)) w = Normal response
           /\ subjects w' = newSubject env subjectName topics :: subjects w
           /\ ls_subjects (storage w') = Some (subjects w')).
Proof.
  intros subjectName w'. unfold w', stateAfter, generateSubject, bind, gets. simpl.
  fold subjectName.
  destruct (nonEmpty subjectName) eqn:Hname; simpl; [|left; auto].
  destruct (find (sameNameIgnoringCase subjectName) (subjects w)) eqn:Hfind;
    simpl; [left; auto|].
  unfold tryCatch, bind, showLoading, hideLoading, notify, modify, lift, saveState. simpl.
  destruct (generateContent_spec env defaultBaseUrl (VStr subjectName))
    as [r [reqs Hgen]].
  rewrite Hgen. simpl.
  destruct r as [response|e]; simpl; [|left; auto].
  destruct (get response "topics") as [topicsField|e]; simpl; [|left; auto].
  destruct (arrayOf "response.topics" topicsField) as [payload|e]; simpl; [|left; auto].
  destruct (mapiC topicOfPayload 0 payload) as [topics|e]; simpl; [|left; auto].
  right. split; [reflexivity|]. split; [reflexivity|].
  exists response, topics. split.
  { unfold outcome. now rewrite Hgen. }
  run_renderSubjects.
  - destruct (bindC (get response "total_topics") toStr); simpl;
      [destruct (bindC (get response "total_questions") toStr); simpl|];
      rewrite ?Hsubjects, ?Hstorage; auto.
  - auto.
Qed.

(** [find] with the case-insensitive test misses exactly when no subject of
    the collection has the name. *)
Lemma find_sameName_None (name : string) (l : list (Subject num)) :
  find (sameNameIgnoringCase name) l = None <->
  ~ In (toLowerCase name) (map (fun s => toLowerCase (subject_name s)) l).
Proof.
  induction l as [|x l IH]; simpl; [tauto|].
  unfold sameNameIgnoringCase at 1.
  destruct (String.eqb_spec (toLowerCase (subject_name x)) (toLowerCase name)) as [E|N].
  - split; [discriminate|]. intros Hn. exfalso. apply Hn. now left.
  - rewrite IH. tauto.
Qed.

(** A run of [generateSubject] that no other run overlaps: when a subject
    of the collection already has the requested name (the trimmed input),
    case ignored, it leaves the collection and the whole store as they
    were; and whatever the input and the backend, a collection without two
    names equal up to case is still one at its end. *)
Theorem generateSubject_keeps_names_unique
        (env : environment num) (w : world num) :
  let requested := trim (subjectInput (page w)) in
  let w' := stateAfter (generateSubject env) w in
  ((exists s, In s (subjects w)
              /\ toLowerCase (subject_name s) = toLowerCase requested) ->
   subjects w' = subjects w /\ storage w' = storage w)
  /\ (uniqueNames (subjects w) -> uniqueNames (subjects w')).
Proof.
  intros requested w'.
  pose proof (generateSubject_cases env w) as Hcases. cbv zeta in Hcases.
  fold requested w' in Hcases.
  destruct Hcases as [Hsame | [Hname [Hfind [response [topics [_ [Hnew _]]]]]]].
  - destruct Hsame as [Hs Hst]. split; [auto|]. now rewrite Hs.
  - apply find_sameName_None in Hfind. split.
    + intros [s [Hin Heq]]. exfalso. apply Hfind. rewrite <- Heq.
      now apply (in_map (fun s => toLowerCase (subject_name s))).
    + intros Huniq. rewrite Hnew. unfold uniqueNames. simpl.
      constructor; assumption.
Qed.

(** C10: when the call of [generateContent] throws, [generateSubject] ends
    with the collection and the whole store as they were; and when the
    collection did change, the call returned a response, and the change is
    one new subject at the head. *)
Theorem generateSubject_atomic_on_failure
        (env : environment num) (w : world num) :
  let subjectName := trim (subjectInput (page w)) in
  let call := generateContent env defaultBaseUrl (VStr subjectName) in
  let w' := stateAfter (generateSubject env) w in
  ((exists e, outcome call w = Throw e) ->
   subjects w' = subjects w /\ storage w' = storage w)
  /\ (subjects w' <> subjects w ->
      exists response topics,
        outcome call w = Normal response
        /\ subjects w' = newSubject env subjectName topics :: subjects w).
Proof.
  intros subjectName call w'.
  pose proof (generateSubject_cases env w) as Hcases. cbv zeta in Hcases.
  fold subjectName call w' in Hcases.
  destruct Hcases as [Hsame | [_ [_ [response [topics [Hcall [Hnew _]]]]]]].
  - split; [auto|]. intros Hchanged. now destruct Hsame.
  - split.
    + intros [e He]. rewrite Hcall in He. discriminate.
    + intros _. now exists response, topics.
Qed.

End SubjectsPage.

Section Normalization.
Context {num : Type} `{JSNumber num}.

(** Normalizing a canonical question: it is kept when its text is truthy;
    an empty (falsy) text is taken for a missing one, and the object is
    printed in its place. *)
Lemma normalizeQuestion_canonical (text : value num) :
  normalizeQuestion (canonical text) =
  Normal (if truthy text then canonical text else canonical (VStr "[object Object]")).
Proof.
  unfold normalizeQuestion, canonical. simpl.
  destruct (truthy text); reflexivity.
Qed.

Lemma questionOf_canonical (text : value num) : questionOf (canonical text) = text.
Proof. reflexivity. Qed.

(** What [normalizeQuestion] returns is the question itself when that is an
    object with a truthy [question], and a canonical question otherwise. *)
Lemma normalizeQuestion_shape (q n : value num) :
  normalizeQuestion q = Normal n ->
  (n = q /\ typeof q = TObject /\ truthy q = true /\ truthy (questionOf q) = true)
  \/ (exists text, n = canonical text).
Proof.
  unfold normalizeQuestion.
  destruct (jstype_eqb (typeof q) TString).
  { intros E; injection E as <-. right; eexists; reflexivity. }
  destruct (truthy q && jstype_eqb (typeof q) TObject) eqn:Eo.
  - apply andb_prop in Eo as [Tq To].
    destruct (get q "question") as [a|e] eqn:Ga; simpl; [|discriminate].
    destruct (truthy a) eqn:Ta.
    + intros E; injection E as <-. left.
      destruct q; simpl in *; try discriminate; injection Ga as <-; auto.
    + match goal with
      | |- bindC ?X _ = _ -> _ => destruct X as [text|e]; simpl
      end; [|discriminate].
      intros E; injection E as <-. right; eexists; reflexivity.
  - destruct (toStr q) as [s|e]; simpl; [|discriminate].
    intros E; injection E as <-. right; eexists; reflexivity.
Qed.

(** C3, as amended: when normalization returns [n], normalizing [n] again
    returns [n] exactly when the question text of [n] is truthy (a
    non-empty string, or any other truthy value).  So normalization is
    idempotent on every question but those it normalizes to an empty
    text. *)
Theorem normalizeQuestion_idempotent_iff_text_truthy (q n : value num) :
  normalizeQuestion q = Normal n ->
  (normalizeQuestion n = Normal n <-> truthy (questionOf n) = true).
Proof.
  intros Hn. destruct (normalizeQuestion_shape q n Hn) as [[-> [_ [_ Ht]]] | [text ->]].
  - split; [intros _; exact Ht | intros _; exact Hn].
  - rewrite normalizeQuestion_canonical, questionOf_canonical.
    destruct (truthy text) eqn:Tt; split; try reflexivity; try discriminate.
    intros E. injection E as E. subst text. discriminate.
Qed.

(** Where the ingestion of [generateQuestionsForTopic] and the
    normalization of [renderTaskQuestions] do agree: on a string, and on an
    object whose [question] or, failing that, [text] is truthy, both carry
    the same question text. *)
Lemma ingestQuestion_agrees_on_question_or_text (q : value num) :
  (exists s, q = VStr s)
  \/ (exists props a,
        q = VObj props
        /\ truthy a = true
        /\ (lookup "question" props = Some a
            \/ (truthy (questionOf q) = false /\ lookup "text" props = Some a))) ->
  exists n m,
    ingestQuestion q = Normal n /\ normalizeQuestion q = Normal m
    /\ questionOf n = questionOf m.
Proof.
  intros [[s ->] | [props [a [-> [Ta [Hq | [Hq Ht]]]]]]].
  - eexists _, _. repeat split.
  - unfold ingestQuestion, normalizeQuestion, orElse. simpl. rewrite Hq, Ta. simpl.
    eexists _, _. split; [reflexivity|]. split; [reflexivity|]. simpl. now rewrite Hq.
  - unfold ingestQuestion, normalizeQuestion, orElse. simpl in *.
    rewrite Hq. rewrite Ht, Ta. simpl.
    eexists _, _. repeat split.
Qed.

End Normalization.


Section TaskPage.
Context {num : Type} `{JSNumber num}.

Local Open Scope list_scope.

(** A submission that goes through: every question answered, or the
    partial submission confirmed. *)
Lemma submitAllTaskAnswers_submitted
      (env : environment num) (w : world num) (taskData : TaskData num)
      (qs : list (value num)) (answers : list (option string)) (scores : list (option Z)) :
  ls_currentTaskData (storage w) = Some taskData ->
  currentTaskQuestions (win w) = Some qs ->
  taskAnswers (win w) = Some answers ->
  taskScores (win w) = Some scores ->
  length qs <= length (filter isAnswered answers) \/ confirm env = true ->
  let correct := length (filter isOne scores) in
  submitAllTaskAnswers env w =
  (Normal tt,
   withWindow (setLocation "progress.html")
     (withPage (addNotice (AlertTaskComplete correct (length qs)
                                             (computeScore correct (length qs))))
        (withStorage (setTaskHistory
                        (historyOf w ++ [entryOf env taskData correct (length qs)])) w))).
Proof.
  intros Htask Hqs Hans Hsc Hgo correct.
  unfold submitAllTaskAnswers, bind, gets, lift, modify, notify, navigate, ret.
  simpl. rewrite Htask. simpl. rewrite Hqs. simpl. rewrite Hans. simpl.
  assert (Hgate : Nat.ltb (length (filter isAnswered answers)) (length qs)
                  && negb (confirm env) = false).
  { destruct Hgo as [Hall|Hconf].
    - apply Nat.ltb_ge in Hall. now rewrite Hall.
    - rewrite Hconf. apply andb_false_r. }
  rewrite Hgate. simpl. rewrite Hsc. reflexivity.
Qed.

(** A partial submission that the user declines changes nothing. *)
Lemma submitAllTaskAnswers_declined
      (env : environment num) (w : world num) (taskData : TaskData num)
      (qs : list (value num)) (answers : list (option string)) :
  ls_currentTaskData (storage w) = Some taskData ->
  currentTaskQuestions (win w) = Some qs ->
  taskAnswers (win w) = Some answers ->
  length (filter isAnswered answers) < length qs ->
  confirm env = false ->
  submitAllTaskAnswers env w = (Normal tt, w).
Proof.
  intros Htask Hqs Hans Hpartial Hconf.
  unfold submitAllTaskAnswers, bind, gets, lift, modify, notify, navigate, ret.
  simpl. rewrite Htask. simpl. rewrite Hqs. simpl. rewrite Hans. simpl.
  apply Nat.ltb_lt in Hpartial. rewrite Hpartial, Hconf. reflexivity.
Qed.

(** C2, as amended: with a task session stored and the questions rendered,
    a bulk submission that goes through (every question answered, or the
    partial submission confirmed) ends normally, appends exactly one entry
    (subject, topic, totalQuestions, correctAnswers, score, date, timestamp)
    after the entries of the stored history, which it keeps as they were,
    and leaves the stored task session and the stored subjects as they
    were. *)
Theorem submitAllTaskAnswers_appends_one_entry
        (env : environment num) (w : world num) (taskData : TaskData num)
        (qs : list (value num)) (answers : list (option string)) (scores : list (option Z)) :
  ls_currentTaskData (storage w) = Some taskData ->
  currentTaskQuestions (win w) = Some qs ->
  taskAnswers (win w) = Some answers ->
  taskScores (win w) = Some scores ->
  length qs <= length (filter isAnswered answers) \/ confirm env = true ->
  let w' := stateAfter (submitAllTaskAnswers env) w in
  outcome (submitAllTaskAnswers env) w = Normal tt
  /\ ls_taskHistory (storage w') =
     Some (historyOf w ++ [entryOf env taskData (length (filter isOne scores)) (length qs)])
  /\ ls_currentTaskData (storage w') = Some taskData
  /\ ls_subjects (storage w') = ls_subjects (storage w)
  /\ subjects w' = subjects w.
Proof.
  intros Htask Hqs Hans Hsc Hgo w'.
  pose proof (submitAllTaskAnswers_submitted env w taskData qs answers scores
                Htask Hqs Hans Hsc Hgo) as Hrun.
  cbv zeta in Hrun. unfold w', outcome, stateAfter. rewrite Hrun. simpl.
  auto.
Qed.

(** Rendering the questions leaves the store, the subjects and the record
    of requests alone, however it ends. *)
Lemma renderTaskQuestions_frame (questions : value num) (w : world num) :
  let w' := stateAfter (renderTaskQuestions questions) w in
  storage w' = storage w /\ subjects w' = subjects w /\ network w' = network w.
Proof.
  unfold stateAfter, renderTaskQuestions, setInnerHTML, bind, lift, modify, throw.
  destruct (truthy questions); simpl; [|auto].
  destruct questions as [| |b|x|s|[|q qs]|props]; cbn -[mapC]; auto.
  destruct (mapC normalizeQuestion (q :: qs)) as [ns|e]; cbn -[mapC]; [|auto].
  match goal with
  | |- context [mapC ?f ns] => destruct (mapC f ns)
  end; simpl; auto.
Qed.

(** [generateQuestions] completes the same way from every world, and only
    ever adds to the record of requests. *)
Lemma generateQuestions_spec
      (env : environment num) (baseUrl : string) (subject topic : value num) (count : Z) :
  exists r reqs, forall w : world num,
    generateQuestions env baseUrl subject topic count w
    = (r, withNetwork (network w ++ reqs) w).
Proof.
  assert (Hstay : forall w : world num, w = withNetwork (network w ++ []) w).
  { intros w. rewrite app_nil_r. now destruct w. }
  unfold generateQuestions, bind, lift, throw, ret.
  destruct (negb (truthy subject) || negb (truthy topic)).
  { exists (Throw (Error "Subject and topic are required")), []. intros w.
    now rewrite <- Hstay. }
  destruct ((count <? 1)%Z || (count >? 20)%Z).
  { exists (Throw (Error "Count must be between 1 and 20")), []. intros w.
    now rewrite <- Hstay. }
  destruct (callTrim subject) as [s|e];
    [|exists (Throw e), []; intros w; now rewrite <- Hstay].
  destruct (callTrim topic) as [t|e];
    [|exists (Throw e), []; intros w; now rewrite <- Hstay].
  match goal with
  | |- context [_request env ?req] =>
      destruct (responseOf env req) as [response|e] eqn:Hresp;
        [destruct (get response "data") as [data|e] eqn:Hdata|];
        eexists _, [req]; intros w; rewrite _request_spec, Hresp;
          [rewrite Hdata| rewrite Hdata|]; reflexivity
  end.
Qed.

(** Storing the questions of a topic writes to the [subjects] key only. *)
Lemma storeTopicQuestions_frame
      (subjectId : Z) (topicId : string) (questions : value num) (w : world num) :
  let w' := stateAfter (storeTopicQuestions subjectId topicId questions) w in
  outcome (storeTopicQuestions subjectId topicId questions) w = Normal tt
  /\ ls_taskHistory (storage w') = ls_taskHistory (storage w)
  /\ ls_currentTaskData (storage w') = ls_currentTaskData (storage w).
Proof.
  unfold outcome, stateAfter, storeTopicQuestions, bind, gets, modify, saveState, ret.
  simpl.
  destruct (find _ (subjects w)) as [subject|]; simpl; auto.
  destruct (find _ (subject_topics subject)); simpl; auto.
Qed.

(** The [catch] block with no cached question: the banner stays and the
    way back to the subjects is added under it. *)
Lemma generateQuestionsCatch_without_cache
      (error : exn) (taskData : TaskData num) (w : world num) :
  hasElements (td_questions taskData) = false ->
  outcome (generateQuestionsCatch error taskData) w = Normal tt
  /\ questionsContainer (page (stateAfter (generateQuestionsCatch error taskData) w))
     = [FailureBanner (messageOf error); BackToSubjects].
Proof.
  intros Hnone. unfold outcome, stateAfter, generateQuestionsCatch.
  rewrite Hnone.
  unfold bind, hideLoading, setInnerHTML, appendInnerHTML, modify. simpl. auto.
Qed.

(** The [catch] block with cached questions that render: the grid of the
    cached questions replaces the banner. *)
Lemma generateQuestionsCatch_with_cache
      (error : exn) (taskData : TaskData num) (w : world num)
      (q : value num) (qs ns : list (value num)) (cards : list string) :
  td_questions taskData = VArr (q :: qs) ->
  mapC normalizeQuestion (q :: qs) = Normal ns ->
  mapC (fun n => bindC (get n "question") toStr) ns = Normal cards ->
  outcome (generateQuestionsCatch error taskData) w = Normal tt
  /\ questionsContainer (page (stateAfter (generateQuestionsCatch error taskData) w))
     = [QuestionsGrid cards].
Proof.
  intros Hcached Hnorm Hcards. unfold outcome, stateAfter, generateQuestionsCatch.
  rewrite Hcached.
  unfold bind, hideLoading, setInnerHTML, renderTaskQuestions, lift, modify.
  cbn -[mapC]. unfold bind, lift, setInnerHTML, modify. rewrite Hnorm. cbn -[mapC].
  rewrite Hcards. simpl. auto.
Qed.

(** Whatever the backend does, the [try] block leaves the task history as
    it was. *)
Lemma generateQuestionsTry_keeps_history
      (env : environment num) (taskData : TaskData num) (w : world num) :
  ls_taskHistory (storage (snd (snd (generateQuestionsTry env (taskData, w)))))
  = ls_taskHistory (storage w).
Proof.
  unfold generateQuestionsTry, bind, gets, lift, onWorld, modify,
    showLoading, hideLoading, setInnerHTML, notify. simpl.
  destruct (toStr (td_topic taskData)) as [topicText|e]; simpl; [|reflexivity].
  destruct (generateQuestions_spec env defaultBaseUrl (VStr (td_subject taskData))
              (td_topic taskData) 5) as [r [reqs Hgen]].
  rewrite Hgen. simpl.
  destruct r as [response|e]; simpl; [|reflexivity].
  destruct (questionsOfResponse response) as [questions|e]; simpl; [|reflexivity].
  match goal with
  | |- context [storeTopicQuestions ?a ?b ?c ?x] =>
      destruct (storeTopicQuestions_frame a b c x) as [Hout [Hh _]];
        unfold outcome, stateAfter in Hout, Hh;
        destruct (storeTopicQuestions a b c x) as [r1 w1]
  end.
  simpl in Hout, Hh. subst r1. simpl.
  match goal with
  | |- context [renderTaskQuestions ?v ?x] =>
      destruct (renderTaskQuestions_frame v x) as [Hst _]; unfold stateAfter in Hst;
        destruct (renderTaskQuestions v x) as [[u|e] w2]
  end; simpl in *; rewrite Hst, Hh; reflexivity.
Qed.

(** Whatever the backend does, [generateQuestionsForTopic] leaves the task
    history as it was. *)
Lemma generateQuestionsForTopic_keeps_history
      (env : environment num) (taskData : TaskData num) (w : world num) :
  ls_taskHistory (storage (stateAfter (generateQuestionsForTopic env taskData) w))
  = ls_taskHistory (storage w).
Proof.
  assert (Hcatch : forall error td w0,
             ls_taskHistory (storage (stateAfter (generateQuestionsCatch error td) w0))
             = ls_taskHistory (storage w0)).
  { intros error td w0. unfold stateAfter, generateQuestionsCatch, bind, hideLoading,
      setInnerHTML, appendInnerHTML, modify. simpl.
    destruct (hasElements (td_questions td)); [|reflexivity].
    match goal with
    | |- context [renderTaskQuestions ?v ?x] =>
        destruct (renderTaskQuestions_frame v x) as [Hst _]; unfold stateAfter in Hst;
          rewrite Hst
    end. reflexivity. }
  pose proof (generateQuestionsTry_keeps_history env taskData w) as Htry.
  unfold stateAfter at 1, generateQuestionsForTopic.
  destruct (generateQuestionsTry env (taskData, w)) as [[u|error] [td w1]]; simpl in *.
  - exact Htry.
  - rewrite <- Htry. apply Hcatch.
Qed.

(** When the generation call throws, the [catch] block runs with the error
    of the call and the task as it was passed in, on a world whose store is
    still the one at entry. *)
Lemma generateQuestionsForTopic_call_fails
      (env : environment num) (taskData : TaskData num) (w : world num)
      (topicText : string) (error : exn) :
  toStr (td_topic taskData) = Normal topicText ->
  outcome (generateQuestions env defaultBaseUrl (VStr (td_subject taskData))
                             (td_topic taskData) 5) w = Throw error ->
  exists w1,
    generateQuestionsForTopic env taskData w = generateQuestionsCatch error taskData w1
    /\ storage w1 = storage w /\ subjects w1 = subjects w.
Proof.
  intros Htopic Hcall.
  destruct (generateQuestions_spec env defaultBaseUrl (VStr (td_subject taskData))
              (td_topic taskData) 5) as [r [reqs Hgen]].
  unfold outcome in Hcall. rewrite Hgen in Hcall. simpl in Hcall. subst r.
  unfold generateQuestionsForTopic, generateQuestionsTry, bind, gets, lift, onWorld,
    modify, showLoading, setInnerHTML. simpl.
  rewrite Htopic. simpl. rewrite Hgen. simpl.
  eexists. split; [reflexivity|]. simpl. auto.
Qed.

(** The failure of the generation call with cached questions that render:
    no exception escapes and the history stays, but the page ends up
    showing the grid of the cached questions alone; the failure banner
    written just before is gone. *)
Lemma generateQuestionsForTopic_failure_with_cache
      (env : environment num) (taskData : TaskData num) (w : world num)
      (topicText : string) (error : exn)
      (q : value num) (qs ns : list (value num)) (cards : list string) :
  toStr (td_topic taskData) = Normal topicText ->
  outcome (generateQuestions env defaultBaseUrl (VStr (td_subject taskData))
                             (td_topic taskData) 5) w = Throw error ->
  td_questions taskData = VArr (q :: qs) ->
  mapC normalizeQuestion (q :: qs) = Normal ns ->
  mapC (fun n => bindC (get n "question") toStr) ns = Normal cards ->
  let w' := stateAfter (generateQuestionsForTopic env taskData) w in
  outcome (generateQuestionsForTopic env taskData) w = Normal tt
  /\ questionsContainer (page w') = [QuestionsGrid cards]
  /\ ls_taskHistory (storage w') = ls_taskHistory (storage w).
Proof.
  intros Htopic Hcall Hcached Hnorm Hcards w'.
  destruct (generateQuestionsForTopic_call_fails env taskData w topicText error Htopic Hcall)
    as [w1 [Hrun _]].
  destruct (generateQuestionsCatch_with_cache error taskData w1 q qs ns cards
              Hcached Hnorm Hcards) as [Hout Hpage].
  unfold w', outcome, stateAfter in *. rewrite Hrun.
  split; [exact Hout|]. split; [exact Hpage|].
  pose proof (generateQuestionsForTopic_keeps_history env taskData w) as Hh.
  unfold stateAfter in Hh. now rewrite Hrun in Hh.
Qed.

(** The failure of the generation call with nothing cached: no exception
    escapes, the history stays, and the page shows the failure banner and,
    under it, the way back to the subjects. *)
Lemma generateQuestionsForTopic_failure_without_cache
      (env : environment num) (taskData : TaskData num) (w : world num)
      (topicText : string) (error : exn) :
  toStr (td_topic taskData) = Normal topicText ->
  outcome (generateQuestions env defaultBaseUrl (VStr (td_subject taskData))
                             (td_topic taskData) 5) w = Throw error ->
  hasElements (td_questions taskData) = false ->
  let w' := stateAfter (generateQuestionsForTopic env taskData) w in
  outcome (generateQuestionsForTopic env taskData) w = Normal tt
  /\ questionsContainer (page w') = [FailureBanner (messageOf error); BackToSubjects]
  /\ ls_taskHistory (storage w') = ls_taskHistory (storage w).
Proof.
  intros Htopic Hcall Hnone w'.
  destruct (generateQuestionsForTopic_call_fails env taskData w topicText error Htopic Hcall)
    as [w1 [Hrun _]].
  destruct (generateQuestionsCatch_without_cache error taskData w1 Hnone) as [Hout Hpage].
  unfold w', outcome, stateAfter in *. rewrite Hrun.
  split; [exact Hout|]. split; [exact Hpage|].
  pose proof (generateQuestionsForTopic_keeps_history env taskData w) as Hh.
  unfold stateAfter in Hh. now rewrite Hrun in Hh.
Qed.

End TaskPage.

Section Scoring.

Lemma sameFloat_eq (x y : spec_float) : sameFloat x y = true -> x = y.
Proof.
  destruct x as [a|a| |s m e], y as [b|b| |s' m' e']; simpl; try discriminate.
  - intros E. apply Bool.eqb_prop in E. now subst.
  - intros E. apply Bool.eqb_prop in E. now subst.
  - reflexivity.
  - intros E. apply andb_prop in E as [E He]. apply andb_prop in E as [Hs Hm].
    apply Bool.eqb_prop in Hs. apply Pos.eqb_eq in Hm. apply Z.eqb_eq in He.
    now subst.
Qed.

(** Every score of a session of fewer than 40 questions, checked one by
    one against the exact rounding. *)
Lemma scores_below_40_checked :
  forallb (fun total => forallb (fun correct => scoreIsExact correct total)
                                (seq 0 (S total)))
          (seq 1 39) = true.
Proof. vm_compute. reflexivity. Qed.

(** Below 40 questions the binary64 computation of the page agrees with the
    exact rounding of [100 * correct / total]. *)
Lemma computeScore_exact_below_40 (correct total : nat) :
  0 < total < 40 -> correct <= total ->
  computeScore correct total = Number.ofZ (exactScore correct total).
Proof.
  intros Ht Hc. apply sameFloat_eq.
  pose proof scores_below_40_checked as Hall.
  rewrite forallb_forall in Hall.
  specialize (Hall total). rewrite forallb_forall in Hall.
  apply Hall; apply in_seq; lia.
Qed.

(** A submission that goes through in a session of fewer than 40 questions
    records the exact score: every question counts in the denominator,
    answered or not, and only the scores equal to 1 count as correct. *)
Lemma submitAllTaskAnswers_score_exact_below_40
      {num : Type} `{JSNumber num}
      (env : environment num) (w : world num) (taskData : TaskData num)
      (qs : list (value num)) (answers : list (option string)) (scores : list (option Z)) :
  ls_currentTaskData (storage w) = Some taskData ->
  currentTaskQuestions (win w) = Some qs ->
  taskAnswers (win w) = Some answers ->
  taskScores (win w) = Some scores ->
  length qs <= length (filter isAnswered answers) \/ confirm env = true ->
  length scores = length qs ->
  0 < length qs < 40 ->
  exists entry,
    ls_taskHistory (storage (stateAfter (submitAllTaskAnswers env) w))
    = Some (historyOf w ++ [entry])%list
    /\ h_totalQuestions entry = length qs
    /\ h_correctAnswers entry = length (filter isOne scores)
    /\ h_score entry
       = Number.throughJSON
           (Number.ofZ (exactScore (length (filter isOne scores)) (length qs))).
Proof.
  intros Htask Hqs Hans Hsc Hgo Hlen Hsmall.
  pose proof (submitAllTaskAnswers_submitted env w taskData qs answers scores
                Htask Hqs Hans Hsc Hgo) as Hrun.
  cbv zeta in Hrun. unfold stateAfter. rewrite Hrun. simpl.
  eexists. split; [reflexivity|]. simpl. split; [reflexivity|]. split; [reflexivity|].
  rewrite computeScore_exact_below_40; [reflexivity|exact Hsmall|].
  rewrite <- Hlen. apply filter_length_le.
Qed.

(** At 23 correct answers out of 40 the quotient 0.575 is not a binary64
    number; scaled by 100 it falls just short of 57.5, and the page rounds
    it down, where the exact value 57.5 rounds up. *)
Lemma computeScore_23_of_40 :
  computeScore 23 40 = Number.ofZ 57 /\ exactScore 23 40 = 58%Z.
Proof. split; vm_compute; reflexivity. Qed.

End Scoring.

(* ================================================================== *)
(** * The properties on the sample states *)

Import Samples.

Local Open Scope list_scope.

(** C1: the final score should be round(100 x correctCount /
    totalQuestions), unanswered questions counting in the denominator only.
    The page divides first and scales after, in binary64: in a session of
    40 questions with 23 verified as correct it records 57, where
    100 x 23 / 40 = 57.5 rounds to 58, in exact arithmetic and in binary64
    alike when the product is formed before the division. *)
Theorem submitAllTaskAnswers_score_of_23_in_40 :
  let w' := stateAfter (submitAllTaskAnswers answering) (session 23 40 40) in
  (exists entry,
      ls_taskHistory (storage w') = Some [entry]
      /\ h_totalQuestions entry = 40 /\ h_correctAnswers entry = 23
      /\ h_score entry = Some (Number.ofZ 57))
  /\ exactScore 23 40 = 58%Z
  /\ Number.round (Number.div (Number.mul (Number.ofNat 100) (Number.ofNat 23))
                              (Number.ofNat 40)) = Number.ofZ 58.
Proof.
  split; [|split; vm_compute; reflexivity].
  eexists. vm_compute. repeat split; reflexivity.
Qed.

(** The scenario of the specification: 5 questions, 3 answered, 2 correct;
    the unanswered two count in the denominator and the score is 40. *)
Lemma submitAllTaskAnswers_scenario_2_of_5 :
  let w' := stateAfter (submitAllTaskAnswers answering) (session 2 3 5) in
  ls_taskHistory (storage w')
  = Some [{| h_subject := "Python"; h_topic := VStr "Loops";
             h_totalQuestions := 5; h_correctAnswers := 2;
             h_score := Some (Number.ofZ 40);
             h_date := "2023-11-14T22:13:20.000Z"; h_timestamp := 1700000000000 |}].
Proof. vm_compute. reflexivity. Qed.

(** C2, the claim as stated fails: after a bulk submission that went
    through (one entry appended), the task session is still stored under
    [currentTaskData]; nothing clears it. *)
Lemma submitAllTaskAnswers_leaves_session_stored :
  let w' := stateAfter (submitAllTaskAnswers answering) (session 2 3 5) in
  ls_taskHistory (storage w') = Some [entryOf answering loopsTask 2 5]
  /\ ls_currentTaskData (storage w') = Some loopsTask
  /\ ls_currentTaskData (storage w') <> None.
Proof. vm_compute. repeat split; try reflexivity. discriminate. Qed.

Lemma submitAllTaskAnswers_appends_one_entry_witness :
  let w := session 2 3 5 in
  let w' := stateAfter (submitAllTaskAnswers answering) w in
  outcome (submitAllTaskAnswers answering) w = Normal tt
  /\ ls_taskHistory (storage w') = Some (historyOf w ++ [entryOf answering loopsTask 2 5])
  /\ ls_currentTaskData (storage w') = Some loopsTask
  /\ ls_subjects (storage w') = ls_subjects (storage w)
  /\ subjects w' = subjects w.
Proof.
  exact (submitAllTaskAnswers_appends_one_entry answering (session 2 3 5) loopsTask
           _ _ _ eq_refl eq_refl eq_refl eq_refl (or_intror eq_refl)).
Defined.

(** C3, the claim as stated fails: the empty string is normalized to a
    question with an empty text, and normalizing that again gives a
    different question, with the text "[object Object]". *)
Lemma normalizeQuestion_twice_on_empty_string :
  normalizeQuestion (VStr "" : value Z) = Normal (canonical (VStr ""))
  /\ normalizeQuestion (canonical (VStr "") : value Z)
     = Normal (canonical (VStr "[object Object]"))
  /\ bindC (normalizeQuestion (VStr "" : value Z)) normalizeQuestion
     <> normalizeQuestion (VStr "").
Proof. repeat split; try reflexivity. vm_compute. discriminate. Qed.

Lemma normalizeQuestion_idempotent_iff_text_truthy_witness :
  let n : value Z := VObj [("question", VStr "What is a loop?"); ("difficulty", VNum 2%Z)] in
  normalizeQuestion n = Normal n <-> truthy (questionOf n) = true.
Proof.
  exact (normalizeQuestion_idempotent_iff_text_truthy
           (VObj [("question", VStr "What is a loop?"); ("difficulty", VNum 2%Z)]) _ eq_refl).
Defined.

(** C4: the two normalizations should be one function.  On a question that
    carries its text under [title] the ingestion of
    [generateQuestionsForTopic], which does not try [title], prints the
    object, where [renderTaskQuestions] finds the text; and on [null] the
    ingestion throws where [renderTaskQuestions] prints "null". *)
Theorem ingestQuestion_misses_title_and_null :
  let q : value Z := VObj [("title", VStr "What is a loop?")] in
  ingestQuestion q = Normal (canonical (VStr "[object Object]"))
  /\ normalizeQuestion q = Normal (canonical (VStr "What is a loop?"))
  /\ ingestQuestion (VNull : value Z)
     = Throw (TypeError "Cannot read properties of null (reading 'question')")
  /\ normalizeQuestion (VNull : value Z) = Normal (canonical (VStr "null")).
Proof. repeat split; reflexivity. Qed.

(** C7: on every failure of the generation call, cached questions should be
    shown with the failure banner.  With one cached question and a backend
    that times out, no exception escapes and no history entry is written,
    but the page ends up showing the grid of the cached question alone:
    [renderTaskQuestions] assigns the container and so drops the banner
    written just before. *)
Theorem generateQuestionsForTopic_timeout_drops_banner :
  let run := generateQuestionsForTopic timedOut loopsTask in
  let w' := stateAfter run taskPageEntered in
  outcome run taskPageEntered = Normal tt
  /\ questionsContainer (page w') = [QuestionsGrid ["What is a loop?"]]
  /\ ~ In (FailureBanner "signal is aborted without reason") (questionsContainer (page w'))
  /\ ls_taskHistory (storage w') = None.
Proof.
  vm_compute. repeat split; try reflexivity.
  intros [Habs|[]]. discriminate.
Qed.

Lemma verifyAnswer_validates_before_network_witness :
  (* a blank question, an absent answer: rejected, and the world is untouched *)
  (let run := verifyAnswer timedOut defaultBaseUrl (argument (Some "   ")) (argument (Some "4")) in
   (outcome run freshWorld = Throw (Error "Question cannot be empty")
    \/ outcome run freshWorld = Throw (Error "Answer cannot be empty"))
   /\ stateAfter run freshWorld = freshWorld)
  /\ (let run := verifyAnswer timedOut defaultBaseUrl (argument (Some "2 + 2?")) (argument None) in
      (outcome run freshWorld = Throw (Error "Question cannot be empty")
       \/ outcome run freshWorld = Throw (Error "Answer cannot be empty"))
      /\ stateAfter run freshWorld = freshWorld)
  (* both present: one request, with the trimmed texts *)
  /\ (exists q a, Some " 2 + 2? " = Some q /\ Some "4 " = Some a
                  /\ network (stateAfter (verifyAnswer timedOut defaultBaseUrl
                                            (argument (Some " 2 + 2? "))
                                            (argument (Some "4 "))) freshWorld)
                     = network freshWorld ++ [verifyRequest defaultBaseUrl q a]).
Proof.
  split; [|split].
  - apply (proj1 (verifyAnswer_validates_before_network
                    timedOut defaultBaseUrl (Some "   ") (Some "4") freshWorld)).
    left. reflexivity.
  - apply (proj1 (verifyAnswer_validates_before_network
                    timedOut defaultBaseUrl (Some "2 + 2?") None freshWorld)).
    right. exact I.
  - apply (proj2 (verifyAnswer_validates_before_network
                    timedOut defaultBaseUrl (Some " 2 + 2? ") (Some "4 ") freshWorld));
      simpl; discriminate.
Defined.

Lemma generateQuestions_validates_count_and_names_witness :
  (* count = 0 and count = 21 are rejected before the network *)
  stateAfter (generateQuestions timedOut defaultBaseUrl (VStr "Python") (VStr "Loops") 0)
             freshWorld = freshWorld
  /\ stateAfter (generateQuestions timedOut defaultBaseUrl (VStr "Python") (VStr "Loops") 21)
                freshWorld = freshWorld
  (* a missing topic is rejected before the network *)
  /\ stateAfter (generateQuestions timedOut defaultBaseUrl (VStr "Python") VUndefined 5)
                freshWorld = freshWorld
  (* count = 1 and count = 20 pass, and the request goes out *)
  /\ network (stateAfter (generateQuestions timedOut defaultBaseUrl
                            (VStr "Python") (VStr "Loops") 1) freshWorld)
     = [questionsRequest defaultBaseUrl "Python" "Loops" 1]
  /\ network (stateAfter (generateQuestions timedOut defaultBaseUrl
                            (VStr "Python") (VStr "Loops") 20) freshWorld)
     = [questionsRequest defaultBaseUrl "Python" "Loops" 20].
Proof.
  split; [|split; [|split; [|split]]].
  - apply (proj1 (generateQuestions_validates_count_and_names
                    timedOut defaultBaseUrl (VStr "Python") (VStr "Loops") "" "" 0 freshWorld)).
    right. right. left. lia.
  - apply (proj1 (generateQuestions_validates_count_and_names
                    timedOut defaultBaseUrl (VStr "Python") (VStr "Loops") "" "" 21 freshWorld)).
    right. right. right. lia.
  - apply (proj1 (generateQuestions_validates_count_and_names
                    timedOut defaultBaseUrl (VStr "Python") VUndefined "" "" 5 freshWorld)).
    right. left. reflexivity.
  - apply (proj2 (generateQuestions_validates_count_and_names
                    timedOut defaultBaseUrl VNull VNull "Python" "Loops" 1 freshWorld));
      try discriminate; lia.
  - apply (proj2 (generateQuestions_validates_count_and_names
                    timedOut defaultBaseUrl VNull VNull "Python" "Loops" 20 freshWorld));
      try discriminate; lia.
Defined.

Lemma deleteSubject_removes_exactly_that_subject_witness :
  let w' := stateAfter (deleteSubject answering 1) (subjectsPage "") in
  exists before after,
    subjects (subjectsPage "") = before ++ python :: after
    /\ subjects w' = before ++ after
    /\ ~ In python (subjects w')
    /\ ls_subjects (storage w') = Some (before ++ after).
Proof.
  apply (deleteSubject_removes_exactly_that_subject answering 1 python (subjectsPage "")).
  - reflexivity.
  - simpl. repeat constructor; simpl; intuition discriminate.
  - simpl. left. reflexivity.
  - reflexivity.
Defined.

Lemma generateSubject_keeps_names_unique_witness :
  (* "pYTHON" is refused: the collection and the store stay *)
  (let w := subjectsPage " pYTHON " in
   subjects (stateAfter (generateSubject answering) w) = subjects w
   /\ storage (stateAfter (generateSubject answering) w) = storage w)
  (* "Go" is added, and the names are still unique *)
  /\ uniqueNames (subjects (stateAfter (generateSubject answering) (subjectsPage "Go"))).
Proof.
  split.
  - apply (proj1 (generateSubject_keeps_names_unique answering (subjectsPage " pYTHON "))).
    exists python. split; [simpl; left; reflexivity | reflexivity].
  - apply (proj2 (generateSubject_keeps_names_unique answering (subjectsPage "Go"))).
    unfold uniqueNames. simpl. repeat constructor; simpl; intuition discriminate.
Defined.

Lemma generateSubject_atomic_on_failure_witness :
  let w := subjectsPage "Go" in
  subjects (stateAfter (generateSubject timedOut) w) = subjects w
  /\ storage (stateAfter (generateSubject timedOut) w) = storage w.
Proof.
  apply (proj1 (generateSubject_atomic_on_failure timedOut (subjectsPage "Go"))).
  exists (Error "signal is aborted without reason"). reflexivity.
Defined.

(** The same page with a backend that answers: the subject is added at the
    head and saved. *)
Lemma generateSubject_adds_on_success :
  let w' := stateAfter (generateSubject answering) (subjectsPage " Go ") in
  map subject_name (subjects w') = ["Go"; "Python"; "Rust"]
  /\ ls_subjects (storage w') = Some (subjects w').
Proof. vm_compute. split; reflexivity. Qed.

(** The task page with a backend that answers: the three shapes of question
    are ingested, stored for the session and for the topic, and shown. *)
Lemma generateQuestionsForTopic_on_success :
  let w' := stateAfter (generateQuestionsForTopic answering loopsTask) taskPageEntered in
  questionsContainer (page w')
  = [QuestionsGrid ["What does break do?"; "What does continue do?"; "What is an iterator?"]]
  /\ option_map td_needsGeneration (ls_currentTaskData (storage w')) = Some false
  /\ taskScores (win w') = Some [None; None; None]
  /\ ls_subjects (storage w') = Some (subjects w').
Proof. vm_compute. repeat split; reflexivity. Qed.

(** Checking the first answer of a rendered session: the verdict of the
    backend is the score of that question, and of that question only. *)
Lemma submitTaskAnswer_records_the_verdict :
  let w' := stateAfter (submitTaskAnswer answering 0 " It repeats a block. ") (session 0 0 3) in
  taskAnswers (win w') = Some [Some "It repeats a block."; None; None]
  /\ taskScores (win w') = Some [Some 1%Z; None; None]
  /\ resultStatus (page w') = [(0, Checking); (0, Correct "Well explained.")].
Proof. vm_compute. repeat split; reflexivity. Qed.

(* ================================================================== *)
(** * More properties of the request client *)

Section MoreOfTheClient.
Context {num : Type} `{JSNumber num}.

Local Open Scope list_scope.

Lemma withNetwork_nil (w : world num) : withNetwork (network w ++ []) w = w.
Proof. rewrite app_nil_r. now destruct w. Qed.

(** A throw before the request is built sends nothing. *)
Lemma sendsAtMostOne_throw {A : Type} (e : exn) :
  sendsAtMostOne (fun w : world num => (@Throw A e, w)).
Proof.
  exists (Throw e), []. split; [simpl; lia|]. intros w. now rewrite withNetwork_nil.
Qed.

(** The message of the error on a body that is not [null]: the first of
    [detail.message], [message] and the text made of the status that is
    truthy. *)
Lemma errorMessage_chain (body : value num) (status : Z) (statusText : string) :
  body <> VNull -> body <> VUndefined ->
  errorMessage body status statusText
  = toStr (if truthy (detailMessage body) then detailMessage body
           else if truthy (ownMessage body) then ownMessage body
           else VStr ("HTTP " ++ JSString.ofZ status ++ ": " ++ statusText)%string).
Proof.
  intros Hnull Hundef. unfold errorMessage, detailMessage, ownMessage, orElse.
  destruct body as [| |b|n|s|l|props]; try congruence; try reflexivity.
  cbn [get bindC].
  destruct (lookup "detail" props) as [[| |b|n|s|l|dprops]|]; cbn [get bindC truthy];
    try (destruct (lookup "message" props) as [m|]; cbn [truthy];
         [destruct (truthy m)|]; reflexivity).
  destruct (lookup "message" dprops) as [dm|]; cbn [truthy].
  - destruct (truthy dm); [reflexivity|].
    destruct (lookup "message" props) as [m|]; cbn [truthy];
      [destruct (truthy m)|]; reflexivity.
  - destruct (lookup "message" props) as [m|]; cbn [truthy];
      [destruct (truthy m)|]; reflexivity.
Qed.

(** X1: a response that is not ok never comes back as data: [_request]
    hands the request to [fetch] and throws.  On a body that is [null]
    the reading of [detail] throws a [TypeError].  On any other body (a
    body that is not JSON counts as the empty object) it throws an [Error]
    whose message is the first truthy one of [errorData.detail?.message],
    [errorData.message] and "HTTP status: statusText", converted to a
    string: so the fallback is used whenever the body is not an object,
    [detail] is missing, a string or another value that is not an object,
    or carries no [message] or an empty one, and the body has no
    [message] or an empty one of its own. *)
Theorem _request_not_ok_throws
        (env : environment num) (req : request num) (w : world num)
        (status : Z) (statusText : string) (json : completion (value num)) :
  fetch env req = Response false status statusText json ->
  let body := match json with Normal v => v | Throw _ => VObj [] end in
  let fallback := ("HTTP " ++ JSString.ofZ status ++ ": " ++ statusText)%string in
  let thrown := outcome (_request env req) w in
  network (stateAfter (_request env req) w) = network w ++ [req]
  /\ (exists e, thrown = Throw e)
  /\ (body = VNull -> exists m, thrown = Throw (TypeError m))
  /\ (body <> VNull -> body <> VUndefined ->
      (truthy (detailMessage body) = true ->
       thrown = bindC (toStr (detailMessage body)) (fun m => Throw (Error m)))
      /\ (truthy (detailMessage body) = false -> truthy (ownMessage body) = true ->
          thrown = bindC (toStr (ownMessage body)) (fun m => Throw (Error m)))
      /\ (truthy (detailMessage body) = false -> truthy (ownMessage body) = false ->
          thrown = Throw (Error fallback)))
  /\ (forall m, detailMessage body = VStr m -> m <> "" -> thrown = Throw (Error m))
  /\ (forall m, truthy (detailMessage body) = false ->
                ownMessage body = VStr m -> m <> "" -> thrown = Throw (Error m)).
Proof.
  intros Hfetch body fallback thrown.
  assert (Hthrown : thrown = bindC (errorMessage body status statusText)
                                   (fun m => Throw (Error m))).
  { unfold thrown, outcome. rewrite _request_spec. simpl.
    unfold responseOf. rewrite Hfetch. reflexivity. }
  assert (Hchain : body <> VNull -> body <> VUndefined ->
                   thrown = bindC (toStr (if truthy (detailMessage body)
                                          then detailMessage body
                                          else if truthy (ownMessage body)
                                               then ownMessage body
                                               else VStr fallback))
                                  (fun m => Throw (Error m))).
  { intros Hnull Hundef. rewrite Hthrown.
    now rewrite (errorMessage_chain body status statusText Hnull Hundef). }
  split.
  { unfold stateAfter. now rewrite _request_spec. }
  split.
  { rewrite Hthrown. destruct (errorMessage body status statusText); simpl;
      eexists; reflexivity. }
  split.
  { intros Hnull. rewrite Hthrown, Hnull. simpl. eexists. reflexivity. }
  split.
  { intros Hnull Hundef. specialize (Hchain Hnull Hundef).
    split; [|split].
    - intros Hd. now rewrite Hd in Hchain.
    - intros Hd Hm. now rewrite Hd, Hm in Hchain.
    - intros Hd Hm. now rewrite Hd, Hm in Hchain. }
  assert (Hbody : forall m, detailMessage body = VStr m \/ ownMessage body = VStr m ->
                            body <> VNull /\ body <> VUndefined).
  { intros m Hm. split; intros E; rewrite E in Hm; destruct Hm; discriminate. }
  split.
  - intros m Hd Hne. destruct (Hbody m (or_introl Hd)) as [Hnull Hundef].
    rewrite (Hchain Hnull Hundef), Hd. simpl.
    apply nonEmpty_false_iff in Hne. now rewrite Hne.
  - intros m Hd Hm Hne. destruct (Hbody m (or_intror Hm)) as [Hnull Hundef].
    rewrite (Hchain Hnull Hundef), Hd, Hm. simpl.
    apply nonEmpty_false_iff in Hne. now rewrite Hne.
Qed.

(** X2: [generateQuiz] throws its validation [Error] and leaves the world
    as it was when the topic is missing (falsy) or the count is below 1 or
    above 50; with a non-empty topic and a count from 1 to 50 it hands one
    request to [fetch] and returns what the backend answered, as it is. *)
Theorem generateQuiz_validates_topic_and_count
        (env : environment num) (baseUrl : string) (topic : value num)
        (t : string) (count : Z) (w : world num) :
  (truthy topic = false \/ (count < 1)%Z \/ (50 < count)%Z ->
   let run := generateQuiz env baseUrl topic count in
   (outcome run w = Throw (Error "Topic is required")
    \/ outcome run w = Throw (Error "Count must be between 1 and 50"))
   /\ stateAfter run w = w)
  /\
  (t <> "" -> (1 <= count <= 50)%Z ->
   generateQuiz env baseUrl (VStr t) count w
   = (responseOf env (quizRequest baseUrl t count),
      withNetwork (network w ++ [quizRequest baseUrl t count]) w)).
Proof.
  split.
  - intros Hbad run. unfold run, outcome, stateAfter, generateQuiz, throw.
    destruct (truthy topic); simpl; [|tauto].
    destruct (Z.ltb_spec count 1); simpl; [tauto|].
    destruct (Z.gtb_spec count 50); simpl; [tauto|].
    exfalso. destruct Hbad as [Hb|[Hb|Hb]]; try discriminate; lia.
  - intros Ht Hc. unfold generateQuiz. simpl.
    apply nonEmpty_false_iff in Ht. rewrite Ht. simpl.
    destruct (Z.ltb_spec count 1); [lia|].
    destruct (Z.gtb_spec count 50); [lia|]. simpl.
    unfold bind, lift. apply _request_spec.
Qed.

(** X3: [answerDoubt] throws "Question cannot be empty" and sends nothing
    when the question is empty after trimming or absent.  With a question
    that is not, a context left out counts as the empty string and one
    request goes out with both texts trimmed; a context of [null] is not
    defaulted: the call throws a [TypeError] and sends nothing. *)
Theorem answerDoubt_validates_question_and_defaults_context
        (env : environment num) (baseUrl : string) (question : option string)
        (context : option string) (w : world num) :
  (emptyAfterTrim question ->
   forall c : value num,
     answerDoubt env baseUrl (argument question) c w
     = (Throw (Error "Question cannot be empty"), w))
  /\
  (forall q, question = Some q -> trim q <> "" ->
   let c := match context with Some c => c | None => "" end in
   network (stateAfter (answerDoubt env baseUrl (VStr q) (argument context)) w)
   = network w ++ [doubtRequest baseUrl q c]
   /\ outcome (answerDoubt env baseUrl (VStr q) (argument context)) w
      = bindC (responseOf env (doubtRequest baseUrl q c)) unwrapData
   /\ exists message,
       answerDoubt env baseUrl (VStr q) VNull w = (Throw (TypeError message), w)).
Proof.
  split.
  - intros Hblank c. destruct (isBlank_argument (num := num) question) as [b [Eb Hb]].
    apply Hb in Hblank. subst b.
    unfold answerDoubt, bind, lift, throw. now rewrite Eb.
  - intros q -> Hq c.
    destruct (isBlank_argument (num := num) (Some q)) as [b [Eb Hb]].
    destruct b; [exfalso; apply Hq, Hb; reflexivity|]. simpl in Eb.
    assert (Hrun : answerDoubt env baseUrl (VStr q) (argument context) w
                   = (bindC (responseOf env (doubtRequest baseUrl q c)) unwrapData,
                      withNetwork (network w ++ [doubtRequest baseUrl q c]) w)).
    { unfold answerDoubt, bind, lift, throw, ret.
      destruct context as [c0|]; subst c; simpl; rewrite Eb; simpl;
        rewrite _request_spec; unfold doubtRequest, unwrapData; simpl;
        match goal with
        | |- context [responseOf env ?r] => destruct (responseOf env r) as [response|e]
        end; simpl; try reflexivity;
        destruct (get response "data"); reflexivity. }
    unfold outcome, stateAfter. rewrite Hrun. simpl.
    split; [reflexivity|]. split; [reflexivity|].
    eexists. unfold answerDoubt, bind, lift, throw. rewrite Eb. simpl. reflexivity.
Qed.

(** X4: [generateContent] throws "Subject cannot be empty" and leaves the
    world as it was when the subject is empty after trimming or absent;
    otherwise it posts the trimmed subject to [/generate], once, and
    returns what the backend answered, as it is. *)
Theorem generateContent_validates_and_posts_once
        (env : environment num) (baseUrl : string) (subject : option string)
        (w : world num) :
  (emptyAfterTrim subject ->
   generateContent env baseUrl (argument subject) w
   = (Throw (Error "Subject cannot be empty"), w))
  /\
  (forall s, subject = Some s -> trim s <> "" ->
   generateContent env baseUrl (VStr s) w
   = (responseOf env (contentRequest baseUrl s),
      withNetwork (network w ++ [contentRequest baseUrl s]) w)).
Proof.
  destruct (isBlank_argument (num := num) subject) as [b [Eb Hb]].
  split.
  - intros Hblank. apply Hb in Hblank. subst b.
    unfold generateContent, bind, lift, throw. now rewrite Eb.
  - intros s -> Hs. destruct b; [exfalso; apply Hs, Hb; reflexivity|]. simpl in Eb.
    unfold generateContent, bind, lift, throw. rewrite Eb. simpl.
    apply _request_spec.
Qed.

(** Handing one request to [fetch] sends at most one. *)
Lemma sendsAtMostOne_request (env : environment num) (req : request num) :
  sendsAtMostOne (_request env req).
Proof.
  exists (responseOf env req), [req]. split; [simpl; lia|]. apply _request_spec.
Qed.

(** So does unwrapping the data of the answer after it. *)
Lemma sendsAtMostOne_request_unwrap (env : environment num) (req : request num) :
  sendsAtMostOne
    (bind (_request env req)
          (fun response =>
             bind (lift (get response "data"))
                  (fun data => ret (if truthy data then data else response)))).
Proof.
  exists (bindC (responseOf env req) unwrapData), [req]. split; [simpl; lia|].
  intros w. unfold bind, lift, ret. rewrite _request_spec.
  destruct (responseOf env req) as [response|e]; simpl; [|reflexivity].
  unfold unwrapData. destruct (get response "data"); reflexivity.
Qed.

(** X5: no operation of the client retries or reads the page: whatever
    its arguments and whatever the backend does, each of [generateContent],
    [generateQuestions], [generateQuiz], [answerDoubt] and [verifyAnswer]
    completes the same way from every world and changes the world by
    nothing but at most one request added to those handed to [fetch]. *)
Theorem client_operations_send_at_most_one_request
        (env : environment num) (baseUrl : string) (a b : value num) (count : Z) :
  sendsAtMostOne (generateContent env baseUrl a)
  /\ sendsAtMostOne (generateQuestions env baseUrl a b count)
  /\ sendsAtMostOne (generateQuiz env baseUrl a count)
  /\ sendsAtMostOne (answerDoubt env baseUrl a b)
  /\ sendsAtMostOne (verifyAnswer env baseUrl a b).
Proof.
  split; [|split; [|split; [|split]]].
  - unfold generateContent, bind, lift, throw.
    destruct (isBlank a) as [[|]|e]; try apply sendsAtMostOne_throw.
    destruct (callTrim a) as [s|e]; [apply sendsAtMostOne_request|apply sendsAtMostOne_throw].
  - unfold generateQuestions, throw.
    destruct (negb (truthy a) || negb (truthy b)); [apply sendsAtMostOne_throw|].
    destruct ((count <? 1)%Z || (count >? 20)%Z); [apply sendsAtMostOne_throw|].
    unfold bind at 1, lift at 1.
    destruct (callTrim a) as [s|e]; [|apply sendsAtMostOne_throw].
    unfold bind at 1, lift at 1.
    destruct (callTrim b) as [t|e]; [|apply sendsAtMostOne_throw].
    apply sendsAtMostOne_request_unwrap.
  - unfold generateQuiz, throw.
    destruct (negb (truthy a)); [apply sendsAtMostOne_throw|].
    destruct ((count <? 1)%Z || (count >? 50)%Z); [apply sendsAtMostOne_throw|].
    unfold bind, lift.
    destruct (callTrim a) as [t|e]; [apply sendsAtMostOne_request|apply sendsAtMostOne_throw].
  - unfold answerDoubt, throw.
    unfold bind at 1, lift at 1.
    destruct (isBlank a) as [[|]|e]; try apply sendsAtMostOne_throw.
    unfold bind at 1, lift at 1.
    destruct (callTrim a) as [q|e]; [|apply sendsAtMostOne_throw].
    unfold bind at 1, lift at 1.
    destruct (callTrim _) as [c|e]; [|apply sendsAtMostOne_throw].
    apply sendsAtMostOne_request_unwrap.
  - unfold verifyAnswer, throw.
    unfold bind at 1, lift at 1.
    destruct (isBlank a) as [[|]|e]; try apply sendsAtMostOne_throw.
    unfold bind at 1, lift at 1.
    destruct (isBlank b) as [[|]|e]; try apply sendsAtMostOne_throw.
    unfold bind at 1, lift at 1.
    destruct (callTrim a) as [q|e]; [|apply sendsAtMostOne_throw].
    unfold bind at 1, lift at 1.
    destruct (callTrim b) as [c|e]; [apply sendsAtMostOne_request|apply sendsAtMostOne_throw].
Qed.

End MoreOfTheClient.

Section StringFacts.

Local Open Scope string_scope.

(** Trimming the end twice is trimming it once. *)
Lemma trimEnd_idempotent (s : string) : trimEnd (trimEnd s) = trimEnd s.
Proof.
  induction s as [|c r IH]; [reflexivity|].
  simpl. destruct (trimEnd r) as [|c' r'] eqn:E.
  - destruct (isWhiteSpace c) eqn:Ec; simpl; [reflexivity|]. now rewrite Ec.
  - simpl in *. rewrite IH. reflexivity.
Qed.

(** What [trimStart] returns is empty or starts with a unit that is not
    white space. *)
Lemma trimStart_head (s : string) :
  trimStart s = "" \/ exists c r, trimStart s = String c r /\ isWhiteSpace c = false.
Proof.
  induction s as [|c r IH]; simpl; [now left|].
  destruct (isWhiteSpace c) eqn:Ec; [exact IH|].
  right. now exists c, r.
Qed.

(** Trimming the end keeps a head that is not white space. *)
Lemma trimEnd_head (c : ascii) (r : string) :
  isWhiteSpace c = false -> exists r', trimEnd (String c r) = String c r'.
Proof.
  intros Ec. simpl. destruct (trimEnd r); [rewrite Ec|]; eexists; reflexivity.
Qed.

(** [s.trim().trim()] is [s.trim()]. *)
Lemma trim_idempotent (s : string) : trim (trim s) = trim s.
Proof.
  unfold trim. destruct (trimStart_head s) as [E | [c [r [E Ec]]]]; rewrite E.
  - reflexivity.
  - destruct (trimEnd_head c r Ec) as [r' E']. rewrite E'.
    simpl trimStart. rewrite Ec. rewrite <- E'. apply trimEnd_idempotent.
Qed.




End StringFacts.

Section Availability.
Context {num : Type} `{JSNumber num}.

Local Open Scope list_scope.


End Availability.

(* ================================================================== *)
(** * More properties of the task page *)

Section CheckingAnAnswer.
Context {num : Type} `{JSNumber num}.

Local Open Scope list_scope.

(** The text that [extractQuestionText] returns is trimmed. *)
Lemma extractQuestionText_trimmed (q : value num) (text : string) :
  extractQuestionText q = Normal text -> trim text = text.
Proof.
  unfold extractQuestionText.
  match goal with
  | |- bindC ?X _ = _ -> _ => destruct X as [v|e]; simpl; [|discriminate]
  end.
  destruct (toStr v) as [s|e]; simpl; [|discriminate].
  intros E. injection E as <-. apply trim_idempotent.
Qed.

(** [verifyAnswer] on two texts that are not blank sends its request. *)
Lemma verifyAnswer_sends (env : environment num) (baseUrl q a : string) (w : world num) :
  trim q <> "" -> trim a <> "" ->
  verifyAnswer env baseUrl (VStr q) (VStr a) w
  = (responseOf env (verifyRequest baseUrl q a),
     withNetwork (network w ++ [verifyRequest baseUrl q a]) w).
Proof.
  intros Hq Ha.
  destruct (isBlank_argument (num := num) (Some q)) as [bq [Eq Hbq]].
  destruct (isBlank_argument (num := num) (Some a)) as [ba [Ea Hba]].
  destruct bq; [exfalso; apply Hq, Hbq; reflexivity|].
  destruct ba; [exfalso; apply Ha, Hba; reflexivity|].
  simpl in Eq, Ea. unfold verifyAnswer, bind, lift, throw. rewrite Eq. simpl.
  rewrite Ea. simpl. apply _request_spec.
Qed.

(** Reading the verdict off a response never throws. *)
Lemma verdictOf_total (response : value num) :
  exists isCorrect feedback, verdictOf response = Normal (isCorrect, feedback).
Proof.
  unfold verdictOf. destruct (truthy response) eqn:Tr; [|eexists _, _; reflexivity].
  destruct response; simpl in *; try discriminate;
    try (eexists _, _; reflexivity).
  destruct (truthy _) eqn:Td.
  - destruct (match lookup "data" props with Some x => x | None => VUndefined end)
      eqn:Ed; simpl in *; try discriminate; eexists _, _; reflexivity.
  - destruct (match lookup "is_correct" props with Some x => x | None => VUndefined end);
      eexists _, _; reflexivity.
Qed.

(** Writing a slot keeps the length of an array that has the slot. *)
Lemma setAt_length {A} (i : nat) (x : A) (l : list (option A)) :
  i < length l -> length (setAt i x l) = length l.
Proof.
  revert i. induction l as [|y l IH]; intros [|i] Hi; simpl in *; try lia.
  now rewrite IH by lia.
Qed.

(** Past the end of an array, a write leaves holes behind it. *)
Lemma setAt_nil_other {A} (i j : nat) (x : A) :
  j <> i -> nth j (setAt i x []) None = None.
Proof.
  revert j. induction i as [|i IH]; intros [|j] Hij; simpl; try congruence.
  - now destruct j.
  - apply IH. congruence.
Qed.

(** Writing a slot leaves every other slot as it reads. *)
Lemma setAt_other {A} (i j : nat) (x : A) (l : list (option A)) :
  j <> i -> nth j (setAt i x l) None = nth j l None.
Proof.
  revert i j. induction l as [|y l IH]; intros i j Hij.
  - rewrite setAt_nil_other by assumption. now destruct j.
  - destruct i as [|i], j as [|j]; simpl; try congruence. apply IH. congruence.
Qed.

(** Writing a slot makes it read what was written. *)
Lemma setAt_same {A} (i : nat) (x : A) (l : list (option A)) :
  nth i (setAt i x l) None = Some x.
Proof.
  revert l. induction i as [|i IH]; intros [|y l]; simpl; auto.
Qed.

(** What one run of [submitTaskAnswer] can do to the world: nothing to the
    subjects, the store, the rendered questions or the location; to each of
    the two arrays nothing or one write at the index; to the requests
    nothing or the one request of the verification. *)
Lemma submitTaskAnswer_shape
      (env : environment num) (i : nat) (typed : string) (w : world num) :
  let w' := stateAfter (submitTaskAnswer env i typed) w in
  let checked :=
    trim typed <> ""
    /\ exists qs text,
        currentTaskQuestions (win w) = Some qs
        /\ extractQuestionText (nth i qs VUndefined) = Normal text
        /\ text <> ""
        /\ network w' = network w ++ [verifyRequest verificationBaseUrl text (trim typed)] in
  subjects w' = subjects w
  /\ storage w' = storage w
  /\ currentTaskQuestions (win w') = currentTaskQuestions (win w)
  /\ location (win w') = location (win w)
  /\ (taskAnswers (win w') = taskAnswers (win w)
      \/ exists answers,
          taskAnswers (win w) = Some answers
          /\ taskAnswers (win w') = Some (setAt i (trim typed) answers)
          /\ checked)
  /\ (taskScores (win w') = taskScores (win w)
      \/ exists scores v,
          taskScores (win w) = Some scores
          /\ (v = 0%Z \/ v = 1%Z)
          /\ taskScores (win w') = Some (setAt i v scores)
          /\ checked)
  /\ (network w' = network w \/ checked).
Proof.
  cbv zeta.
  remember (stateAfter (submitTaskAnswer env i typed) w) as w' eqn:Hw'.
  revert Hw'. unfold stateAfter, submitTaskAnswer, defined.
  destruct (nonEmpty (trim typed)) eqn:Hanswer.
  2: { unfold notify, modify. intros ->. simpl. repeat split; auto. }
  cbn -[verifyAnswer].
  destruct (currentTaskQuestions (win w)) as [qs|] eqn:Hqs.
  2: { intros ->. simpl. rewrite ?Hqs. repeat split; auto. }
  destruct (extractQuestionText (nth i qs VUndefined)) as [text|e] eqn:Htext.
  2: { intros ->. simpl. rewrite ?Hqs. repeat split; auto. }
  destruct (Nat.eqb (String.length text) 0) eqn:Hlen.
  { unfold notify, modify. intros ->. simpl. rewrite ?Hqs. repeat split; auto. }
  assert (Hne : text <> "").
  { intros ->. simpl in Hlen. discriminate. }
  assert (Htyped : trim typed <> "") by now apply nonEmpty_false_iff.
  pose proof (extractQuestionText_trimmed _ _ Htext) as Htrim.
  unfold tryCatch, bind, modify, gets, lift. simpl.
  rewrite verifyAnswer_sends by (rewrite ?Htrim, ?trim_idempotent; assumption).
  simpl.
  assert (Hchecked : forall net,
             net = network w ++ [verifyRequest verificationBaseUrl text (trim typed)] ->
             trim typed <> ""
             /\ exists qs0 text0,
                 Some qs = Some qs0
                 /\ extractQuestionText (nth i qs0 VUndefined) = Normal text0
                 /\ text0 <> ""
                 /\ net = network w
                          ++ [verifyRequest verificationBaseUrl text0 (trim typed)]).
  { intros net ->. split; [assumption|]. now exists qs, text. }
  destruct (responseOf env _) as [response|e]; simpl.
  2: { intros ->. simpl. rewrite ?Hqs. repeat split; auto. }
  destruct (taskAnswers (win w)) as [answers|] eqn:Hans; simpl.
  2: { intros ->. simpl. rewrite ?Hqs, ?Hans. repeat split; auto. }
  destruct (verdictOf_total response) as [isCorrect [feedback ->]]. simpl.
  destruct (taskScores (win w)) as [scores|] eqn:Hsc; simpl.
  2: { intros ->. simpl. rewrite ?Hqs, ?Hans, ?Hsc. repeat split; auto.
       right. exists answers. auto. }
  assert (Hv : (if isCorrect then 1%Z else 0%Z) = 0%Z
               \/ (if isCorrect then 1%Z else 0%Z) = 1%Z)
    by (destruct isCorrect; auto).
  destruct (toStr feedback); intros ->; simpl; rewrite ?Hqs, ?Hans, ?Hsc;
    (repeat split; auto;
     [right; exists answers; auto
     | right; exists scores, (if isCorrect then 1%Z else 0%Z); auto]).
Qed.

(** A question text that is not empty was read at an index of the array. *)
Lemma extracted_in_range (i : nat) (qs : list (value num)) (text : string) :
  extractQuestionText (nth i qs VUndefined) = Normal text -> text <> "" ->
  i < length qs.
Proof.
  intros Htext Hne. destruct (Nat.lt_ge_cases i (length qs)) as [Hlt|Hge]; [exact Hlt|].
  rewrite nth_overflow in Htext by exact Hge.
  exfalso. apply Hne. unfold extractQuestionText in Htext. simpl in Htext.
  now injection Htext as <-.
Qed.

(** A check that reaches the backend: one request goes out, nothing
    escapes, and when the backend fails nothing is recorded. *)
Lemma submitTaskAnswer_checked
      (env : environment num) (i : nat) (typed : string) (w : world num)
      (qs : list (value num)) (text : string) :
  trim typed <> "" ->
  currentTaskQuestions (win w) = Some qs ->
  extractQuestionText (nth i qs VUndefined) = Normal text ->
  text <> "" ->
  let req := verifyRequest verificationBaseUrl text (trim typed) in
  let w' := stateAfter (submitTaskAnswer env i typed) w in
  outcome (submitTaskAnswer env i typed) w = Normal tt
  /\ network w' = network w ++ [req]
  /\ req_query req = [("question", text); ("answer", trim typed)]
  /\ (forall e, responseOf env req = Throw e ->
      win w' = win w
      /\ resultStatus (page w')
         = resultStatus (page w) ++ [(i, Checking); (i, CouldNotVerify (messageOf e))]).
Proof.
  intros Htyped Hqs Htext Hne req w'.
  pose proof (extractQuestionText_trimmed _ _ Htext) as Htrim.
  assert (Hrun : exists r, submitTaskAnswer env i typed w = (Normal tt, r)
                 /\ network r = network w ++ [req]
                 /\ (forall e, responseOf env req = Throw e ->
                     win r = win w
                     /\ resultStatus (page r)
                        = resultStatus (page w)
                          ++ [(i, Checking); (i, CouldNotVerify (messageOf e))])).
  { unfold submitTaskAnswer, defined.
    apply nonEmpty_false_iff in Htyped as Hanswer. rewrite Hanswer.
    cbn -[verifyAnswer]. rewrite Hqs, Htext.
    destruct (Nat.eqb (String.length text) 0) eqn:Hlen.
    { exfalso. apply Hne. now apply length_zero. }
    unfold tryCatch, bind, modify, gets, lift. simpl.
    rewrite verifyAnswer_sends by (rewrite ?Htrim, ?trim_idempotent; assumption).
    simpl.
    change (verifyRequest "http://127.0.0.1:8000/api" text (trim typed)) with req.
    destruct (responseOf env req) as [response|e]; simpl.
    2: { eexists. split; [reflexivity|]. simpl. split; [reflexivity|].
         intros e0 E. injection E as <-. split; [reflexivity|].
         now rewrite <- app_assoc. }
    destruct (taskAnswers (win w)) as [answers|]; simpl.
    2: { eexists. split; [reflexivity|]. simpl. split; [reflexivity|]. discriminate. }
    destruct (verdictOf_total response) as [isCorrect [feedback ->]]. simpl.
    destruct (taskScores (win w)) as [scores|]; simpl.
    2: { eexists. split; [reflexivity|]. simpl. split; [reflexivity|]. discriminate. }
    destruct (toStr feedback); simpl;
      (eexists; split; [reflexivity|]; simpl; split; [reflexivity|]; discriminate). }
  destruct Hrun as [r [Hrun [Hnet Hfail]]].
  unfold w', outcome, stateAfter. rewrite Hrun. simpl.
  split; [reflexivity|]. split; [exact Hnet|]. split; [|exact Hfail].
  unfold req, verifyRequest. simpl. now rewrite Htrim, trim_idempotent.
Qed.

(** X7: checking an answer touches the slot of its question and no other:
    whatever the index, the text typed and the backend, every other slot of
    [taskAnswers] and [taskScores] reads after [submitTaskAnswer] what it
    read before, the slot of the question holds its former score, 0 or 1,
    and the rendered questions are the same. *)
Theorem submitTaskAnswer_touches_one_slot
        (env : environment num) (i : nat) (typed : string) (w : world num)
        (answers : list (option string)) (scores : list (option Z)) :
  taskAnswers (win w) = Some answers ->
  taskScores (win w) = Some scores ->
  let w' := stateAfter (submitTaskAnswer env i typed) w in
  exists answers' scores',
    taskAnswers (win w') = Some answers'
    /\ taskScores (win w') = Some scores'
    /\ (forall j, j <> i ->
        nth j answers' None = nth j answers None
        /\ nth j scores' None = nth j scores None)
    /\ (nth i scores' None = nth i scores None
        \/ nth i scores' None = Some 0%Z \/ nth i scores' None = Some 1%Z)
    /\ currentTaskQuestions (win w') = currentTaskQuestions (win w).
Proof.
  intros Hans Hsc w'.
  pose proof (submitTaskAnswer_shape env i typed w) as Hshape. cbv zeta in Hshape.
  fold w' in Hshape.
  destruct Hshape as [_ [_ [Hqs [_ [Ha [Hs _]]]]]].
  assert (Ha' : exists answers',
             taskAnswers (win w') = Some answers'
             /\ forall j, j <> i -> nth j answers' None = nth j answers None).
  { destruct Ha as [Ha | [answers0 [E0 [E1 _]]]].
    - exists answers. split; [congruence|auto].
    - rewrite Hans in E0. injection E0 as <-. eexists. split; [exact E1|].
      intros j Hj. now apply setAt_other. }
  assert (Hs' : exists scores',
             taskScores (win w') = Some scores'
             /\ (forall j, j <> i -> nth j scores' None = nth j scores None)
             /\ (nth i scores' None = nth i scores None
                 \/ nth i scores' None = Some 0%Z \/ nth i scores' None = Some 1%Z)).
  { destruct Hs as [Hs | [scores0 [v [E0 [Hv [E1 _]]]]]].
    - exists scores. split; [congruence|auto].
    - rewrite Hsc in E0. injection E0 as <-. eexists. split; [exact E1|]. split.
      + intros j Hj. now apply setAt_other.
      + right. rewrite setAt_same. destruct Hv as [-> | ->]; auto. }
  destruct Ha' as [answers' [Ea Hja]]. destruct Hs' as [scores' [Es [Hjs Hi]]].
  exists answers', scores'. repeat split; auto.
Qed.

(** X8: a check sends nothing unless there is something to check: with an
    answer that is blank after trimming no request goes out and the session
    arrays stay as they were.  With an answer and a question text that are
    not blank, exactly one request goes out, for the question text as
    extracted and the answer as trimmed; no exception escapes; and when the
    backend fails, neither the answer nor a score is recorded and the
    status of the question shows the message of the error. *)
Theorem submitTaskAnswer_sends_one_verification
        (env : environment num) (i : nat) (typed : string) (w : world num)
        (qs : list (value num)) (text : string) :
  let w' := stateAfter (submitTaskAnswer env i typed) w in
  (trim typed = "" -> network w' = network w /\ win w' = win w)
  /\
  (trim typed <> "" ->
   currentTaskQuestions (win w) = Some qs ->
   extractQuestionText (nth i qs VUndefined) = Normal text ->
   text <> "" ->
   let req := verifyRequest verificationBaseUrl text (trim typed) in
   outcome (submitTaskAnswer env i typed) w = Normal tt
   /\ network w' = network w ++ [req]
   /\ req_query req = [("question", text); ("answer", trim typed)]
   /\ (forall e, responseOf env req = Throw e ->
       win w' = win w
       /\ resultStatus (page w')
          = resultStatus (page w) ++ [(i, Checking); (i, CouldNotVerify (messageOf e))])).
Proof.
  intros w'. split.
  - intros Hblank. unfold w', stateAfter, submitTaskAnswer.
    apply nonEmpty_false in Hblank. rewrite Hblank. unfold notify, modify. simpl.
    split; reflexivity.
  - intros Htyped Hqs Htext Hne.
    exact (submitTaskAnswer_checked env i typed w qs text Htyped Hqs Htext Hne).
Qed.

End CheckingAnAnswer.

Section SessionAndStore.
Context {num : Type} `{JSNumber num}.

Local Open Scope list_scope.

(** Replacing the first match by an element with the same key keeps the
    keys. *)
Lemma map_updateFirst {A B} (key : A -> B) (p : A -> bool) (f : A -> A) (l : list A) :
  (forall x, key (f x) = key x) -> map key (updateFirst p f l) = map key l.
Proof.
  intros Hkey. induction l as [|x l IH]; simpl; [reflexivity|].
  destruct (p x); simpl; [now rewrite Hkey | now rewrite IH].
Qed.

Lemma sameShape_refl (l : list (Subject num)) : sameShape l l.
Proof. unfold sameShape. auto. Qed.

Lemma sameShape_trans (l1 l2 l3 : list (Subject num)) :
  sameShape l1 l2 -> sameShape l2 l3 -> sameShape l1 l3.
Proof. unfold sameShape. intros [? [? [? ?]]] [? [? [? ?]]]. repeat split; congruence. Qed.

(** Storing the questions of a topic keeps every id and name. *)
Lemma sameShape_setTopicQuestions
      (subjectId : Z) (topicId : string) (questions : value num) (l : list (Subject num)) :
  sameShape l
    (updateFirst (fun s => Z.eqb (subject_id s) subjectId)
       (setSubjectTopics
          (updateFirst (fun t => String.eqb (topic_id t) topicId)
                       (setTopicQuestions questions))) l).
Proof.
  unfold sameShape. repeat split; apply map_updateFirst; intros s; simpl; try reflexivity;
    apply map_updateFirst; reflexivity.
Qed.

(** What [storeTopicQuestions] does: it ends normally; it leaves the page,
    the window and the requests alone; it keeps the shape of the
    collection; and it leaves the collection and the store as they were or
    saves the collection. *)
Lemma storeTopicQuestions_effects
      (subjectId : Z) (topicId : string) (questions : value num) (w : world num) :
  exists w',
    storeTopicQuestions subjectId topicId questions w = (Normal tt, w')
    /\ win w' = win w /\ page w' = page w /\ network w' = network w
    /\ sameShape (subjects w) (subjects w')
    /\ ls_currentTaskData (storage w') = ls_currentTaskData (storage w)
    /\ ls_taskHistory (storage w') = ls_taskHistory (storage w)
    /\ keptOrSaved w w'.
Proof.
  unfold storeTopicQuestions, bind, gets, modify, saveState, ret, keptOrSaved. simpl.
  destruct (find _ (subjects w)) as [subject|]; simpl.
  2: { eexists. split; [reflexivity|]. repeat split; auto using sameShape_refl. }
  destruct (find _ (subject_topics subject)); simpl.
  2: { eexists. split; [reflexivity|]. repeat split; auto using sameShape_refl. }
  eexists. split; [reflexivity|]. simpl. repeat split; auto.
  all: apply sameShape_setTopicQuestions.
Qed.

(** What [renderTaskQuestions] does to the window: nothing, or it starts
    the session anew on the normalized questions; and it touches neither
    the subjects, nor the store, nor the requests. *)
Lemma renderTaskQuestions_effects (questions : value num) (w : world num) :
  let w' := stateAfter (renderTaskQuestions questions) w in
  sessionKeptOrReset (win w) (win w')
  /\ subjects w' = subjects w /\ storage w' = storage w /\ network w' = network w.
Proof.
  unfold stateAfter, renderTaskQuestions, setInnerHTML, bind, lift, modify, throw,
    sessionKeptOrReset.
  destruct (truthy questions); simpl; [|auto].
  destruct questions as [| |b|x|s|[|q qs]|props]; cbn -[mapC]; auto.
  destruct (mapC normalizeQuestion (q :: qs)) as [ns|e]; cbn -[mapC]; [|auto].
  match goal with
  | |- context [mapC ?f ns] => destruct (mapC f ns)
  end; simpl; split; eauto.
Qed.

Lemma sessionKeptOrReset_refl (g : window num) : sessionKeptOrReset g g.
Proof. now left. Qed.

Lemma sessionKeptOrReset_trans (g1 g2 g3 : window num) :
  sessionKeptOrReset g1 g2 -> sessionKeptOrReset g2 g3 -> sessionKeptOrReset g1 g3.
Proof.
  unfold sessionKeptOrReset. intros [-> | [ns ->]] [-> | [ms ->]]; eauto.
  right. exists ms. reflexivity.
Qed.

(** Starting the session anew aligns the arrays. *)
Lemma aligned_reset (g g' : window num) :
  aligned g -> sessionKeptOrReset g g' -> aligned g'.
Proof.
  intros Hal [-> | [ns ->]]; [exact Hal|].
  unfold aligned. simpl. now rewrite !repeat_length.
Qed.

Lemma keptOrSaved_refl (w : world num) : keptOrSaved w w.
Proof. left. auto. Qed.

Lemma keptOrSaved_trans (w1 w2 w3 : world num) :
  keptOrSaved w1 w2 -> keptOrSaved w2 w3 -> keptOrSaved w1 w3.
Proof.
  unfold keptOrSaved. intros [[? ?] | ?] [[? ?] | ?]; auto.
  - left. split; congruence.
  - right. congruence.
Qed.

(** A collection that was kept or saved reads back from the store as it is
    in memory. *)
Lemma persisted_keptOrSaved (w w' : world num) :
  persisted w -> keptOrSaved w w' -> persisted w'.
Proof.
  unfold persisted, storedSubjects. intros Hp [[Hs Hl] | Hl].
  - now rewrite Hs, Hl.
  - now rewrite Hl.
Qed.

(** [generateQuestions] sends at most one request and does nothing else. *)
Lemma generateQuestions_sends
      (env : environment num) (baseUrl : string) (a b : value num) (count : Z) :
  sendsAtMostOne (generateQuestions env baseUrl a b count).
Proof.
  unfold generateQuestions, throw.
  destruct (negb (truthy a) || negb (truthy b)); [apply sendsAtMostOne_throw|].
  destruct ((count <? 1)%Z || (count >? 20)%Z); [apply sendsAtMostOne_throw|].
  unfold bind at 1, lift at 1.
  destruct (callTrim a) as [s|e]; [|apply sendsAtMostOne_throw].
  unfold bind at 1, lift at 1.
  destruct (callTrim b) as [t|e]; [|apply sendsAtMostOne_throw].
  apply sendsAtMostOne_request_unwrap.
Qed.

(** What the [try] block of [generateQuestionsForTopic] does, however it
    ends: to the session, to the subjects and their stored copy, to the
    stored task, and to the requests. *)
Lemma generateQuestionsTry_effects
      (env : environment num) (taskData : TaskData num) (w : world num) :
  let taskData' := fst (snd (generateQuestionsTry env (taskData, w))) in
  let w' := snd (snd (generateQuestionsTry env (taskData, w))) in
  sessionKeptOrReset (win w) (win w')
  /\ sameShape (subjects w) (subjects w')
  /\ keptOrSaved w w'
  /\ (exists reqs, length reqs <= 1 /\ network w' = network w ++ reqs)
  /\ ((taskData' = taskData
       /\ ls_currentTaskData (storage w') = ls_currentTaskData (storage w))
      \/ exists questions,
          taskData' = generated (VArr questions) taskData
          /\ ls_currentTaskData (storage w') = Some taskData').
Proof.
  assert (Hkeep : forall w0 : world num,
             subjects w0 = subjects w -> storage w0 = storage w -> keptOrSaved w w0).
  { intros w0 Hs Hst. left. now rewrite Hs, Hst. }
  cbv zeta.
  unfold generateQuestionsTry, bind, gets, lift, onWorld, modify,
    showLoading, hideLoading, setInnerHTML, notify. simpl.
  destruct (toStr (td_topic taskData)) as [topicText|e]; simpl.
  2: { repeat split; auto using sessionKeptOrReset_refl, sameShape_refl.
       exists []. rewrite app_nil_r. simpl. auto. }
  destruct (generateQuestions_sends env defaultBaseUrl (VStr (td_subject taskData))
              (td_topic taskData) 5) as [r [reqs [Hone Hgen]]].
  rewrite Hgen. simpl.
  destruct r as [response|e]; simpl.
  2: { repeat split; auto using sessionKeptOrReset_refl, sameShape_refl.
       exists reqs. auto. }
  destruct (questionsOfResponse response) as [questions|e]; simpl.
  2: { repeat split; auto using sessionKeptOrReset_refl, sameShape_refl.
       exists reqs. auto. }
  match goal with
  | |- context [storeTopicQuestions ?a ?b ?c ?x] =>
      destruct (storeTopicQuestions_effects a b c x)
        as [w1 [Hrun [Hwin [Hpage [Hnet [Hshape [Htask [_ Hkept]]]]]]]];
        rewrite Hrun
  end.
  simpl in *.
  assert (Hkept1 : forall w2 : world num,
             subjects w2 = subjects w1 -> storage w2 = storage w1 -> keptOrSaved w w2).
  { intros w2 Hs Hst. unfold keptOrSaved in *.
    destruct Hkept as [[Hk1 Hk2] | Hk]; simpl in *.
    - left. now rewrite Hs, Hst, Hk1, Hk2.
    - right. now rewrite Hs, Hst. }
  match goal with
  | |- context [renderTaskQuestions ?v ?x] =>
      destruct (renderTaskQuestions_effects v x) as [Hsession [Hsub [Hsto Hnet2]]];
        unfold stateAfter in Hsession, Hsub, Hsto, Hnet2;
        destruct (renderTaskQuestions v x) as [[u|e] w2]
  end; simpl in *.
  all: rewrite Hwin in Hsession.
  all: split; [exact Hsession|].
  all: split; [rewrite Hsub; exact Hshape|].
  all: split; [apply Hkept1; assumption|].
  all: split; [rewrite Hnet2, Hnet; exists reqs; auto|].
  all: right; eexists; split; [reflexivity|]; rewrite Hsto, Htask; reflexivity.
Qed.

(** What the [catch] block does: to the session nothing or a new start; to
    the subjects, the store and the requests nothing. *)
Lemma generateQuestionsCatch_effects
      (error : exn) (taskData : TaskData num) (w : world num) :
  let w' := stateAfter (generateQuestionsCatch error taskData) w in
  sessionKeptOrReset (win w) (win w')
  /\ subjects w' = subjects w /\ storage w' = storage w /\ network w' = network w.
Proof.
  unfold stateAfter, generateQuestionsCatch, bind, hideLoading, setInnerHTML,
    appendInnerHTML, modify. simpl.
  destruct (hasElements (td_questions taskData)).
  - match goal with
    | |- context [renderTaskQuestions ?v ?x] =>
        destruct (renderTaskQuestions_effects v x) as [Hsession [Hsub [Hsto Hnet]]];
          unfold stateAfter in Hsession, Hsub, Hsto, Hnet
    end.
    simpl in *. auto.
  - simpl. auto using sessionKeptOrReset_refl.
Qed.

(** What [generateQuestionsForTopic] does, however it ends. *)
Lemma generateQuestionsForTopic_effects
      (env : environment num) (taskData : TaskData num) (w : world num) :
  let w' := stateAfter (generateQuestionsForTopic env taskData) w in
  sessionKeptOrReset (win w) (win w')
  /\ sameShape (subjects w) (subjects w')
  /\ keptOrSaved w w'
  /\ (exists reqs, length reqs <= 1 /\ network w' = network w ++ reqs)
  /\ (ls_currentTaskData (storage w') = ls_currentTaskData (storage w)
      \/ exists questions,
          ls_currentTaskData (storage w') = Some (generated (VArr questions) taskData)).
Proof.
  pose proof (generateQuestionsTry_effects env taskData w) as Htry. cbv zeta in Htry.
  unfold stateAfter, generateQuestionsForTopic. cbv zeta.
  destruct (generateQuestionsTry env (taskData, w)) as [[u|error] [td w1]]; simpl in *.
  - destruct Htry as [Hsession [Hshape [Hkept [Hnet Htask]]]].
    repeat (split; [assumption|]).
    destruct Htask as [[_ E] | [questions [-> E]]]; [now left | right; eauto].
  - destruct Htry as [Hsession [Hshape [Hkept [Hnet Htask]]]].
    pose proof (generateQuestionsCatch_effects error td w1) as Hcatch.
    cbv zeta in Hcatch. unfold stateAfter in Hcatch.
    destruct (generateQuestionsCatch error td w1) as [r w2]. simpl in *.
    destruct Hcatch as [Hsession2 [Hsub [Hsto Hnet2]]].
    split; [eapply sessionKeptOrReset_trans; eassumption|].
    split; [now rewrite Hsub|].
    split.
    { unfold keptOrSaved in *. rewrite Hsub, Hsto. exact Hkept. }
    split; [now rewrite Hnet2|].
    rewrite Hsto. destruct Htask as [[_ E] | [questions [-> E]]]; [now left | right; eauto].
Qed.

(** What [loadTaskPage] does, however it ends. *)
Lemma loadTaskPage_effects (env : environment num) (w : world num) :
  let w' := stateAfter (loadTaskPage env) w in
  sessionKeptOrReset (win w) (win w')
  /\ sameShape (subjects w) (subjects w')
  /\ keptOrSaved w w'
  /\ (exists reqs, length reqs <= 1 /\ network w' = network w ++ reqs)
  /\ ls_taskHistory (storage w') = ls_taskHistory (storage w).
Proof.
  assert (Hnone : forall w0 : world num,
             exists reqs : list (request num),
               length reqs <= 1 /\ network w0 = network w0 ++ reqs).
  { intros w0. exists []. rewrite app_nil_r. simpl. auto. }
  unfold stateAfter, loadTaskPage, bind, gets, modify. simpl.
  destruct (ls_currentTaskData (storage w)) as [taskData|]; simpl.
  2: { repeat split; auto using sessionKeptOrReset_refl, keptOrSaved_refl.
       all: try (left; simpl; auto; fail).
       all: exists []; rewrite app_nil_r; simpl; auto. }
  destruct (td_needsGeneration taskData).
  - match goal with
    | |- context [generateQuestionsForTopic env taskData ?x] =>
        pose proof (generateQuestionsForTopic_effects env taskData x) as Hgen;
          pose proof (generateQuestionsForTopic_keeps_history env taskData x) as Hh
    end.
    cbv zeta in Hgen. unfold stateAfter in Hgen, Hh. simpl in *.
    destruct Hgen as [Hsession [Hshape [Hkept [Hnet _]]]].
    repeat (split; [assumption|]). exact Hh.
  - match goal with
    | |- context [renderTaskQuestions ?v ?x] =>
        destruct (renderTaskQuestions_effects v x) as [Hsession [Hsub [Hsto Hnet]]];
          unfold stateAfter in Hsession, Hsub, Hsto, Hnet
    end.
    simpl in *.
    split; [exact Hsession|].
    split; [rewrite Hsub; apply sameShape_refl|].
    split; [left; split; [exact Hsub | now rewrite Hsto]|].
    split; [exists []; rewrite app_nil_r, Hnet; simpl; auto|].
    now rewrite Hsto.
Qed.

(** What [submitAllTaskAnswers] does, whatever the world and however it
    ends: at most one entry is added after the stored history, the location
    may change, and nothing else does. *)
Lemma submitAllTaskAnswers_effects (env : environment num) (w : world num) :
  let w' := stateAfter (submitAllTaskAnswers env) w in
  (exists suffix, length suffix <= 1 /\ historyOf w' = historyOf w ++ suffix)
  /\ ls_currentTaskData (storage w') = ls_currentTaskData (storage w)
  /\ ls_subjects (storage w') = ls_subjects (storage w)
  /\ subjects w' = subjects w
  /\ network w' = network w
  /\ currentTaskQuestions (win w') = currentTaskQuestions (win w)
  /\ taskAnswers (win w') = taskAnswers (win w)
  /\ taskScores (win w') = taskScores (win w).
Proof.
  assert (Hnone : exists suffix : list (TaskHistoryEntry num),
             length suffix <= 1 /\ historyOf w = historyOf w ++ suffix).
  { exists []. rewrite app_nil_r. simpl. auto. }
  cbv zeta.
  remember (stateAfter (submitAllTaskAnswers env) w) as w' eqn:Hw'. revert Hw'.
  unfold stateAfter, submitAllTaskAnswers, defined, notify, navigate. cbn.
  destruct (ls_currentTaskData (storage w)) as [taskData|] eqn:Htask; cbn.
  2: { intros ->. unfold historyOf. simpl. rewrite ?Htask. repeat split; auto. }
  destruct (currentTaskQuestions (win w)) as [qs|] eqn:Hqs; cbn.
  2: { intros ->. simpl. rewrite ?Htask, ?Hqs. repeat split; auto. }
  destruct (taskAnswers (win w)) as [answers|] eqn:Hans; cbn.
  2: { intros ->. simpl. rewrite ?Htask, ?Hqs, ?Hans. repeat split; auto. }
  destruct (_ && negb (confirm env)); cbn.
  { intros ->. simpl. rewrite ?Htask, ?Hqs, ?Hans. repeat split; auto. }
  destruct (taskScores (win w)) as [scores|] eqn:Hsc; cbn.
  2: { intros ->. simpl. rewrite ?Htask, ?Hqs, ?Hans, ?Hsc. repeat split; auto. }
  intros ->. simpl. rewrite ?Htask, ?Hqs, ?Hans, ?Hsc. repeat split; auto.
  unfold historyOf at 1. simpl. eexists [_]. split; [simpl; lia|].
  unfold historyOf. reflexivity.
Qed.

(** The arrays stay aligned under a check. *)
Lemma aligned_submitTaskAnswer
      (env : environment num) (i : nat) (typed : string) (w : world num) :
  aligned (win w) -> aligned (win (stateAfter (submitTaskAnswer env i typed) w)).
Proof.
  intros Hal.
  pose proof (submitTaskAnswer_shape env i typed w) as Hshape. cbv zeta in Hshape.
  destruct Hshape as [_ [_ [Hqs [_ [Ha [Hs _]]]]]].
  unfold aligned in *. rewrite Hqs.
  destruct (currentTaskQuestions (win w)) as [qs|] eqn:Eqs;
    destruct (taskAnswers (win w)) as [answers|] eqn:Ea;
    destruct (taskScores (win w)) as [scores|] eqn:Es; try contradiction.
  - destruct Hal as [Hla Hls].
    assert (Hin : forall qs0 text,
               Some qs = Some qs0 ->
               extractQuestionText (nth i qs0 VUndefined) = Normal text ->
               text <> "" -> i < length qs).
    { intros qs0 text E Ht Hne. injection E as <-. eapply extracted_in_range; eauto. }
    destruct Ha as [-> | [answers0 [E0 [-> [_ [qs0 [text [E1 [Ht [Hne _]]]]]]]]]];
      destruct Hs as [-> | [scores0 [v [E2 [_ [-> [_ [qs1 [text1 [E3 [Ht1 [Hne1 _]]]]]]]]]]]];
      try (injection E0 as <-); try (injection E2 as <-);
      rewrite ?setAt_length; auto;
      try (rewrite Hla; eapply Hin; eauto); try (rewrite Hls; eapply Hin; eauto).
  - destruct Ha as [-> | [answers0 [E0 _]]]; [|discriminate].
    destruct Hs as [-> | [scores0 [v [E2 _]]]]; [|discriminate]. exact I.
Qed.

(** X9: the three arrays of a session (questions, answers, scores) stay of
    one length: if they are aligned before, they are aligned after
    rendering any list of questions, after checking any answer at any
    index, after a bulk submission, after a generation and after a load of
    the task page, whatever the backend does and however the operation
    ends. *)
Theorem session_arrays_stay_aligned (env : environment num) (w : world num) :
  aligned (win w) ->
  (forall questions, aligned (win (stateAfter (renderTaskQuestions questions) w)))
  /\ (forall i typed, aligned (win (stateAfter (submitTaskAnswer env i typed) w)))
  /\ aligned (win (stateAfter (submitAllTaskAnswers env) w))
  /\ (forall taskData,
        aligned (win (stateAfter (generateQuestionsForTopic env taskData) w)))
  /\ aligned (win (stateAfter (loadTaskPage env) w)).
Proof.
  intros Hal. split; [|split; [|split; [|split]]].
  - intros questions.
    destruct (renderTaskQuestions_effects questions w) as [Hsession _].
    eapply aligned_reset; eassumption.
  - intros i typed. now apply aligned_submitTaskAnswer.
  - pose proof (submitAllTaskAnswers_effects env w) as Heff. cbv zeta in Heff.
    destruct Heff as [_ [_ [_ [_ [_ [Hqs [Ha Hs]]]]]]].
    unfold aligned in *. now rewrite Hqs, Ha, Hs.
  - intros taskData.
    destruct (generateQuestionsForTopic_effects env taskData w) as [Hsession _].
    eapply aligned_reset; eassumption.
  - destruct (loadTaskPage_effects env w) as [Hsession _].
    eapply aligned_reset; eassumption.
Qed.

(** X10: the task history only grows, and by one entry at a time: whatever
    the world, [submitAllTaskAnswers] keeps the stored entries as they are
    and in place and adds at most one after them, sends nothing to the
    backend and leaves the stored task, the subjects and the session arrays
    alone; checking an answer, generating questions and loading the task
    page leave the history as it is. *)
Theorem task_history_only_grows (env : environment num) (w : world num) :
  (let w' := stateAfter (submitAllTaskAnswers env) w in
   (exists suffix, length suffix <= 1 /\ historyOf w' = historyOf w ++ suffix)
   /\ network w' = network w
   /\ ls_currentTaskData (storage w') = ls_currentTaskData (storage w)
   /\ ls_subjects (storage w') = ls_subjects (storage w)
   /\ subjects w' = subjects w
   /\ taskAnswers (win w') = taskAnswers (win w)
   /\ taskScores (win w') = taskScores (win w))
  /\ (forall i typed,
        historyOf (stateAfter (submitTaskAnswer env i typed) w) = historyOf w)
  /\ (forall taskData,
        historyOf (stateAfter (generateQuestionsForTopic env taskData) w) = historyOf w)
  /\ historyOf (stateAfter (loadTaskPage env) w) = historyOf w.
Proof.
  split; [|split; [|split]].
  - pose proof (submitAllTaskAnswers_effects env w) as Heff. cbv zeta in Heff |- *.
    destruct Heff as [Hh [Ht [Hl [Hs [Hn [_ [Ha Hsc]]]]]]]. auto 10.
  - intros i typed.
    pose proof (submitTaskAnswer_shape env i typed w) as Hshape. cbv zeta in Hshape.
    destruct Hshape as [_ [Hst _]]. unfold historyOf. now rewrite Hst.
  - intros taskData. unfold historyOf.
    now rewrite generateQuestionsForTopic_keeps_history.
  - destruct (loadTaskPage_effects env w) as [_ [_ [_ [_ Hh]]]].
    unfold historyOf. now rewrite Hh.
Qed.

(** X11: generating questions never adds, removes, renames or reorders a
    subject or a topic: after [generateQuestionsForTopic], and after a load
    of the task page, the collection has the same subject ids and names and
    the same topic ids and names in the same order, so unique ids and
    unique names stay unique; and at most one request went out. *)
Theorem generation_keeps_subjects_and_topics
        (env : environment num) (taskData : TaskData num) (w : world num) :
  let w' := stateAfter (generateQuestionsForTopic env taskData) w in
  let w'' := stateAfter (loadTaskPage env) w in
  sameShape (subjects w) (subjects w')
  /\ sameShape (subjects w) (subjects w'')
  /\ (NoDup (map subject_id (subjects w)) -> NoDup (map subject_id (subjects w')))
  /\ (uniqueNames (subjects w) -> uniqueNames (subjects w'))
  /\ (exists reqs, length reqs <= 1 /\ network w' = network w ++ reqs).
Proof.
  intros w' w''.
  destruct (generateQuestionsForTopic_effects env taskData w)
    as [_ [Hshape [_ [Hnet _]]]].
  destruct (loadTaskPage_effects env w) as [_ [Hshape2 _]].
  fold w' in Hshape, Hnet. fold w'' in Hshape2.
  split; [exact Hshape|]. split; [exact Hshape2|].
  destruct Hshape as [Hid [Hname _]].
  split; [now rewrite Hid|]. split; [|exact Hnet].
  unfold uniqueNames. intros Hu.
  rewrite <- (map_map subject_name toLowerCase) in *. now rewrite Hname.
Qed.



(** X13: a generation call that fails writes nothing: the whole store (the
    stored task, still marked as needing generation, the subjects, the
    history) and the collection in memory are after
    [generateQuestionsForTopic] what they were before. *)
Theorem failed_generation_writes_nothing
        (env : environment num) (taskData : TaskData num) (w : world num)
        (topicText : string) (error : exn) :
  toStr (td_topic taskData) = Normal topicText ->
  outcome (generateQuestions env defaultBaseUrl (VStr (td_subject taskData))
                             (td_topic taskData) 5) w = Throw error ->
  let w' := stateAfter (generateQuestionsForTopic env taskData) w in
  storage w' = storage w /\ subjects w' = subjects w.
Proof.
  intros Htopic Hcall w'.
  destruct (generateQuestionsForTopic_call_fails env taskData w topicText error
              Htopic Hcall) as [w1 [Hrun [Hsto Hsub]]].
  destruct (generateQuestionsCatch_effects error taskData w1) as [_ [Hsub2 [Hsto2 _]]].
  unfold w', stateAfter in *. rewrite Hrun. split; congruence.
Qed.




End SessionAndStore.

Section MoreOfScoring.

(** Every score of a session of at most 200 questions, checked one by
    one. *)
Lemma scores_up_to_200_checked :
  forallb (fun total => forallb (fun correct => scoreIsSound correct total)
                                (seq 0 (S total)))
          (seq 1 200) = true.
Proof. vm_compute. reflexivity. Qed.

(** X15: in a session of at most 200 questions the score that the page
    computes in binary64 is a whole number from 0 to 100, never above the
    exact rounding of 100 x correct / total and at most one below it; it is
    100 when every answer is correct and 0 when none is. *)
Theorem computeScore_sound_up_to_200 (correct total : nat) :
  0 < total <= 200 -> correct <= total ->
  (exists z : Z,
      computeScore correct total = Number.ofZ z
      /\ (0 <= z <= 100)%Z
      /\ (exactScore correct total - 1 <= z <= exactScore correct total)%Z)
  /\ (correct = total -> computeScore correct total = Number.ofZ 100)
  /\ (correct = 0 -> computeScore correct total = Number.ofZ 0).
Proof.
  intros Ht Hc.
  pose proof scores_up_to_200_checked as Hall.
  rewrite forallb_forall in Hall.
  specialize (Hall total). rewrite forallb_forall in Hall.
  assert (Hsound : scoreIsSound correct total = true) by (apply Hall; apply in_seq; lia).
  unfold scoreIsSound in Hsound.
  repeat (apply andb_prop in Hsound as [Hsound ?]).
  match goal with
  | Hlo : (0 <=? _)%Z = true, Hhi : (_ <=? 100)%Z = true |- _ =>
      apply Z.leb_le in Hlo; apply Z.leb_le in Hhi
  end.
  split; [|split].
  - apply orb_prop in Hsound as [Hs | Hs].
    + exists (exactScore correct total). split; [now apply sameFloat_eq|]. lia.
    + apply andb_prop in Hs as [Hs Hone]. apply Z.leb_le in Hone.
      exists (exactScore correct total - 1)%Z. split; [now apply sameFloat_eq|]. lia.
  - intros ->. rewrite Nat.eqb_refl in *. now apply sameFloat_eq.
  - intros ->. simpl in *. now apply sameFloat_eq.
Qed.

End MoreOfScoring.

(* ================================================================== *)
(** * More properties of the subjects page *)

Section MoreOfTheSubjectsPage.
Context {num : Type} `{JSNumber num}.

Local Open Scope list_scope.

(** [generateContent] on a name that is not blank posts it. *)
Lemma generateContent_posts (env : environment num) (baseUrl s : string) (w : world num) :
  trim s <> "" ->
  generateContent env baseUrl (VStr s) w
  = (responseOf env (contentRequest baseUrl s),
     withNetwork (network w ++ [contentRequest baseUrl s]) w).
Proof.
  intros Hs. destruct (isBlank_argument (num := num) (Some s)) as [b [Eb Hb]].
  destruct b; [exfalso; apply Hs, Hb; reflexivity|]. simpl in Eb.
  unfold generateContent, bind, lift, throw. rewrite Eb. simpl. apply _request_spec.
Qed.

(** Only an array has [map]. *)
Lemma arrayOf_Normal (what : string) (v : value num) (l : list (value num)) :
  arrayOf what v = Normal l -> v = VArr l.
Proof. destruct v; simpl; intros E; try discriminate. now injection E as <-. Qed.

(** One run of [generateSubject] on a name that is new and not blank: the
    name goes out in one request; then either nothing is changed, or the
    response decoded into topics and the subject is added and saved; and a
    failure of the backend is reported and changes nothing. *)
Lemma generateSubject_run (env : environment num) (w : world num) :
  let name := trim (subjectInput (page w)) in
  let req := contentRequest (num := num) defaultBaseUrl name in
  let w' := stateAfter (generateSubject env) w in
  name <> "" ->
  find (sameNameIgnoringCase name) (subjects w) = None ->
  network w' = network w ++ [req]
  /\ req_body req = Some (VObj [("subject", VStr name)])
  /\ ((subjects w' = subjects w /\ storage w' = storage w)
      \/ exists response payload topics,
          responseOf env req = Normal response
          /\ get response "topics" = Normal (VArr payload)
          /\ mapiC topicOfPayload 0 payload = Normal topics
          /\ subjects w' = newSubject env name topics :: subjects w
          /\ ls_subjects (storage w') = Some (subjects w'))
  /\ (forall e, responseOf env req = Throw e ->
      notices (page w') = notices (page w) ++ [generationFailure (messageOf e)]
      /\ loading (page w') = false
      /\ subjectInput (page w') = subjectInput (page w)
      /\ subjects w' = subjects w /\ storage w' = storage w).
Proof.
  intros name req w' Hname Hfind.
  assert (Hbody : req_body req = Some (VObj [("subject", VStr name)])).
  { unfold req, contentRequest, name. simpl. now rewrite trim_idempotent. }
  assert (Htrim : trim name <> "").
  { unfold name. now rewrite trim_idempotent. }
  subst w'. unfold stateAfter, generateSubject, bind, gets. simpl. fold name.
  apply nonEmpty_false_iff in Hname as Hne. rewrite Hne. simpl. rewrite Hfind.
  unfold tryCatch, bind, showLoading, hideLoading, notify, modify, lift, saveState. simpl.
  rewrite generateContent_posts by exact Htrim. fold req. simpl.
  destruct (responseOf env req) as [response|e]; simpl.
  2: { repeat split; auto. congruence. }
  destruct (get response "topics") as [topicsField|e] eqn:Htopics; simpl.
  2: { repeat split; auto. discriminate. }
  destruct (arrayOf "response.topics" topicsField) as [payload|e] eqn:Harr; simpl.
  2: { repeat split; auto. discriminate. }
  apply arrayOf_Normal in Harr. subst topicsField.
  destruct (mapiC topicOfPayload 0 payload) as [topics|e] eqn:Hmap; simpl.
  2: { repeat split; auto. discriminate. }
  assert (Hsaved : forall l : list (Subject num),
             ls_subjects (setSubjectsItem l (storage w)) = Some l) by reflexivity.
  match goal with
  | |- context [renderSubjects ?x] =>
      destruct (renderSubjects_frame x) as [Hs [Hst Hn]];
        unfold stateAfter in Hs, Hst, Hn;
        destruct (renderSubjects x) as [[u|e1] w1]
  end; simpl in Hs, Hst, Hn |- *.
  - destruct (bindC (get response "total_topics") toStr); simpl;
      [destruct (bindC (get response "total_questions") toStr); simpl|].
    all: split; [exact Hn|]; split; [exact Hbody|]; split; [|discriminate].
    all: right; exists response, payload, topics; rewrite Hs, Hst; auto.
  - split; [exact Hn|]; split; [exact Hbody|]; split; [|discriminate].
    right; exists response, payload, topics; rewrite Hs, Hst; auto.
Qed.

(** Drawing the cards leaves the input, the loading indicator and the
    notices of the page alone. *)
Lemma renderSubjects_page (w : world num) :
  subjectInput (page (stateAfter renderSubjects w)) = subjectInput (page w)
  /\ loading (page (stateAfter renderSubjects w)) = loading (page w)
  /\ notices (page (stateAfter renderSubjects w)) = notices (page w)
  /\ win (stateAfter renderSubjects w) = win w.
Proof.
  unfold stateAfter, renderSubjects, bind, gets, lift, modify. simpl.
  destruct (mapC cardOf (subjects w)); simpl; auto.
Qed.

(** No failure is reported as a success. *)
Lemma generationFailure_not_success (m a b : string) :
  generationFailure m <> GeneratedTopics a b.
Proof.
  unfold generationFailure.
  repeat match goal with |- context [if ?c then _ else _] => destruct c end; discriminate.
Qed.

(** The page and the outcome of one run of [generateSubject]: it never
    throws, shows one notice, and a notice of success comes only after the
    subject was added and saved and the input cleared. *)
Lemma generateSubject_page (env : environment num) (w : world num) :
  let name := trim (subjectInput (page w)) in
  let w' := stateAfter (generateSubject env) w in
  outcome (generateSubject env) w = Normal tt
  /\ win w' = win w
  /\ exists n,
      notices (page w') = notices (page w) ++ [n]
      /\ (forall a b, n = GeneratedTopics a b ->
          subjectInput (page w') = ""
          /\ exists topics,
              subjects w' = newSubject env name topics :: subjects w
              /\ ls_subjects (storage w') = Some (subjects w'))
      /\ (loading (page w') = false
          \/ (w' = withPage (addNotice n) w
              /\ ((name = "" /\ n = WarnEnterSubjectName)
                  \/ (name <> "" /\ n = InfoSubjectExists
                      /\ find (sameNameIgnoringCase name) (subjects w) <> None)))).
Proof.
  intros name w'. subst w'.
  unfold outcome, stateAfter, generateSubject, bind, gets. simpl. fold name.
  destruct (nonEmpty name) eqn:Hname; simpl.
  2: { split; [reflexivity|]. split; [reflexivity|]. exists WarnEnterSubjectName.
       split; [reflexivity|]. split; [discriminate|]. right. split; [reflexivity|].
       left. split; [|reflexivity]. destruct name; [reflexivity|discriminate]. }
  apply nonEmpty_false_iff in Hname.
  destruct (find (sameNameIgnoringCase name) (subjects w)) eqn:Hfind; simpl.
  { split; [reflexivity|]. split; [reflexivity|]. exists InfoSubjectExists.
    split; [reflexivity|]. split; [discriminate|]. right. split; [reflexivity|].
    right. split; [exact Hname|]. split; [reflexivity|discriminate]. }
  unfold tryCatch, bind, showLoading, hideLoading, notify, modify, lift, saveState. simpl.
  destruct (generateContent_spec env defaultBaseUrl (VStr name)) as [r [reqs Hgen]].
  rewrite Hgen. simpl.
  assert (Hfail : forall m a b, generationFailure m = GeneratedTopics a b ->
                                False).
  { intros m a b E. exact (generationFailure_not_success m a b E). }
  destruct r as [response|e]; simpl.
  2: { split; [reflexivity|]. split; [reflexivity|]. eexists. split; [reflexivity|].
       split; [|now left]. intros a b E. now apply Hfail in E. }
  destruct (get response "topics") as [topicsField|e]; simpl.
  2: { split; [reflexivity|]. split; [reflexivity|]. eexists. split; [reflexivity|].
       split; [|now left]. intros a b E. now apply Hfail in E. }
  destruct (arrayOf "response.topics" topicsField) as [payload|e]; simpl.
  2: { split; [reflexivity|]. split; [reflexivity|]. eexists. split; [reflexivity|].
       split; [|now left]. intros a b E. now apply Hfail in E. }
  destruct (mapiC topicOfPayload 0 payload) as [topics|e]; simpl.
  2: { split; [reflexivity|]. split; [reflexivity|]. eexists. split; [reflexivity|].
       split; [|now left]. intros a b E. now apply Hfail in E. }
  match goal with
  | |- context [renderSubjects ?x] =>
      destruct (renderSubjects_frame x) as [Hs [Hst _]];
        destruct (renderSubjects_page x) as [Hin [Hlo [Hno Hwin]]];
        unfold stateAfter in Hs, Hst, Hin, Hlo, Hno, Hwin;
        destruct (renderSubjects x) as [[u|e1] w1]
  end; simpl in Hs, Hst, Hin, Hlo, Hno, Hwin |- *.
  - destruct (bindC (get response "total_topics") toStr); simpl;
      [destruct (bindC (get response "total_questions") toStr); simpl|].
    all: split; [reflexivity|]; split; [exact Hwin|]; eexists;
      (split; [rewrite ?Hno; reflexivity|]);
      (split; [|left; first [exact Hlo | reflexivity]]).
    + intros a1 b1 _. split; [exact Hin|]. exists topics. rewrite Hs, Hst. auto.
    + intros a1 b1 E. now apply Hfail in E.
    + intros a1 b1 E. now apply Hfail in E.
  - split; [reflexivity|]. split; [exact Hwin|]. eexists.
    split; [rewrite ?Hno; reflexivity|]. split; [|left; first [exact Hlo | reflexivity]].
    intros a1 b1 E. now apply Hfail in E.
Qed.


(** The decimal rendering of an index tells the index. *)
Lemma ofNat_inj (n m : nat) : JSString.ofNat n = JSString.ofNat m -> n = m.
Proof.
  assert (Hnn : forall k, Nat.to_uint k <> Decimal.Nil).
  { intros k E. pose proof (Unsigned.of_to k) as Hk. rewrite E in Hk.
    simpl in Hk. subst k. discriminate. }
  unfold JSString.ofNat. intros E. apply Unsigned.to_uint_inj.
  pose proof (NilZero.usu _ (Hnn n)) as Hn. pose proof (NilZero.usu _ (Hnn m)) as Hm.
  rewrite E in Hn. rewrite Hn in Hm. now injection Hm.
Qed.

Lemma NoDup_map_injective {A B} (f : A -> B) (l : list A) :
  (forall a b, f a = f b -> a = b) -> NoDup l -> NoDup (map f l).
Proof.
  intros Hinj. induction 1 as [|x l Hx Hnd IH]; simpl; constructor; [|exact IH].
  intros Hin. apply in_map_iff in Hin. destruct Hin as [y [E Hy]].
  apply Hinj in E. now subst y.
Qed.

Lemma numbered_NoDup (n : nat) : NoDup (numbered n).
Proof.
  unfold numbered. apply NoDup_map_injective; [|apply seq_NoDup].
  intros a b E. apply ofNat_inj.
  repeat (injection E as E). exact E.
Qed.

(** What the callback of [response.topics.map] makes of a payload. *)
Lemma mapiC_topics (payload : list (value num)) :
  forall (i : nat) (topics : list (Topic num)),
    mapiC topicOfPayload i payload = Normal topics ->
    map topic_id topics
    = map (fun idx => ("topic-" ++ JSString.ofNat idx)%string) (seq i (length payload))
    /\ Forall2 decodes payload topics.
Proof.
  induction payload as [|p payload IH]; intros i topics E; simpl in E.
  - injection E as <-. split; [reflexivity|constructor].
  - unfold topicOfPayload at 1 in E.
    destruct (get p "topic") as [name|e] eqn:Hname; simpl in E; [|discriminate].
    destruct (get p "questions") as [qs|e] eqn:Hqs; simpl in E; [|discriminate].
    destruct (mapiC topicOfPayload (S i) payload) as [rest|e] eqn:Hrest;
      simpl in E; [|discriminate].
    injection E as <-. destruct (IH _ _ Hrest) as [Hids Hdec]. split.
    + simpl. now rewrite Hids.
    + constructor; [|exact Hdec]. split; [exact Hname|]. exists qs. auto.
Qed.

(** X16: [generateSubject] validates before it calls the backend, and the
    name it sends is the name it stores: with an input that is empty after
    trimming, or the name of a subject of the collection (case ignored),
    nothing is handed to [fetch]; otherwise exactly one request goes out, a
    POST of the trimmed input to [/generate], and if a subject is added it
    carries that same name. *)
Theorem generateSubject_posts_the_name_once (env : environment num) (w : world num) :
  let name := trim (subjectInput (page w)) in
  let req := contentRequest (num := num) defaultBaseUrl name in
  let w' := stateAfter (generateSubject env) w in
  (name = "" \/ find (sameNameIgnoringCase name) (subjects w) <> None ->
   network w' = network w)
  /\ (name <> "" -> find (sameNameIgnoringCase name) (subjects w) = None ->
      network w' = network w ++ [req]
      /\ req_endpoint req = "/generate" /\ req_method req = "POST"
      /\ req_body req = Some (VObj [("subject", VStr name)])
      /\ (subjects w' = subjects w
          \/ exists topics, subjects w' = newSubject env name topics :: subjects w)).
Proof.
  intros name req w'. split.
  - intros Hskip. subst w'.
    unfold stateAfter, generateSubject, bind, gets. simpl. fold name.
    destruct (nonEmpty name) eqn:Hname; simpl; [|reflexivity].
    destruct Hskip as [E | Hfound].
    + rewrite E in Hname. discriminate.
    + destruct (find (sameNameIgnoringCase name) (subjects w)); [reflexivity|].
      now contradiction Hfound.
  - intros Hname Hfind.
    destruct (generateSubject_run env w Hname Hfind) as [Hnet [Hbody [Hsub _]]].
    fold name req w' in Hnet, Hbody, Hsub.
    split; [exact Hnet|]. split; [reflexivity|]. split; [reflexivity|].
    split; [exact Hbody|].
    destruct Hsub as [[Hs _] | [response [payload [topics [_ [_ [_ [Hs _]]]]]]]];
      [now left | right; now exists topics].
Qed.

(** X17: every run of [generateSubject] ends normally and tells the user
    one thing: it never throws, it adds exactly one notice, and the notice
    of success comes only when the subject was added to the collection,
    the collection saved and the input cleared; a loading indicator that
    was off is off at the end, and the globals of the window are not
    touched.  The same holds for a key press handled by
    [handleEnterKey], which adds no notice for a key other than Enter. *)
Theorem generateSubject_shows_one_notice (env : environment num) (w : world num) :
  let name := trim (subjectInput (page w)) in
  let w' := stateAfter (generateSubject env) w in
  outcome (generateSubject env) w = Normal tt
  /\ win w' = win w
  /\ (exists n,
       notices (page w') = notices (page w) ++ [n]
       /\ (forall a b, n = GeneratedTopics a b ->
           subjectInput (page w') = ""
           /\ exists topics,
               subjects w' = newSubject env name topics :: subjects w
               /\ ls_subjects (storage w') = Some (subjects w')))
  /\ (loading (page w) = false -> loading (page w') = false)
  /\ (forall key,
        outcome (handleEnterKey env key) w = Normal tt
        /\ (key <> "Enter" -> stateAfter (handleEnterKey env key) w = w)
        /\ (key = "Enter" -> stateAfter (handleEnterKey env key) w = w')).
Proof.
  intros name w'.
  destruct (generateSubject_page env w) as [Hout [Hwin [n [Hn [Hok Hload]]]]].
  fold name w' in Hwin, Hn, Hok, Hload.
  split; [exact Hout|]. split; [exact Hwin|]. split; [exists n; auto|]. split.
  - intros Hoff. destruct Hload as [Hl | [Hw _]]; [exact Hl|].
    rewrite Hw. simpl. exact Hoff.
  - intros key. unfold handleEnterKey.
    destruct (String.eqb_spec key "Enter") as [E|N].
    + split; [exact Hout|]. split; [intros Hk; now contradiction Hk|reflexivity].
    + split; [reflexivity|]. split; [reflexivity|]. intros Hk. now contradiction N.
Qed.




(** X19: the subject that [generateSubject] adds is made from the payload
    topic by topic: whenever the collection changes, the backend answered
    with an array of topics, the new subject is at the head with the id
    [Date.now()] and the trimmed name, its topics are as many as those of
    the payload, each with the name and the questions of its payload topic
    (no questions when the payload has none), and their ids are "topic-0",
    "topic-1", ... in order, so no two are the same; and the ids of the
    subjects stay unique when the clock shows a value that is not yet an
    id. *)
Theorem generateSubject_numbers_the_topics (env : environment num) (w : world num) :
  let name := trim (subjectInput (page w)) in
  let req := contentRequest (num := num) defaultBaseUrl name in
  let w' := stateAfter (generateSubject env) w in
  subjects w' <> subjects w ->
  exists response payload topics,
    responseOf env req = Normal response
    /\ get response "topics" = Normal (VArr payload)
    /\ subjects w' = newSubject env name topics :: subjects w
    /\ subject_id (newSubject env name topics) = dateNow env
    /\ map topic_id topics = numbered (length payload)
    /\ NoDup (map topic_id topics)
    /\ Forall2 decodes payload topics
    /\ (NoDup (map subject_id (subjects w)) ->
        ~ In (dateNow env) (map subject_id (subjects w)) ->
        NoDup (map subject_id (subjects w'))).
Proof.
  intros name req w' Hchanged.
  pose proof (generateSubject_cases env w) as Hcases. cbv zeta in Hcases.
  fold name w' in Hcases.
  destruct Hcases as [[Hsame _] | [Hname [Hfind _]]]; [now contradiction Hchanged|].
  apply nonEmpty_false_iff in Hname.
  destruct (generateSubject_run env w Hname Hfind) as [_ [_ [Hsub _]]].
  fold name req w' in Hsub.
  destruct Hsub as [[Hs _] | [response [payload [topics [Hr [Ht [Hmap [Hs _]]]]]]]];
    [now contradiction Hchanged|].
  destruct (mapiC_topics payload 0 topics Hmap) as [Hids Hdec].
  exists response, payload, topics.
  split; [exact Hr|]. split; [exact Ht|]. split; [exact Hs|]. split; [reflexivity|].
  split; [exact Hids|]. split; [|split; [exact Hdec|]].
  - fold (numbered (length payload)) in Hids. rewrite Hids. apply numbered_NoDup.
  - intros Hnd Hfresh. rewrite Hs. simpl. constructor; assumption.
Qed.

End MoreOfTheSubjectsPage.

Section AcrossThePages.
Context {num : Type} `{JSNumber num}.

Local Open Scope list_scope.

(** In a list with unique keys, [find] on the key of an element finds that
    element. *)
Lemma find_by_unique_key {A K : Type} (key : A -> K) (eqb : K -> K -> bool)
      (l : list A) (x : A) :
  (forall a b, eqb a b = true <-> a = b) ->
  NoDup (map key l) -> In x l ->
  find (fun y => eqb (key y) (key x)) l = Some x.
Proof.
  intros Heqb. induction l as [|y l IH]; intros Hnd Hin; [contradiction|].
  simpl in Hnd. apply NoDup_cons_iff in Hnd. destruct Hnd as [Hfresh Hnd].
  simpl. destruct (eqb (key y) (key x)) eqn:E.
  - apply Heqb in E. destruct Hin as [->|Hin]; [reflexivity|].
    exfalso. apply Hfresh. rewrite E. now apply in_map.
  - destruct Hin as [->|Hin]; [|now apply IH].
    assert (Hrefl : eqb (key x) (key x) = true) by now apply Heqb.
    congruence.
Qed.

(** Keys of the subjects that are unique stay unique among the subjects
    that a deletion keeps. *)
Lemma kept_keys_unique {K : Type} (key : Subject num -> K) (subjectId : Z)
      (l : list (Subject num)) :
  NoDup (map key l) ->
  NoDup (map key (filter (fun s => negb (Z.eqb (subject_id s) subjectId)) l)).
Proof.
  intros Hnd. induction l as [|x l IH]; simpl; [constructor|].
  simpl in Hnd. apply NoDup_cons_iff in Hnd. destruct Hnd as [Hfresh Hnd].
  destruct (negb (Z.eqb (subject_id x) subjectId)); simpl; [|now apply IH].
  constructor; [|now apply IH].
  intros Hin. apply Hfresh. apply in_map_iff in Hin. destruct Hin as [y [E Hy]].
  apply filter_In in Hy. rewrite <- E. apply in_map. tauto.
Qed.

(** One run of [viewTopicQuestions]: the first subject with the id and its
    first topic with the id are found, the task is stored and the location
    set; or nothing happens. *)
Lemma viewTopicQuestions_run (subjectId : Z) (topicId : string) (w : world num) :
  (viewTopicQuestions subjectId topicId w = (Normal tt, w)
   /\ (find (fun s => Z.eqb (subject_id s) subjectId) (subjects w) = None
       \/ exists s,
           find (fun s => Z.eqb (subject_id s) subjectId) (subjects w) = Some s
           /\ find (fun t => String.eqb (topic_id t) topicId) (subject_topics s) = None))
  \/ exists s t,
      find (fun s => Z.eqb (subject_id s) subjectId) (subjects w) = Some s
      /\ find (fun t => String.eqb (topic_id t) topicId) (subject_topics s) = Some t
      /\ viewTopicQuestions subjectId topicId w
         = (Normal tt,
            withWindow (setLocation "task.html")
                       (withStorage (setCurrentTaskData (taskOf s t)) w)).
Proof.
  unfold viewTopicQuestions, bind, gets, modify, navigate, ret. simpl.
  destruct (find _ (subjects w)) as [s|] eqn:Hs; simpl; [|left; auto].
  destruct (find _ (subject_topics s)) as [t|] eqn:Ht; simpl.
  - right. exists s, t. split; [reflexivity|]. split; [exact Ht|].
    apply find_some in Hs. apply find_some in Ht.
    destruct Hs as [_ Hs]. destruct Ht as [_ Ht].
    apply Z.eqb_eq in Hs. apply String.eqb_eq in Ht.
    unfold taskOf. now rewrite Hs, Ht.
  - left. split; [reflexivity|]. right. exists s. auto.
Qed.

(** X20: [viewTopicQuestions] never throws and changes nothing but the
    stored task and the location: the collection, its stored copy, the
    history, the page, the session arrays and the requests stay as they
    were.  Either the world is unchanged, or a subject of the collection
    with the id and one of its topics with the id were found, the task of
    that subject and topic is stored, marked as needing generation, and the
    location is the task page.  An id that no subject has changes
    nothing. *)
Theorem viewTopicQuestions_changes_only_the_task
        (subjectId : Z) (topicId : string) (w : world num) :
  let w' := stateAfter (viewTopicQuestions subjectId topicId) w in
  outcome (viewTopicQuestions subjectId topicId) w = Normal tt
  /\ subjects w' = subjects w /\ page w' = page w /\ network w' = network w
  /\ ls_subjects (storage w') = ls_subjects (storage w)
  /\ ls_taskHistory (storage w') = ls_taskHistory (storage w)
  /\ currentTaskQuestions (win w') = currentTaskQuestions (win w)
  /\ taskAnswers (win w') = taskAnswers (win w)
  /\ taskScores (win w') = taskScores (win w)
  /\ (w' = w
      \/ exists s t,
          In s (subjects w) /\ subject_id s = subjectId
          /\ In t (subject_topics s) /\ topic_id t = topicId
          /\ ls_currentTaskData (storage w') = Some (taskOf s t)
          /\ td_needsGeneration (taskOf s t) = true
          /\ location (win w') = Some "task.html")
  /\ (~ In subjectId (map subject_id (subjects w)) -> w' = w).
Proof.
  intros w'. subst w'. unfold outcome, stateAfter.
  destruct (viewTopicQuestions_run subjectId topicId w)
    as [[-> Hwhy] | [s [t [Hs [Ht ->]]]]]; simpl.
  - repeat (split; [reflexivity|]). split; [now left|]. reflexivity.
  - repeat (split; [reflexivity|]).
    apply find_some in Hs. apply find_some in Ht.
    destruct Hs as [Hins Hs]. destruct Ht as [Hint Ht].
    apply Z.eqb_eq in Hs. apply String.eqb_eq in Ht. split.
    + right. exists s, t. repeat (split; [assumption|]). auto.
    + intros Habsent. exfalso. apply Habsent. rewrite <- Hs. now apply in_map.
Qed.

(** [generateQuestions] on two names that are not empty and a count in the
    range posts them. *)
Lemma generateQuestions_posts
      (env : environment num) (baseUrl s t : string) (count : Z) (w : world num) :
  s <> "" -> t <> "" -> (1 <= count <= 20)%Z ->
  generateQuestions env baseUrl (VStr s) (VStr t) count w
  = (bindC (responseOf env (questionsRequest baseUrl s t count)) unwrapData,
     withNetwork (network w ++ [questionsRequest baseUrl s t count]) w).
Proof.
  intros Hs Ht Hc. unfold generateQuestions. simpl.
  apply nonEmpty_false_iff in Hs. apply nonEmpty_false_iff in Ht.
  rewrite Hs, Ht. simpl.
  destruct (Z.ltb_spec count 1); [lia|].
  destruct (Z.gtb_spec count 20); [lia|]. simpl.
  unfold bind, lift, ret. simpl. rewrite _request_spec.
  fold (questionsRequest (num := num) baseUrl s t count).
  destruct (responseOf env (questionsRequest baseUrl s t count)) as [response|e];
    simpl; [|reflexivity].
  unfold unwrapData. destruct (get response "data"); reflexivity.
Qed.

(** The requests of [generateQuestionsForTopic] are those of its one call
    of [generateQuestions]. *)
Lemma generateQuestionsForTopic_network
      (env : environment num) (taskData : TaskData num) (w : world num)
      (topicText : string) (r : completion (value num)) (reqs : list (request num)) :
  toStr (td_topic taskData) = Normal topicText ->
  (forall w0, generateQuestions env defaultBaseUrl (VStr (td_subject taskData))
                                (td_topic taskData) 5 w0
              = (r, withNetwork (network w0 ++ reqs) w0)) ->
  network (stateAfter (generateQuestionsForTopic env taskData) w) = network w ++ reqs.
Proof.
  intros Htopic Hgen.
  unfold stateAfter, generateQuestionsForTopic, generateQuestionsTry, bind, gets, lift,
    onWorld, modify, showLoading, hideLoading, setInnerHTML, notify. simpl.
  rewrite Htopic. simpl. rewrite Hgen. simpl.
  assert (Hcatch : forall error td (w1 : world num),
             network w1 = network w ++ reqs ->
             network (snd (generateQuestionsCatch error td w1)) = network w ++ reqs).
  { intros error td w1 Hw1.
    destruct (generateQuestionsCatch_effects error td w1) as [_ [_ [_ Hn]]].
    unfold stateAfter in Hn. now rewrite Hn. }
  destruct r as [response|error]; simpl; [|now apply Hcatch].
  destruct (questionsOfResponse response) as [questions|error]; simpl;
    [|now apply Hcatch].
  match goal with
  | |- context [storeTopicQuestions ?a ?b ?c ?x] =>
      destruct (storeTopicQuestions_effects a b c x)
        as [w1 [Hrun [_ [_ [Hn1 _]]]]];
        rewrite Hrun
  end.
  simpl in *.
  match goal with
  | |- context [renderTaskQuestions ?v ?x] =>
      destruct (renderTaskQuestions_effects v x) as [_ [_ [_ Hn2]]];
        unfold stateAfter in Hn2;
        destruct (renderTaskQuestions v x) as [[u|e] w2]
  end; simpl in *.
  - now rewrite Hn2, Hn1.
  - apply Hcatch. now rewrite Hn2, Hn1.
Qed.

(** X21: a click on a topic followed by the load of the task page asks the
    backend for five questions on that subject and topic: in a collection
    with unique subject ids, for a subject with unique topic ids, a name
    that is not empty and a topic whose name is a string that is not empty,
    [viewTopicQuestions] stores the task of that subject and topic, sends
    nothing and goes to the task page, and [loadTaskPage] then hands
    exactly one request to [fetch], for the trimmed names and a count of
    5, whatever the backend answers. *)
Theorem opening_a_topic_asks_for_five_questions
        (env : environment num) (w : world num)
        (s : Subject num) (t : Topic num) (topicName : string) :
  NoDup (map subject_id (subjects w)) -> In s (subjects w) ->
  NoDup (map topic_id (subject_topics s)) -> In t (subject_topics s) ->
  subject_name s <> "" -> topic_name t = VStr topicName -> topicName <> "" ->
  let w1 := stateAfter (viewTopicQuestions (subject_id s) (topic_id t)) w in
  let w2 := stateAfter (loadTaskPage env) w1 in
  ls_currentTaskData (storage w1) = Some (taskOf s t)
  /\ location (win w1) = Some "task.html"
  /\ network w1 = network w
  /\ network w2
     = network w ++ [questionsRequest defaultBaseUrl (subject_name s) topicName 5].
Proof.
  intros Hnd Hin Hndt Hint Hname Htopic HtopicName w1 w2.
  assert (Hs : find (fun y => Z.eqb (subject_id y) (subject_id s)) (subjects w) = Some s).
  { apply (find_by_unique_key subject_id Z.eqb); auto using Z.eqb_eq. }
  assert (Ht : find (fun y => String.eqb (topic_id y) (topic_id t)) (subject_topics s)
               = Some t).
  { apply (find_by_unique_key topic_id String.eqb); auto using String.eqb_eq. }
  assert (Hw1 : w1 = withWindow (setLocation "task.html")
                                (withStorage (setCurrentTaskData (taskOf s t)) w)).
  { unfold w1, stateAfter.
    destruct (viewTopicQuestions_run (subject_id s) (topic_id t) w)
      as [[_ [Hnone | [s0 [Hs0 Hnone]]]] | [s0 [t0 [Hs0 [Ht0 ->]]]]].
    - congruence.
    - rewrite Hs in Hs0. injection Hs0 as <-. congruence.
    - rewrite Hs in Hs0. injection Hs0 as <-. rewrite Ht in Ht0. injection Ht0 as <-.
      reflexivity. }
  split; [now rewrite Hw1|]. split; [now rewrite Hw1|]. split; [now rewrite Hw1|].
  unfold w2. rewrite Hw1.
  unfold stateAfter at 1, loadTaskPage, bind, gets, modify. simpl.
  match goal with
  | |- network (snd (generateQuestionsForTopic env ?td ?x)) = _ =>
      change (network (stateAfter (generateQuestionsForTopic env td) x)
              = network x ++ [questionsRequest defaultBaseUrl (subject_name s) topicName 5])
  end.
  apply (generateQuestionsForTopic_network env (taskOf s t) _ topicName
           (bindC (responseOf env (questionsRequest defaultBaseUrl (subject_name s)
                                                    topicName 5)) unwrapData)).
  - simpl. now rewrite Htopic.
  - intros w0. simpl. rewrite Htopic. apply generateQuestions_posts; auto. lia.
Qed.


(** One confirmed run of [deleteSubject], however the drawing of the cards
    ends. *)
Lemma deleteSubject_run (env : environment num) (subjectId : Z) (w : world num) :
  confirm env = true ->
  let kept := filter (fun s => negb (Z.eqb (subject_id s) subjectId)) (subjects w) in
  let w' := stateAfter (deleteSubject env subjectId) w in
  subjects w' = kept
  /\ storage w' = setSubjectsItem kept (storage w)
  /\ network w' = network w /\ win w' = win w.
Proof.
  intros Hconfirm kept w'. subst w'. unfold deleteSubject. rewrite Hconfirm.
  unfold stateAfter, bind, modify, saveState. simpl. fold kept.
  match goal with
  | |- context [renderSubjects ?x] =>
      destruct (renderSubjects_frame x) as [Hs [Hst Hn]];
        destruct (renderSubjects_page x) as [_ [_ [_ Hwin]]];
        unfold stateAfter in Hs, Hst, Hn, Hwin;
        destruct (renderSubjects x) as [[u|e1] w1]
  end; simpl in *; auto.
Qed.

(** X22: a confirmed [deleteSubject] removes every subject with the id and
    nothing else, with or without duplicates of the id: a subject is in the
    collection afterwards exactly when it was there before under another
    id; the shortened collection is the one written to the store; an id
    that no subject has leaves the collection as it was; deleting again
    changes nothing more; unique ids and unique names stay unique; and the
    requests, the window, the stored task (even one of the deleted
    subject) and the history are not touched. *)
Theorem deleteSubject_removes_all_with_the_id
        (env : environment num) (subjectId : Z) (w : world num) :
  confirm env = true ->
  let w' := stateAfter (deleteSubject env subjectId) w in
  (forall s, In s (subjects w') <-> In s (subjects w) /\ subject_id s <> subjectId)
  /\ ls_subjects (storage w') = Some (subjects w')
  /\ (~ In subjectId (map subject_id (subjects w)) -> subjects w' = subjects w)
  /\ subjects (stateAfter (deleteSubject env subjectId) w') = subjects w'
  /\ (NoDup (map subject_id (subjects w)) -> NoDup (map subject_id (subjects w')))
  /\ (uniqueNames (subjects w) -> uniqueNames (subjects w'))
  /\ network w' = network w /\ win w' = win w
  /\ ls_currentTaskData (storage w') = ls_currentTaskData (storage w)
  /\ ls_taskHistory (storage w') = ls_taskHistory (storage w).
Proof.
  intros Hconfirm w'.
  destruct (deleteSubject_run env subjectId w Hconfirm) as [Hs [Hst [Hn Hwin]]].
  fold w' in Hs, Hst, Hn, Hwin.
  destruct (deleteSubject_run env subjectId w' Hconfirm) as [Hs2 _].
  split; [|split; [|split; [|split; [|split; [|split]]]]].
  - intros s. rewrite Hs, filter_In.
    destruct (Z.eqb_spec (subject_id s) subjectId); simpl; split; intros [? ?];
      split; auto; discriminate.
  - now rewrite Hst, Hs.
  - intros Habsent. rewrite Hs. apply forallb_filter_id. apply forallb_forall.
    intros s Hin. destruct (Z.eqb_spec (subject_id s) subjectId) as [E|]; [|reflexivity].
    exfalso. apply Habsent. rewrite <- E. now apply in_map.
  - rewrite Hs2, Hs. apply forallb_filter_id. apply forallb_forall.
    intros s Hin. apply filter_In in Hin. tauto.
  - intros Hnd. rewrite Hs. now apply kept_keys_unique.
  - unfold uniqueNames. intros Hnd. rewrite Hs. now apply kept_keys_unique.
  - rewrite Hst. auto.
Qed.

(** X23: every change of the collection is saved before the handler
    ends: if the collection in memory is the one held under the [subjects]
    key of the store (or both are empty), it still is after each operation
    of the two pages, whatever the backend answers and however the
    operation ends: [generateSubject], a key press, [deleteSubject],
    [viewTopicQuestions], [startQuizForTopic], [loadTaskPage],
    [generateQuestionsForTopic], [submitTaskAnswer] and
    [submitAllTaskAnswers]. *)
Theorem collection_in_memory_is_the_one_saved (env : environment num) (w : world num) :
  persisted w ->
  persisted (stateAfter (generateSubject env) w)
  /\ (forall key, persisted (stateAfter (handleEnterKey env key) w))
  /\ (forall subjectId, persisted (stateAfter (deleteSubject env subjectId) w))
  /\ (forall subjectId topicId,
        persisted (stateAfter (viewTopicQuestions subjectId topicId) w))
  /\ (forall topicName, persisted (stateAfter (startQuizForTopic topicName) w))
  /\ persisted (stateAfter (loadTaskPage env) w)
  /\ (forall taskData, persisted (stateAfter (generateQuestionsForTopic env taskData) w))
  /\ (forall i typed, persisted (stateAfter (submitTaskAnswer env i typed) w))
  /\ persisted (stateAfter (submitAllTaskAnswers env) w).
Proof.
  intros Hp.
  assert (Hgen : persisted (stateAfter (generateSubject env) w)).
  { pose proof (generateSubject_cases env w) as Hcases. cbv zeta in Hcases.
    apply (persisted_keptOrSaved w); [exact Hp|]. unfold keptOrSaved.
    destruct Hcases as [[Hs Hst] | [_ [_ [response [topics [_ [_ Hsaved]]]]]]];
      [left; now rewrite Hs, Hst | now right]. }
  split; [exact Hgen|]. split; [|split; [|split; [|split; [|split; [|split; [|split]]]]]].
  - intros key. unfold handleEnterKey. destruct (String.eqb key "Enter"); assumption.
  - intros subjectId. destruct (confirm env) eqn:Hconfirm.
    + destruct (deleteSubject_run env subjectId w Hconfirm) as [Hs [Hst _]].
      unfold persisted, storedSubjects. now rewrite Hst, Hs.
    + unfold deleteSubject. now rewrite Hconfirm.
  - intros subjectId topicId. unfold stateAfter.
    destruct (viewTopicQuestions_run subjectId topicId w)
      as [[-> _] | [s [t [_ [_ ->]]]]]; exact Hp.
  - intros topicName. exact Hp.
  - destruct (loadTaskPage_effects env w) as [_ [_ [Hkept _]]].
    now apply (persisted_keptOrSaved w).
  - intros taskData.
    destruct (generateQuestionsForTopic_effects env taskData w) as [_ [_ [Hkept _]]].
    now apply (persisted_keptOrSaved w).
  - intros i typed.
    pose proof (submitTaskAnswer_shape env i typed w) as Hshape. cbv zeta in Hshape.
    destruct Hshape as [Hs [Hst _]]. unfold persisted. now rewrite Hs, Hst.
  - pose proof (submitAllTaskAnswers_effects env w) as Heff. cbv zeta in Heff.
    destruct Heff as [_ [_ [Hl [Hs _]]]]. unfold persisted, storedSubjects in *.
    now rewrite Hs, Hl.
Qed.

(** The names that are printed are those of the topics, one by one. *)
Lemma mapC_printed (ts : list (Topic num)) (names : list string) :
  mapC (fun t => toStr (topic_name t)) ts = Normal names ->
  Forall2 (fun t shown => toStr (topic_name t) = Normal shown) ts names.
Proof.
  revert names. induction ts as [|t ts IH]; intros names E; cbn [mapC] in E.
  - injection E as <-. constructor.
  - destruct (toStr (topic_name t)) as [shown|] eqn:Hshown; cbn [bindC] in E;
      [|discriminate].
    destruct (mapC _ ts) as [rest|]; cbn [bindC] in E; [|discriminate].
    injection E as <-. constructor; [exact Hshown | now apply IH].
Qed.

(** The cards that [cardOf] makes of a collection. *)
Lemma mapC_cardOf (l : list (Subject num)) (cards : list subjectCard) :
  mapC cardOf l = Normal cards -> Forall2 drawn l cards.
Proof.
  revert cards. induction l as [|s l IH]; intros cards E; cbn [mapC] in E.
  - injection E as <-. constructor.
  - unfold cardOf at 1 in E.
    destruct (mapC _ (firstn 3 (subject_topics s))) as [names|] eqn:Hnames;
      cbn [bindC] in E; [|discriminate].
    destruct (mapC cardOf l) as [rest|]; cbn [bindC] in E; [|discriminate].
    injection E as <-. constructor; [|now apply IH].
    unfold drawn. simpl. repeat (split; [reflexivity|]). now apply mapC_printed.
Qed.

(** What cards that are drawn for a collection show. *)
Lemma drawn_maps (l : list (Subject num)) (cards : list subjectCard) :
  Forall2 drawn l cards ->
  map card_id cards = map subject_id l
  /\ map card_name cards = map subject_name l
  /\ map card_topicCount cards = map (fun s => length (subject_topics s)) l
  /\ map (fun c => length (card_topics c)) cards
     = map (fun s => Nat.min 3 (length (subject_topics s))) l.
Proof.
  induction 1 as [|s c l cards [Hid [Hname [Hcount Hshown]]] Hrest IH]; simpl; [auto|].
  destruct IH as [IHid [IHname [IHcount IHshown]]].
  rewrite Hid, Hname, Hcount, IHid, IHname, IHcount, IHshown.
  apply Forall2_length in Hshown. rewrite <- Hshown, length_firstn. auto.
Qed.

(** The card at the place of a subject is the one drawn for it. *)
Lemma drawn_at (l : list (Subject num)) (cards : list subjectCard) :
  Forall2 drawn l cards ->
  forall s c, In (s, c) (combine l cards) -> drawn s c.
Proof.
  induction 1 as [|s0 c0 l cards Hd0 Hrest IH]; intros s c Hin; simpl in Hin;
    [contradiction|].
  destruct Hin as [E|Hin]; [|now apply IH].
  injection E as Es Ec. now rewrite <- Es, <- Ec.
Qed.

(** Names that are strings are printed as they are. *)
Lemma printed_strings (ts : list (Topic num)) (shown : list string) :
  Forall2 (fun t text => toStr (topic_name t) = Normal text) ts shown ->
  forall names, map topic_name ts = map VStr names -> shown = names.
Proof.
  induction 1 as [|t text ts rest Ht Hrest IH]; intros names Hnames.
  - destruct names; [reflexivity|discriminate].
  - destruct names as [|name names]; [discriminate|].
    simpl in Hnames. injection Hnames as Hname Hnames.
    rewrite Hname in Ht. simpl in Ht. injection Ht as <-.
    f_equal. now apply IH.
Qed.

(** X24: [renderSubjects] redraws all the cards or none: either it ends
    normally and the container holds one card per subject of the
    collection, in order, each with the id and the name of its subject,
    the count of all its topics and the printed names of its first three
    topics, in their order (a name that is a string is shown as it is);
    or it throws (a topic name that cannot be printed) and the container
    is left as it was.  Either way the collection, the store, the window,
    the requests, the input and the notices are not touched. *)
Theorem renderSubjects_draws_all_or_nothing (w : world num) :
  let w' := stateAfter renderSubjects w in
  let cards := subjectsContainer (page w') in
  ((outcome renderSubjects w = Normal tt
    /\ Forall2 drawn (subjects w) cards
    /\ map card_id cards = map subject_id (subjects w)
    /\ map card_name cards = map subject_name (subjects w)
    /\ map card_topicCount cards = map (fun s => length (subject_topics s)) (subjects w)
    /\ map (fun c => length (card_topics c)) cards
       = map (fun s => Nat.min 3 (length (subject_topics s))) (subjects w)
    /\ (forall s c names,
          In (s, c) (combine (subjects w) cards) ->
          map topic_name (firstn 3 (subject_topics s)) = map VStr names ->
          card_topics c = names))
   \/ ((exists e, outcome renderSubjects w = Throw e) /\ w' = w))
  /\ subjects w' = subjects w /\ storage w' = storage w /\ win w' = win w
  /\ network w' = network w
  /\ subjectInput (page w') = subjectInput (page w)
  /\ notices (page w') = notices (page w).
Proof.
  intros w' cards. split.
  - subst cards w'. unfold outcome, stateAfter, renderSubjects, bind, gets, lift, modify.
    simpl. destruct (mapC cardOf (subjects w)) as [shown|e] eqn:Hshown; simpl.
    + left. apply mapC_cardOf in Hshown. split; [reflexivity|]. split; [exact Hshown|].
      destruct (drawn_maps _ _ Hshown) as [Hid [Hname [Hcount Hlen]]].
      repeat (split; [assumption|]).
      intros s c names Hin Hnames.
      pose proof (drawn_at _ _ Hshown s c Hin) as Hd.
      destruct Hd as [_ [_ [_ Hprinted]]].
      exact (printed_strings _ _ Hprinted names Hnames).
    + right. split; [now exists e | reflexivity].
  - destruct (renderSubjects_frame w) as [Hs [Hst Hn]].
    destruct (renderSubjects_page w) as [Hin [_ [Hno Hwin]]].
    fold w' in Hs, Hst, Hn, Hin, Hno, Hwin. auto 10.
Qed.

End AcrossThePages.


(* ================================================================== *)
(** * Runs of [generateSubject] that overlap *)

Section OverlappingRuns.
Context {num : Type} `{JSNumber num}.

Local Open Scope list_scope.

(** A run of [generateSubject] that nothing interrupts is the run up to the
    [await] followed at once by the run from the [await] on. *)
Lemma generateSubject_uninterrupted (env : environment num) (w : world num) :
  generateSubject env w
  = bind (generateSubjectUntilAwait env) (resumeSubject env) w.
Proof.
  unfold generateSubject, generateSubjectUntilAwait, resumeSubject,
    generateSubjectAfterAwait, bind, gets, ret, notify, modify. simpl.
  destruct (nonEmpty (trim (subjectInput (page w)))); simpl; [|reflexivity].
  destruct (find _ (subjects w)); simpl; [reflexivity|].
  unfold tryCatch, bind, showLoading, modify, lift. simpl.
  destruct (generateContent env defaultBaseUrl _ _) as [[response|e] w1]; reflexivity.
Qed.

End OverlappingRuns.

(** C9: Enter pressed twice on the name "Go" before the backend has
    answered.  Both runs pass the check for an existing subject, since
    neither has added its subject yet; both send their request; and both
    add a subject "Go" when they are resumed.  The names were unique
    before, and are not after: the collection, in memory and as saved,
    holds "Go" twice. *)
Theorem generateSubject_twice_adds_the_name_twice :
  let w := subjectsPage "Go" in
  let w' := stateAfter (generateSubjectTwice answering answeringLater) w in
  uniqueNames (subjects w)
  /\ map subject_name (subjects w') = ["Go"; "Go"; "Python"; "Rust"]
  /\ map subject_id (subjects w') = [1700000000850; 1700000000000; 1; 2]%Z
  /\ ~ uniqueNames (subjects w')
  /\ ls_subjects (storage w') = Some (subjects w')
  /\ network w' = [contentRequest defaultBaseUrl "Go"; contentRequest defaultBaseUrl "Go"]
  /\ notices (page w') = [GeneratedTopics "1" "2"; GeneratedTopics "1" "2"].
Proof.
  cbv zeta. split; [|split; [|split; [|split; [|split; [|split]]]]].
  - unfold uniqueNames. simpl. repeat constructor; simpl; intuition discriminate.
  - vm_compute. reflexivity.
  - vm_compute. reflexivity.
  - unfold uniqueNames.
    assert (E : map (fun s => toLowerCase (subject_name s))
                    (subjects (stateAfter (generateSubjectTwice answering answeringLater)
                                          (subjectsPage "Go")))
                = ["go"; "go"; "python"; "rust"]) by (vm_compute; reflexivity).
    rewrite E. intros Hnd. apply NoDup_cons_iff in Hnd. destruct Hnd as [Hfresh _].
    apply Hfresh. left. reflexivity.
  - vm_compute. reflexivity.
  - vm_compute. reflexivity.
  - vm_compute. reflexivity.
Qed.

(* ================================================================== *)
(** * The further properties on the sample states *)


Lemma _request_not_ok_throws_witness :
  (* a [detail] that is a string carries no message: the status is reported *)
  outcome (_request overQuota (contentRequest defaultBaseUrl "Go")) freshWorld
  = Throw (Error "HTTP 429: Too Many Requests").
Proof.
  pose proof (_request_not_ok_throws
                overQuota (contentRequest defaultBaseUrl "Go") freshWorld
                429 "Too Many Requests"
                (Normal (VObj [("detail", VStr "Daily limit reached")])) eq_refl) as Hrun.
  cbv zeta in Hrun. destruct Hrun as [_ [_ [_ [Hchain _]]]].
  destruct Hchain as [_ [_ Hfallback]].
  - discriminate.
  - discriminate.
  - apply Hfallback; reflexivity.
Defined.

Lemma generateQuiz_validates_topic_and_count_witness :
  (* a count of 51 is refused before the network *)
  stateAfter (generateQuiz timedOut defaultBaseUrl (VStr "Loops") 51) freshWorld
  = freshWorld
  (* a count of 50 passes *)
  /\ generateQuiz timedOut defaultBaseUrl (VStr "Loops") 50 freshWorld
     = (responseOf timedOut (quizRequest defaultBaseUrl "Loops" 50),
        withNetwork (network freshWorld ++ [quizRequest defaultBaseUrl "Loops" 50])
                    freshWorld).
Proof.
  split.
  - apply (proj1 (generateQuiz_validates_topic_and_count
                    timedOut defaultBaseUrl (VStr "Loops") "" 51 freshWorld)).
    right. right. lia.
  - apply (proj2 (generateQuiz_validates_topic_and_count
                    timedOut defaultBaseUrl VNull "Loops" 50 freshWorld)).
    + discriminate.
    + lia.
Defined.

Lemma answerDoubt_validates_question_and_defaults_context_witness :
  (* a blank question is refused, whatever the context *)
  answerDoubt timedOut defaultBaseUrl (argument (Some "  ")) (VStr "Python") freshWorld
  = (Throw (Error "Question cannot be empty"), freshWorld)
  (* a question without a context is sent with an empty context *)
  /\ network (stateAfter (answerDoubt timedOut defaultBaseUrl (VStr " What is a loop? ")
                                      (argument None)) freshWorld)
     = network freshWorld ++ [doubtRequest defaultBaseUrl " What is a loop? " ""].
Proof.
  split.
  - apply (proj1 (answerDoubt_validates_question_and_defaults_context
                    timedOut defaultBaseUrl (Some "  ") None freshWorld)).
    reflexivity.
  - apply (proj2 (answerDoubt_validates_question_and_defaults_context
                    timedOut defaultBaseUrl (Some " What is a loop? ") None freshWorld)
                 " What is a loop? " eq_refl).
    simpl. discriminate.
Defined.

Lemma generateContent_validates_and_posts_once_witness :
  generateContent timedOut defaultBaseUrl (argument None) freshWorld
  = (Throw (Error "Subject cannot be empty"), freshWorld)
  /\ generateContent timedOut defaultBaseUrl (VStr " Go ") freshWorld
     = (responseOf timedOut (contentRequest defaultBaseUrl " Go "),
        withNetwork (network freshWorld ++ [contentRequest defaultBaseUrl " Go "])
                    freshWorld).
Proof.
  split.
  - apply (proj1 (generateContent_validates_and_posts_once
                    timedOut defaultBaseUrl None freshWorld)).
    exact I.
  - apply (proj2 (generateContent_validates_and_posts_once
                    timedOut defaultBaseUrl (Some " Go ") freshWorld) " Go " eq_refl).
    simpl. discriminate.
Defined.


Lemma submitTaskAnswer_touches_one_slot_witness :
  let w := session 1 2 3 in
  let w' := stateAfter (submitTaskAnswer answering 2 "It repeats a block.") w in
  exists answers' scores',
    taskAnswers (win w') = Some answers'
    /\ taskScores (win w') = Some scores'
    /\ (forall j, j <> 2 ->
        nth j answers' None = nth j [Some "an answer"; Some "an answer"; None] None
        /\ nth j scores' None = nth j [Some 1%Z; Some 0%Z; None] None)
    /\ (nth 2 scores' None = nth 2 [Some 1%Z; Some 0%Z; None] None
        \/ nth 2 scores' None = Some 0%Z \/ nth 2 scores' None = Some 1%Z)
    /\ currentTaskQuestions (win w') = currentTaskQuestions (win w).
Proof.
  apply (submitTaskAnswer_touches_one_slot
           answering 2 "It repeats a block." (session 1 2 3)
           [Some "an answer"; Some "an answer"; None] [Some 1%Z; Some 0%Z; None]).
  - reflexivity.
  - reflexivity.
Defined.

Lemma submitTaskAnswer_sends_one_verification_witness :
  (* a blank answer sends nothing *)
  (let w' := stateAfter (submitTaskAnswer timedOut 0 "   ") (session 0 0 3) in
   network w' = network (session 0 0 3) /\ win w' = win (session 0 0 3))
  (* an answer to the first question is sent trimmed, once *)
  /\ network (stateAfter (submitTaskAnswer timedOut 0 " A block. ") (session 0 0 3))
     = network (session 0 0 3)
       ++ [verifyRequest verificationBaseUrl "What is a loop?" "A block."].
Proof.
  split.
  - apply (proj1 (submitTaskAnswer_sends_one_verification
                    timedOut 0 "   " (session 0 0 3) [] "")).
    reflexivity.
  - apply (proj2 (submitTaskAnswer_sends_one_verification
                    timedOut 0 " A block. " (session 0 0 3)
                    (repeat (canonical (VStr "What is a loop?")) 3) "What is a loop?")).
    + simpl. discriminate.
    + reflexivity.
    + reflexivity.
    + discriminate.
Defined.

Lemma session_arrays_stay_aligned_witness :
  aligned (win (stateAfter (submitTaskAnswer answering 1 "A block.") (session 1 1 3)))
  /\ aligned (win (stateAfter (loadTaskPage answering) (session 1 1 3))).
Proof.
  assert (Hal : aligned (win (session 1 1 3))) by (simpl; split; reflexivity).
  split.
  - apply (proj1 (proj2 (session_arrays_stay_aligned answering (session 1 1 3) Hal))).
  - apply (proj2 (proj2 (proj2 (proj2
             (session_arrays_stay_aligned answering (session 1 1 3) Hal))))).
Defined.

Lemma generation_keeps_subjects_and_topics_witness :
  NoDup (map subject_id
             (subjects (stateAfter (generateQuestionsForTopic answering loopsTask)
                                   taskPageEntered))).
Proof.
  apply (proj1 (proj2 (proj2 (generation_keeps_subjects_and_topics
                                answering loopsTask taskPageEntered)))).
  simpl. repeat constructor; simpl; intuition discriminate.
Defined.


Lemma failed_generation_writes_nothing_witness :
  let w' := stateAfter (generateQuestionsForTopic timedOut loopsTask) taskPageEntered in
  storage w' = storage taskPageEntered /\ subjects w' = subjects taskPageEntered.
Proof.
  apply (failed_generation_writes_nothing
           timedOut loopsTask taskPageEntered "Loops"
           (Error "signal is aborted without reason")).
  - reflexivity.
  - reflexivity.
Defined.


Lemma computeScore_sound_up_to_200_witness :
  exists z : Z,
    computeScore 23 40 = Number.ofZ z
    /\ (0 <= z <= 100)%Z
    /\ (exactScore 23 40 - 1 <= z <= exactScore 23 40)%Z.
Proof.
  apply (proj1 (computeScore_sound_up_to_200 23 40 ltac:(lia) ltac:(lia))).
Defined.

Lemma generateSubject_posts_the_name_once_witness :
  (* a blank input and a name that is taken send nothing *)
  network (stateAfter (generateSubject answering) (subjectsPage "   ")) = []
  /\ network (stateAfter (generateSubject answering) (subjectsPage " pYTHON ")) = []
  (* a new name is sent trimmed, once *)
  /\ network (stateAfter (generateSubject answering) (subjectsPage " Go "))
     = [] ++ [contentRequest defaultBaseUrl "Go"].
Proof.
  split; [|split].
  - apply (proj1 (generateSubject_posts_the_name_once answering (subjectsPage "   "))).
    left. reflexivity.
  - apply (proj1 (generateSubject_posts_the_name_once answering (subjectsPage " pYTHON "))).
    right. simpl. discriminate.
  - apply (proj2 (generateSubject_posts_the_name_once answering (subjectsPage " Go "))).
    + simpl. discriminate.
    + reflexivity.
Defined.

Lemma generateSubject_shows_one_notice_witness :
  loading (page (stateAfter (generateSubject timedOut) (subjectsPage "Go"))) = false
  /\ stateAfter (handleEnterKey timedOut "a") (subjectsPage "Go") = subjectsPage "Go".
Proof.
  pose proof (generateSubject_shows_one_notice timedOut (subjectsPage "Go")) as Hrun.
  cbv zeta in Hrun. destruct Hrun as [_ [_ [_ [Hload Hkey]]]].
  split.
  - apply Hload. reflexivity.
  - apply (proj1 (proj2 (Hkey "a"))). discriminate.
Defined.


Lemma generateSubject_numbers_the_topics_witness :
  let w := subjectsPage "Go" in
  let w' := stateAfter (generateSubject answering) w in
  exists response payload topics,
    responseOf answering (contentRequest defaultBaseUrl "Go") = Normal response
    /\ get response "topics" = Normal (VArr payload)
    /\ subjects w' = newSubject answering "Go" topics :: subjects w
    /\ subject_id (newSubject answering "Go" topics) = dateNow answering
    /\ map topic_id topics = numbered (length payload)
    /\ NoDup (map topic_id topics)
    /\ Forall2 decodes payload topics
    /\ (NoDup (map subject_id (subjects w)) ->
        ~ In (dateNow answering) (map subject_id (subjects w)) ->
        NoDup (map subject_id (subjects w'))).
Proof.
  apply (generateSubject_numbers_the_topics answering (subjectsPage "Go")).
  intros E. apply (f_equal (@length _)) in E. vm_compute in E. discriminate.
Defined.

Lemma viewTopicQuestions_changes_only_the_task_witness :
  stateAfter (viewTopicQuestions 7 "topic-0") (subjectsPage "") = subjectsPage "".
Proof.
  apply (proj2 (proj2 (proj2 (proj2 (proj2 (proj2 (proj2 (proj2 (proj2 (proj2
           (viewTopicQuestions_changes_only_the_task
              7 "topic-0" (subjectsPage "")))))))))))).
  simpl. intuition discriminate.
Defined.

Lemma opening_a_topic_asks_for_five_questions_witness :
  let w1 := stateAfter (viewTopicQuestions 1 "topic-0") (subjectsPage "") in
  let w2 := stateAfter (loadTaskPage timedOut) w1 in
  ls_currentTaskData (storage w1) = Some loopsTask
  /\ location (win w1) = Some "task.html"
  /\ network w1 = []
  /\ network w2 = [] ++ [questionsRequest defaultBaseUrl "Python" "Loops" 5].
Proof.
  apply (opening_a_topic_asks_for_five_questions
           timedOut (subjectsPage "") python
           {| topic_id := "topic-0"; topic_name := VStr "Loops";
              topic_questions := VArr [VStr "What is a loop?"] |} "Loops").
  - simpl. repeat constructor; simpl; intuition discriminate.
  - simpl. left. reflexivity.
  - simpl. repeat constructor; simpl; intuition discriminate.
  - simpl. left. reflexivity.
  - discriminate.
  - reflexivity.
  - discriminate.
Defined.

Lemma deleteSubject_removes_all_with_the_id_witness :
  let w' := stateAfter (deleteSubject answering 2) (subjectsPage "") in
  ls_subjects (storage w') = Some (subjects w')
  /\ ls_currentTaskData (storage w') = None.
Proof.
  pose proof (deleteSubject_removes_all_with_the_id
                answering 2 (subjectsPage "") eq_refl) as Hrun.
  cbv zeta in Hrun. destruct Hrun as [_ [Hsaved [_ [_ [_ [_ [_ [_ [Htask _]]]]]]]]].
  split; [exact Hsaved | exact Htask].
Defined.

Lemma collection_in_memory_is_the_one_saved_witness :
  persisted (stateAfter (generateSubject answering) (subjectsPage "Go"))
  /\ persisted (stateAfter (deleteSubject answering 1) (subjectsPage "Go")).
Proof.
  pose proof (collection_in_memory_is_the_one_saved
                answering (subjectsPage "Go") eq_refl) as Hrun.
  destruct Hrun as [Hgen [_ [Hdel _]]].
  split; [exact Hgen | exact (Hdel 1%Z)].
Defined.

Lemma renderSubjects_draws_all_or_nothing_witness :
  (* the card of "Python" shows the name of its one topic *)
  exists c,
    In (python, c)
       (combine (subjects (subjectsPage ""))
                (subjectsContainer (page (stateAfter renderSubjects (subjectsPage "")))))
    /\ card_topics c = ["Loops"].
Proof.
  destruct (proj1 (renderSubjects_draws_all_or_nothing (subjectsPage "")))
    as [[_ [_ [_ [_ [_ [_ Hnames]]]]]] | [[e He] _]].
  - eexists. split.
    + left. reflexivity.
    + apply (Hnames python _ ["Loops"]); [left; reflexivity | reflexivity].
  - vm_compute in He. discriminate.
Defined.
